(** * Verification of the prompt interpreter [Handler]
  (src/bmwgroupcodingtaskakash.py)

  The development embeds the [Handler] class as state-passing functions over a
  record of its attributes.  The collaborators the class calls but does not
  define (the spaCy annotator, fuzzywuzzy's scorers, dateparser's search) are
  the fields of an environment record [Env]; every theorem quantifies over
  it.  Strings are byte strings; the string helpers follow Python's [str]
  methods on ASCII text. *)

From Stdlib Require Import String Ascii List ZArith Lia Bool Arith.
Import ListNotations.
Open Scope string_scope.
Open Scope list_scope.

(** ** Python string primitives *)

Module PyStr.

Definition in_range (lo hi : nat) (c : ascii) : bool :=
  let n := nat_of_ascii c in (lo <=? n)%nat && (n <=? hi)%nat.

(** [str.lower] on one ASCII character. *)
Definition lower_char (c : ascii) : ascii :=
  if in_range 65 90 c then ascii_of_nat (nat_of_ascii c + 32) else c.

(** [s.lower()] on ASCII text: the letters A-Z only.  A prompt with other
    upper-case letters is outside the model. *)
Fixpoint lower (s : string) : string :=
  match s with
  | EmptyString => EmptyString
  | String c s' => String (lower_char c) (lower s')
  end.

(** [sub in s] *)
Fixpoint contains (sub s : string) : bool :=
  if String.prefix sub s then true
  else match s with
       | EmptyString => false
       | String _ s' => contains sub s'
       end.

(** [s[n:]] *)
Fixpoint drop (n : nat) (s : string) : string :=
  match n, s with
  | O, _ => s
  | S k, EmptyString => EmptyString
  | S k, String _ s' => drop k s'
  end.

(** Scan of [s.replace(old, "")] for a non-empty [old]: [skip] counts the
    characters of the current occurrence still to be dropped. *)
Fixpoint remove_scan (old : string) (skip : nat) (s : string) : string :=
  match s with
  | EmptyString => EmptyString
  | String c s' =>
      match skip with
      | S k => remove_scan old k s'
      | O =>
          if String.prefix old s
          then remove_scan old (String.length old - 1) s'
          else String c (remove_scan old 0 s')
      end
  end.

(** [s.replace(old, "")]: every non-overlapping occurrence, left to right;
    an empty [old] leaves [s] as it is. *)
Definition remove_all (old s : string) : string :=
  if (old =? "")%string then s else remove_scan old 0 s.

(** [s.replace(old, "", 1)]: the leftmost occurrence only. *)
Fixpoint remove_first (old s : string) : string :=
  if String.prefix old s then drop (String.length old) s
  else match s with
       | EmptyString => EmptyString
       | String c s' => String c (remove_first old s')
       end.

(** [c.isspace()] on ASCII: tab to carriage return, the four separators
    0x1c-0x1f, and space. *)
Definition is_space (c : ascii) : bool :=
  in_range 9 13 c || in_range 28 32 c.

Definition flush (cur : string) (k : list string) : list string :=
  match cur with
  | EmptyString => k
  | _ => cur :: k
  end.

Fixpoint split_scan (cur s : string) : list string :=
  match s with
  | EmptyString => flush cur []
  | String c s' =>
      if is_space c then flush cur (split_scan "" s')
      else split_scan (cur ++ String c "") s'
  end.

(** [s.split()] *)
Definition split (s : string) : list string := split_scan "" s.

(** [sep.join(l)] *)
Definition join (sep : string) (l : list string) : string := String.concat sep l.

Fixpoint mem_char (c : ascii) (chars : string) : bool :=
  match chars with
  | EmptyString => false
  | String d chars' => Ascii.eqb c d || mem_char c chars'
  end.

Fixpoint lstrip (chars s : string) : string :=
  match s with
  | EmptyString => EmptyString
  | String c s' => if mem_char c chars then lstrip chars s' else s
  end.

Fixpoint rev_onto (s acc : string) : string :=
  match s with
  | EmptyString => acc
  | String c s' => rev_onto s' (String c acc)
  end.

Definition rev (s : string) : string := rev_onto s "".

Definition rstrip (chars s : string) : string := rev (lstrip chars (rev s)).

(** [s.strip(chars)] *)
Definition strip (chars s : string) : string := rstrip chars (lstrip chars s).

(** [x in l] for a list of strings. *)
Definition mem (x : string) (l : list string) : bool :=
  existsb (String.eqb x) l.

(** [len(set(a).intersection(set(b)))] *)
Definition inter_size (a b : list string) : nat :=
  List.length (nodup string_dec (filter (fun x => mem x b) a)).

End PyStr.

(** ** The regular expression of the segmenter

  [split_regex] is an alternation of literals, each either wrapped in word
  boundaries ([\bw\b], one per cue token) or bare ([,] and [\.]). *)

Module Re.

Inductive alt : Type :=
| Bounded (w : string)
| Plain (w : string).

(** [\w] on ASCII: letters, digits and the underscore; bytes of a non-ASCII
    character count as word characters. *)
Definition is_word (c : ascii) : bool :=
  PyStr.in_range 48 57 c || PyStr.in_range 65 90 c || PyStr.in_range 97 122 c
  || Ascii.eqb c "_"%char || PyStr.in_range 128 255 c.

Definition is_word_opt (c : option ascii) : bool :=
  match c with
  | Some c => is_word c
  | None => false
  end.

Definition head (s : string) : option ascii :=
  match s with
  | EmptyString => None
  | String c _ => Some c
  end.

Fixpoint last (s : string) (d : option ascii) : option ascii :=
  match s with
  | EmptyString => d
  | String c s' => last s' (Some c)
  end.

(** [\b] between the characters [a] and [b] ([None] at either end of the
    text). *)
Definition boundary (a b : option ascii) : bool :=
  xorb (is_word_opt a) (is_word_opt b).

(** Length of the match of one alternative at the current position, where
    [prev] is the character before it. *)
Definition match_alt (prev : option ascii) (s : string) (a : alt) : option nat :=
  match a with
  | Plain w => if String.prefix w s then Some (String.length w) else None
  | Bounded w =>
      if String.prefix w s
         && boundary prev (head s)
         && boundary (last w prev) (head (PyStr.drop (String.length w) s))
      then Some (String.length w) else None
  end.

(** The alternation takes the first alternative that matches. *)
Fixpoint match_alts (alts : list alt) (prev : option ascii) (s : string) : option nat :=
  match alts with
  | [] => None
  | a :: alts' =>
      match match_alt prev s a with
      | Some n => Some n
      | None => match_alts alts' prev s
      end
  end.

(** [re.split]: [skip] counts the characters of the current match still to
    be consumed, [cur] is the piece being collected.  Every alternative of
    [split_regex] is a non-empty literal, so a match consumes at least one
    character. *)
Fixpoint split_scan (alts : list alt) (skip : nat) (prev : option ascii)
    (cur s : string) : list string :=
  match s with
  | EmptyString => [cur]
  | String c s' =>
      match skip with
      | S k => split_scan alts k (Some c) cur s'
      | O =>
          match match_alts alts prev s with
          | Some (S k) => cur :: split_scan alts k (Some c) "" s'
          | _ => split_scan alts 0 (Some c) (cur ++ String c "") s'
          end
      end
  end.

Definition split (alts : list alt) (s : string) : list string :=
  split_scan alts 0 None "" s.

End Re.

(** ** Data model *)

(** A token of the annotated document with the features the class reads. *)
Record Token : Type := mkToken {
  tok_text : string;
  lemma_ : string;
  pos_ : string;
  tag_ : string;
  dep_ : string;
  is_oov : bool
}.

(** An arc of [displacy.parse_deps]. *)
Record Arc : Type := mkArc {
  arc_start : Z;
  arc_end : Z;
  arc_label : string;
  arc_dir : string
}.

(** A named entity. *)
Record Ent : Type := mkEnt {
  ent_text : string;
  label_ : string
}.

(** The spaCy document: its text, tokens, dependency arcs and entities. *)
Record Doc : Type := mkDoc {
  doc_text : string;
  tokens : list Token;
  arcs : list Arc;
  ents : list Ent
}.

Record datetime : Type := mkDatetime {
  year : Z;
  month : Z;
  day : Z
}.

(** The collaborators: [spacy.load('en_core_web_md')] applied to a text,
    [fuzz.ratio], [fuzz.partial_ratio], [search_dates] with its
    [PREFER_DAY_OF_MONTH] setting ([None] when it finds nothing) and
    [strftime('%Y-%m-%d')]. *)
Record Env : Type := mkEnv {
  nlp : string -> Doc;
  fuzz_ratio : string -> string -> Z;
  fuzz_partial_ratio : string -> string -> Z;
  search_dates : string -> string -> option (list (string * datetime));
  strftime_ymd : datetime -> string
}.

(** A dict in insertion order. *)
Definition dict : Type := list (string * string).

Definition dict_keys (d : dict) : list string := map fst d.

Definition dict_values (d : dict) : list string := map snd d.

(** [d[k]] *)
Fixpoint dict_get (d : dict) (k : string) : option string :=
  match d with
  | [] => None
  | (k', v) :: d' => if (k' =? k)%string then Some v else dict_get d' k
  end.

(** The attributes of a [Handler] object. *)
Record Handler : Type := mkHandler {
  text : string;
  response : Z;
  message : string;
  dates : string;
  model_code : list string;
  boolean_formula : string;
  model_codes_dic : dict;
  abbreviations_dic : dict
}.

Definition set_response (r : Z) (h : Handler) : Handler :=
  mkHandler (text h) r (message h) (dates h) (model_code h) (boolean_formula h)
    (model_codes_dic h) (abbreviations_dic h).

Definition set_message (m : string) (h : Handler) : Handler :=
  mkHandler (text h) (response h) m (dates h) (model_code h) (boolean_formula h)
    (model_codes_dic h) (abbreviations_dic h).

Definition set_dates (d : string) (h : Handler) : Handler :=
  mkHandler (text h) (response h) (message h) d (model_code h) (boolean_formula h)
    (model_codes_dic h) (abbreviations_dic h).

Definition set_model_code (c : list string) (h : Handler) : Handler :=
  mkHandler (text h) (response h) (message h) (dates h) c (boolean_formula h)
    (model_codes_dic h) (abbreviations_dic h).

Definition set_boolean_formula (f : string) (h : Handler) : Handler :=
  mkHandler (text h) (response h) (message h) (dates h) (model_code h) f
    (model_codes_dic h) (abbreviations_dic h).

(** [self.message += ". " + message] *)
Definition add_message (m : string) (h : Handler) : Handler :=
  set_message (message h ++ ". " ++ m) h.

(** ** Exceptions *)

Inductive Exc : Type :=
| KeyError (k : string)
| ListIndexError
| StringIndexError
| MaxEmpty
| NoneSubscript.

(** [str(e)] *)
Definition str_exc (e : Exc) : string :=
  match e with
  | KeyError k => "'" ++ k ++ "'"
  | ListIndexError => "list index out of range"
  | StringIndexError => "string index out of range"
  | MaxEmpty => "max() arg is an empty sequence"
  | NoneSubscript => "'NoneType' object is not subscriptable"
  end.

Inductive result (A : Type) : Type :=
| Ok (a : A)
| Raise (e : Exc).

Arguments Ok {A} a.
Arguments Raise {A} e.

Definition bind {A B : Type} (r : result A) (k : A -> result B) : result B :=
  match r with
  | Ok a => k a
  | Raise e => Raise e
  end.

Notation "x <- r ;; k" := (bind r (fun x => k))
  (at level 61, r at next level, right associativity).

(** [l[i]] *)
Definition py_nth {A : Type} (l : list A) (i : nat) : result A :=
  match nth_error l i with
  | Some a => Ok a
  | None => Raise ListIndexError
  end.

(** [l[-1]] *)
Definition py_last {A : Type} (l : list A) : result A :=
  match rev l with
  | a :: _ => Ok a
  | [] => Raise ListIndexError
  end.

(** [s[0]] *)
Definition py_str0 (s : string) : result ascii :=
  match s with
  | String c _ => Ok c
  | EmptyString => Raise StringIndexError
  end.

(** [max(l)] on integers *)
Definition py_max (l : list Z) : result Z :=
  match l with
  | [] => Raise MaxEmpty
  | x :: l' => Ok (fold_left Z.max l' x)
  end.

(** [l.index(x)] for an [x] the caller took from [l]. *)
Fixpoint py_index (x : Z) (l : list Z) : nat :=
  match l with
  | [] => 0
  | y :: l' => if (y =? x)%Z then 0 else S (py_index x l')
  end.

(** [d[i] == value] for a lookup that may miss. *)
Definition option_eqb_str (o : option string) (value : string) : bool :=
  match o with
  | Some v => (v =? value)%string
  | None => false
  end.

(** ** [Handler.__init__]: the catalogs *)

Definition model_codes_dic0 : dict :=
  [("21CF", "iX xDrive50"); ("11CF", "iX xDrive40"); ("21EM", "X7 xDrive40i");
   ("21EN", "X7 xDrive40d"); ("DZ01", "M8"); ("28FF", "318i")].

Definition abbreviations_dic0 : dict :=
  [("LL", "Left-Hand Drive"); ("RL", "Right-Hand Drive");
   ("P337A", "M Sport Package"); ("P33BA", "M Sport Package Pro");
   ("P7LGA", "Comfort Package EU"); ("S402A", "Panorama Glass Roof");
   ("S407A", "Panorama Glass Roof Sky Lounge"); ("S403A", "Sunroof")].

(** ** [Handler.validator], lines 141-148: the token loop *)

Definition oov_message (t : string) : string :=
  "Prompt has some Out-of Vocabulary words: " ++ t ++ ", Please check!".

(** [''.join(self.model_codes_dic.values()).lower()] *)
Definition model_phrases (h : Handler) : string :=
  PyStr.lower (PyStr.join "" (dict_values (model_codes_dic h))).

(** The loop leaves at the first out-of-vocabulary token, whether or not the
    catalog covers it; every token before it sets [response] to 1. *)
Fixpoint validate_tokens (h : Handler) (doc : list Token) : Handler :=
  match doc with
  | [] => h
  | token :: doc' =>
      if is_oov token then
        if negb (PyStr.contains (tok_text token) (model_phrases h))
        then add_message (oov_message (tok_text token)) (set_response 0 h)
        else h
      else validate_tokens (set_response 1 h) doc'
  end.

(** ** [Handler.get_request_body] *)

Record RequestRecord : Type := mkRecord {
  modelTypeCodes : list string;
  booleanFormulas : list string;
  dates_field : list string
}.

(** The three shapes of the returned value: one record, a list of records, or
    the [message] payload (whose value is a one-element list). *)
Inductive Body : Type :=
| OneRecord (r : RequestRecord)
| Records (l : list RequestRecord)
| Message (m : list string).

Definition record_of (h : Handler) (code : string) : RequestRecord :=
  mkRecord [code] [boolean_formula h] [dates h].

(** No statement of the [try] block can raise: [self.model_code[0]] is read
    under [len(self.model_code) == 1]. *)
Definition get_request_body (h : Handler) : Body :=
  if (response h =? 1)%Z then
    match model_code h with
    | [code] => OneRecord (record_of h code)
    | codes => Records (map (record_of h) codes)
    end
  else Message [PyStr.strip ". " (message h)].

Section Methods.

Variable env : Env.

(** [self.get_doc()] *)
Definition get_doc (h : Handler) : Doc := nlp env (text h).

(** ** [Handler.get_model_codes] *)

(** Lines 210-213: the keys of [value], each removing the phrase from the
    text. *)
Fixpoint exact_keys (d : dict) (value : string) (keys : list string)
    (st : list string * string) : list string * string :=
  match keys with
  | [] => st
  | i :: keys' =>
      exact_keys d value keys'
        (if option_eqb_str (dict_get d i) value
         then (fst st ++ [i], PyStr.remove_all (PyStr.lower value) (snd st))
         else st)
  end.

(** Lines 208-213: the exact pass. *)
Fixpoint exact_pass (d : dict) (values : list string)
    (st : list string * string) : list string * string :=
  match values with
  | [] => st
  | value :: values' =>
      exact_pass d values'
        (if PyStr.contains (PyStr.lower value) (snd st)
         then exact_keys d value (dict_keys d) st
         else st)
  end.

(** Lines 225-227: the keys of [value]. *)
Fixpoint append_keys (d : dict) (value : string) (keys : list string)
    (model_code : list string) : list string :=
  match keys with
  | [] => model_code
  | i :: keys' =>
      append_keys d value keys'
        (if option_eqb_str (dict_get d i) value then model_code ++ [i] else model_code)
  end.

(** Lines 220-228: the body of [for v in lst] ends in an unconditional
    [break], so it runs for the first word only. *)
Definition fuzzy_value (d : dict) (txt : string) (value : string)
    (model_code : list string) : result (list string) :=
  match PyStr.split (PyStr.lower value) with
  | [] => Ok model_code
  | v :: _ =>
      let similarity_scores :=
        map (fun word => fuzz_ratio env v word) (PyStr.split (PyStr.remove_all "," txt)) in
      m <- py_max similarity_scores ;;
      Ok (if (m =? 100)%Z then append_keys d value (dict_keys d) model_code
          else model_code)
  end.

(** Lines 218-228: the fuzzy pass. *)
Fixpoint fuzzy_pass (d : dict) (txt : string) (values : list string)
    (model_code : list string) : result (list string) :=
  match values with
  | [] => Ok model_code
  | value :: values' =>
      mc <- fuzzy_value d txt value model_code ;;
      fuzzy_pass d txt values' mc
  end.

Definition model_codes_body (h : Handler) (doc : Doc) : result (list string) :=
  let d := model_codes_dic h in
  let st := exact_pass d (dict_values d) ([], doc_text doc) in
  if (0 <? String.length (snd st))%nat
  then fuzzy_pass d (snd st) (dict_values d) (fst st)
  else Ok (fst st).

Definition get_model_codes (h : Handler) (doc : Doc) : Handler :=
  match model_codes_body h doc with
  | Ok model_code => set_model_code model_code (set_response 1 h)
  | Raise e =>
      add_message (str_exc e)
        (add_message
           "Error encountered while parsing for model code in 'get_model_codes' method"
           (set_response 0 h))
  end.

(** ** [Handler.get_boolean_formula] *)

(** Line 271: the tokens kept in the abbreviation string. *)
Definition descriptive (t : Token) : bool :=
  PyStr.mem (pos_ t) ["PROPN"; "NOUN"; "VERB"; "ADJ"; "CCONJ"; "PUNCT"].

Definition desc_str_of (doc : Doc) : string :=
  PyStr.join " " (map tok_text (filter descriptive (tokens doc))).

(** Line 275: [list(conj_df['TEXT'])], the conjunction cue tokens. *)
Definition is_cue (t : Token) : bool :=
  PyStr.mem (dep_ t) ["cc"; "punct"] && PyStr.mem (tok_text t) ["and"; "or"; ","; "."].

Definition conj_texts_of (doc : Doc) : list string :=
  map tok_text (filter is_cue (tokens doc)).

(** Lines 284-287 and 343-346: [split_regex]. *)
Definition split_regex (conj_texts : list string) : list Re.alt :=
  map Re.Bounded conj_texts ++ [Re.Plain ","; Re.Plain "."].

(** Lines 280-289 and 339-348: the segments of [s]. *)
Definition segments (conj_texts : list string) (s : string) : list string :=
  if (List.length conj_texts =? 0)%nat then [s]
  else Re.split (split_regex conj_texts) s.

(** Line 300: the scores of the catalog phrases against a segment. *)
Definition similarity_scores_of (d : dict) (desc_str_brk : string) : list Z :=
  map (fun value =>
         fuzz_partial_ratio env (PyStr.remove_all " " (PyStr.lower value)) desc_str_brk)
      (dict_values d).

(** Line 308: [len(scores) - scores[::-1].index(max(scores)) - 1]. *)
Definition max_index_of (m : Z) (similarity_scores : list Z) : nat :=
  List.length similarity_scores - py_index m (rev similarity_scores) - 1.

(** Lines 313-315: one occurrence of each word of the phrase is removed. *)
Definition remove_words_from (phrase desc_str_brk : string) : string :=
  fold_left (fun s word => PyStr.remove_first word s)
    (PyStr.split (PyStr.lower phrase)) desc_str_brk.

(** Lines 296-315: one round of the [while True] loop: [Ok None] is the
    [break], [Ok (Some (key, rest))] the key selected and the segment left. *)
Definition select_key (d : dict) (desc_str_brk : string)
    : result (option (string * string)) :=
  let similarity_scores := similarity_scores_of d desc_str_brk in
  m <- py_max similarity_scores ;;
  if (m <? 85)%Z then Ok None
  else
    key_at_index <- py_nth (dict_keys d) (max_index_of m similarity_scores) ;;
    match dict_get d key_at_index with
    | None => Raise (KeyError key_at_index)
    | Some phrase => Ok (Some (key_at_index, remove_words_from phrase desc_str_brk))
    end.

(** Lines 296-315: the loop has no bound of its own; [None] is a run that
    has not left it within [fuel] rounds. *)
Fixpoint resolve (fuel : nat) (d : dict) (desc_str_brk key_at_index : string)
    : option (result string) :=
  match fuel with
  | O => None
  | S fuel' =>
      match select_key d desc_str_brk with
      | Raise e => Some (Raise e)
      | Ok None => Some (Ok key_at_index)
      | Ok (Some (key, rest)) => resolve fuel' d rest key
      end
  end.

(** Lines 292-318: [abreviation_match_lst], one slot per segment. *)
Fixpoint resolve_all (fuel : nat) (d : dict) (split_sentence : list string)
    : option (result (list string)) :=
  match split_sentence with
  | [] => Some (Ok [])
  | desc_str_brk :: rest =>
      match resolve fuel d (PyStr.join "" (PyStr.split desc_str_brk)) "" with
      | None => None
      | Some (Raise e) => Some (Raise e)
      | Some (Ok key) =>
          match resolve_all fuel d rest with
          | None => None
          | Some (Raise e) => Some (Raise e)
          | Some (Ok keys) => Some (Ok (key :: keys))
          end
      end
  end.

Definition synonym_w : list string :=
  ["with"; "accompanied"; "company"; "together"; "addition"; "including";
   "along"; "amidst"; "among"; "amid"; "having"; "in"].

Definition synonym_wo : list string :=
  ["without"; "lacking"; "deprived"; "not"; "missing"; "destitute"; "bereft";
   "deficient"; "void"; "unaccompanied"; "except"; "exclusive"].

(** Line 330: [1 if x > 1 else 0] on [end - start]. *)
Definition needed (a : Arc) : Z :=
  if (arc_end a - arc_start a >? 1)%Z then 1%Z else 0%Z.

(** Lines 325-336: the pair [(first, second)].  [arcs_df['label']] is a
    [KeyError] on a frame built from no arcs. *)
Definition brackets_required (conj_texts : list string) (arcs : list Arc)
    : result (bool * bool) :=
  if (1 <? PyStr.inter_size conj_texts ["and"; "or"])%nat then
    match arcs with
    | [] => Raise (KeyError "label")
    | _ =>
        let brkt_df := filter (fun a => (arc_label a =? "cc")%string) arcs in
        let needed_lst := map needed brkt_df in
        n0 <- py_nth needed_lst 0 ;;
        n1 <- py_nth needed_lst 1 ;;
        Ok (if (n0 >? n1)%Z then (false, true) else (true, false))
    end
  else Ok (false, false).

(** Lines 369, 376, 387, 394: the slots whose non-empty key occurs in the
    formula so far. *)
Definition tot_of (abreviation_match_lst : list string) (boolean_formula : string) : nat :=
  List.length
    (filter (fun itm => PyStr.contains itm boolean_formula && negb (itm =? "")%string)
       abreviation_match_lst).

(** The variables the assembly loop carries from one segment to the next. *)
Record Asm : Type := mkAsm {
  asm_formula : string;
  asm_opertor : string;
  asm_bracket : string
}.

(** Lines 354-356: "/" when the cue before segment [ind] is "or". *)
Definition conj_of (conj_texts : list string) (ind : nat) : result string :=
  if (0 <? ind)%nat
  then c <- py_nth conj_texts (ind - 1) ;;
       Ok (if (c =? "or")%string then "/" else "")
  else Ok "".

(** Lines 359-364: the sign of a segment; without a cue word it keeps the
    sign of the segment before. *)
Definition opertor_of (txt opertor : string) : string :=
  if (0 <? PyStr.inter_size synonym_wo (PyStr.split txt))%nat then "-"
  else if (0 <? PyStr.inter_size synonym_w (PyStr.split txt))%nat then "+"
  else opertor.

(** Lines 353-401: the body of the loop for segment [ind]. *)
Definition assemble_step (first second : bool) (conj_texts abreviation_match_lst : list string)
    (ind : nat) (txt : string) (st : Asm) : result Asm :=
  conj <- conj_of conj_texts ind ;;
  let opertor := opertor_of txt (asm_opertor st) in
  key <- py_nth abreviation_match_lst ind ;;
  let st1 :=
    if (0 <? String.length key)%nat then
      let f0 := asm_formula st in
      let b1 :=
        if first
        then (if (tot_of abreviation_match_lst f0 =? 0)%nat then "(" else "")
        else asm_bracket st in
      let b2 :=
        if second
        then (if (tot_of abreviation_match_lst f0 =? 1)%nat && (0 <? String.length f0)%nat
              then "(" else "")
        else b1 in
      let f1 := (f0 ++ conj ++ opertor ++ b2)%string in
      let b3 :=
        if first
        then (if (tot_of abreviation_match_lst f1 =? 1)%nat && (0 <? String.length f1)%nat
              then ")" else "")
        else "" in
      let b4 :=
        if second
        then (if (tot_of abreviation_match_lst f1 =? 2)%nat && (0 <? String.length f1)%nat
              then ")" else "")
        else b3 in
      (f1, b4)
    else (asm_formula st, asm_bracket st) in
  Ok (mkAsm (fst st1 ++ key ++ snd st1) opertor "").

(** Lines 352-401: [for ind, text in enumerate(split_sentence)]. *)
Fixpoint assemble (first second : bool) (conj_texts abreviation_match_lst : list string)
    (ind : nat) (split_sentence : list string) (st : Asm) : result Asm :=
  match split_sentence with
  | [] => Ok st
  | txt :: rest =>
      st' <- assemble_step first second conj_texts abreviation_match_lst ind txt st ;;
      assemble first second conj_texts abreviation_match_lst (S ind) rest st'
  end.

(** Lines 405-407: every slot missing from the formula is appended after the
    formula's first character. *)
Fixpoint repair_loop (words : list string) (boolean_formula : string) : result string :=
  match words with
  | [] => Ok boolean_formula
  | word :: rest =>
      if negb (PyStr.contains word boolean_formula)
      then c <- py_str0 boolean_formula ;;
           repair_loop rest (boolean_formula ++ String c "" ++ word)
      else repair_loop rest boolean_formula
  end.

(** Lines 404-407. *)
Definition repair (abreviation_match_lst : list string) (boolean_formula : string)
    : result string :=
  if (0 <? List.length
             (filter (fun word => negb (PyStr.contains word boolean_formula))
                abreviation_match_lst))%nat
  then repair_loop abreviation_match_lst boolean_formula
  else Ok boolean_formula.

(** Lines 324-407, once the match list is known. *)
Definition formula_of (h : Handler) (doc : Doc) (abreviation_match_lst : list string)
    : result string :=
  let conj_texts := conj_texts_of doc in
  fs <- brackets_required conj_texts (arcs doc) ;;
  st <- assemble (fst fs) (snd fs) conj_texts abreviation_match_lst 0
          (segments conj_texts (text h)) (mkAsm "" "" "") ;;
  repair abreviation_match_lst (asm_formula st).

(** Lines 259-407: the [try] block.  [fdf['POS']] is a [KeyError] on a frame
    built from no tokens; [adp_df] is computed and never read. *)
Definition boolean_formula_body (fuel : nat) (h : Handler) (doc : Doc)
    : option (result string) :=
  match tokens doc with
  | [] => Some (Raise (KeyError "POS"))
  | _ =>
      match resolve_all fuel (abbreviations_dic h)
              (segments (conj_texts_of doc) (desc_str_of doc)) with
      | None => None
      | Some (Raise e) => Some (Raise e)
      | Some (Ok abreviation_match_lst) => Some (formula_of h doc abreviation_match_lst)
      end
  end.

Definition get_boolean_formula (fuel : nat) (h : Handler) (doc : Doc) : option Handler :=
  match boolean_formula_body fuel h doc with
  | None => None
  | Some (Ok f) => Some (set_boolean_formula f (set_response 1 h))
  | Some (Raise e) =>
      Some (add_message (str_exc e)
              (add_message
                 "Error encountered while parsing for a valid abbreviation description in 'get_boolean_formula' method"
                 (set_boolean_formula "" (set_response 0 h))))
  end.

(** ** [Handler.get_parsed_dates] *)

Definition is_date_ent (e : Ent) : bool :=
  (label_ e =? "DATE")%string || (label_ e =? "CARDINAL")%string.

(** Lines 440-450: the [try] block. *)
Definition parsed_dates_body (h : Handler) (doc : Doc) : result string :=
  let dt := map ent_text (filter is_date_ent (ents doc)) in
  let prefer :=
    if (0 <? PyStr.inter_size ["late"; "latter"; "end"] (PyStr.split (text h)))%nat
    then "last" else "first" in
  last_dt <- py_last dt ;;
  match search_dates env last_dt prefer with
  | None => Raise NoneSubscript
  | Some found =>
      d <- py_last found ;;
      Ok (strftime_ymd env (snd d))
  end.

Definition get_parsed_dates (h : Handler) (doc : Doc) : Handler :=
  match parsed_dates_body h doc with
  | Ok dt => set_dates dt (set_response 1 h)
  | Raise e =>
      add_message (str_exc e)
        (add_message
           "Error encountered while parsing for date in 'get_parse_dates' method"
           (set_response 0 h))
  end.

(** ** [Handler.validator]: the pipeline *)

(** Lines 151-156. *)
Definition stage_model_codes (h : Handler) : Handler :=
  if (response h =? 1)%Z then
    let h1 := get_model_codes h (get_doc h) in
    if (List.length (model_code h1) =? 0)%nat
    then add_message
           "Prompt doesn't include one of the sales description provided, Please check!"
           (set_response 0 h1)
    else h1
  else h.

(** Lines 159-164. *)
Definition stage_boolean_formula (fuel : nat) (h : Handler) : option Handler :=
  if (response h =? 1)%Z then
    match get_boolean_formula fuel h (get_doc h) with
    | None => None
    | Some h1 =>
        Some (if (String.length (boolean_formula h1) =? 0)%nat
              then add_message
                     "Prompt doesn't include a valid abbreviation description, Please check!"
                     (set_response 0 h1)
              else h1)
    end
  else Some h.

(** Lines 167-172. *)
Definition stage_dates (h : Handler) : Handler :=
  if (response h =? 1)%Z then
    let h1 := get_parsed_dates h (get_doc h) in
    if (String.length (dates h1) =? 0)%nat
    then add_message "Prompt doesn't include a valid date, Please check!"
           (set_response 0 h1)
    else h1
  else h.

(** Lines 139-182.  Each stage catches its own exceptions and [get_doc] is a
    function here, so nothing reaches the outer [except]; the value of the
    closing [self.get_request_body()] is dropped. *)
Definition validator (fuel : nat) (h : Handler) (doc : Doc) : option Handler :=
  let h1 := validate_tokens h (tokens doc) in
  let h2 := stage_model_codes h1 in
  match stage_boolean_formula fuel h2 with
  | None => None
  | Some h3 => Some (stage_dates h3)
  end.

(** [Handler.__init__] *)
Definition new_handler (prompt : string) : Handler :=
  mkHandler (PyStr.lower prompt) 0 "" "" [] "" model_codes_dic0 abbreviations_dic0.

Definition init (fuel : nat) (prompt : string) : option Handler :=
  validator fuel (new_handler prompt) (get_doc (new_handler prompt)).

(** The public entry point, [Handler(string).get_request_body()]. *)
Definition interpret (fuel : nat) (prompt : string) : option Body :=
  match init fuel prompt with
  | None => None
  | Some h => Some (get_request_body h)
  end.

End Methods.

(** ** Notions used in the statements *)

(** The characters a formula adds around the catalog keys. *)
Definition formula_symbols : string := "+-/()".

(** A key with none of them. *)
Fixpoint no_symbol (key : string) : bool :=
  match key with
  | EmptyString => true
  | String c key' => negb (PyStr.mem_char c formula_symbols) && no_symbol key'
  end.

(** The signs a segment can carry. *)
Definition sign (opertor : string) : Prop :=
  opertor = "" \/ opertor = "+" \/ opertor = "-".

(** A formula made of one key behind an opening bracket. *)
Definition opened_key (key f : string) : Prop :=
  exists conj opertor,
    f = (conj ++ opertor ++ "(" ++ key)%string
    /\ (conj = "" \/ conj = "/") /\ sign opertor.

(** The text of the accumulated causes, each after the separator ". ". *)
Fixpoint diagnostics (causes : list string) : string :=
  match causes with
  | [] => ""
  | cause :: causes' => ". " ++ cause ++ diagnostics causes'
  end.

(** The causes a stage can record: the message of the token loop, the
    messages of the three stages and of the three methods, and the text of a
    caught exception. *)
Inductive stage_failure : string -> Prop :=
| fail_oov (t : string) : stage_failure (oov_message t)
| fail_no_model :
    stage_failure
      "Prompt doesn't include one of the sales description provided, Please check!"
| fail_no_formula :
    stage_failure
      "Prompt doesn't include a valid abbreviation description, Please check!"
| fail_no_date : stage_failure "Prompt doesn't include a valid date, Please check!"
| fail_model_codes :
    stage_failure
      "Error encountered while parsing for model code in 'get_model_codes' method"
| fail_boolean_formula :
    stage_failure
      "Error encountered while parsing for a valid abbreviation description in 'get_boolean_formula' method"
| fail_parsed_dates :
    stage_failure "Error encountered while parsing for date in 'get_parse_dates' method"
| fail_exception (e : Exc) : stage_failure (str_exc e).


(** What fuzzywuzzy's decorators fix of a scorer before any comparison is
    made, and the range of its result: equal arguments score 100, an empty
    argument against a non-empty one scores 0, every score is within
    0..100. *)
Definition decorated (score : string -> string -> Z) : Prop :=
  (forall s, score s s = 100%Z)
  /\ (forall s t, s <> t -> s = "" \/ t = "" -> score s t = 0%Z)
  /\ (forall s t, (0 <= score s t <= 100)%Z).

(** [h'] has the message of [h] followed by the causes recorded since. *)
Definition appends (h h' : Handler) : Prop :=
  exists causes,
    message h' = (message h ++ diagnostics causes)%string
    /\ Forall stage_failure causes.

(** [response] is one of its two values. *)
Definition binary (h : Handler) : Prop := response h = 0%Z \/ response h = 1%Z.

(** After the model-code stage, [response = 1] comes with a model code. *)
Definition coded (h : Handler) : Prop :=
  binary h /\ (response h = 1%Z -> model_code h <> []).


(** A phrase whose first word scores 100 against some word of the text, the
    test of lines 220-223. *)
Definition first_word_hit (env : Env) (words : list string) (value : string) : Prop :=
  exists v rest,
    PyStr.split (PyStr.lower value) = v :: rest
    /\ py_max (map (fun word => fuzz_ratio env v word) words) = Ok 100%Z.








(** ** Sample prompts

    Annotated documents for a few prompts, and an environment to run the
    methods on them.  Its scorer returns what fuzzywuzzy's decorators return
    before any comparison is made (100 for equal arguments, 0 for an empty
    argument against a non-empty one) and 0 for every other pair; the sample
    documents are chosen so that each segment is a catalog phrase or empty. *)

Definition exact_score (s t : string) : Z :=
  if (s =? t)%string then 100%Z else 0%Z.

Definition sample_env (doc : Doc) : Env :=
  mkEnv (fun _ => doc) exact_score exact_score
    (fun s _ => Some [(s, mkDatetime 2024 11 30)])
    (fun _ => "2024-11-30").

(** A scorer that is 100 when one argument is a substring of the other, as
    [fuzz.partial_ratio] is, and 0 otherwise. *)
Definition overlap_score (s t : string) : Z :=
  if PyStr.contains s t || PyStr.contains t s then 100%Z else 0%Z.

Definition overlap_env (doc : Doc) : Env :=
  mkEnv (fun _ => doc) exact_score overlap_score
    (fun s _ => Some [(s, mkDatetime 2024 11 30)])
    (fun _ => "2024-11-30").

(** A scorer that differs from [exact_score] on the later words of the
    model-code phrases only. *)
Definition later_words_score (s t : string) : Z :=
  if PyStr.mem s ["xdrive50"; "xdrive40"; "xdrive40i"; "xdrive40d"] then 100%Z
  else exact_score s t.

Definition later_words_env (doc : Doc) : Env :=
  mkEnv (fun _ => doc) later_words_score exact_score
    (fun s _ => Some [(s, mkDatetime 2024 11 30)])
    (fun _ => "2024-11-30").

Definition word (t p d : string) : Token := mkToken t t p "" d false.

Definition unknown (t p d : string) : Token := mkToken t t p "" d true.

(** "a 318i with sunroof on 2024-11-30" *)
Definition order_prompt : string := "a 318i with sunroof on 2024-11-30".

Definition order_doc : Doc :=
  mkDoc order_prompt
    [word "a" "DET" "det"; unknown "318i" "NUM" "nummod"; word "with" "ADP" "prep";
     word "sunroof" "NOUN" "pobj"; word "on" "ADP" "prep";
     word "2024-11-30" "NUM" "pobj"]
    [mkArc 0 1 "det" "left"; mkArc 1 2 "prep" "right"; mkArc 2 3 "pobj" "right";
     mkArc 1 4 "prep" "right"; mkArc 4 5 "pobj" "right"]
    [mkEnt "2024-11-30" "DATE"].

(** "sunroof. 3.5": one cue token, two full stops in the text. *)
Definition stops_prompt : string := "sunroof. 3.5".

Definition stops_doc : Doc :=
  mkDoc stops_prompt
    [word "sunroof" "NOUN" "ROOT"; word "." "PUNCT" "punct"; word "3.5" "NUM" "ROOT"]
    [mkArc 0 1 "punct" "right"]
    [mkEnt "3.5" "CARDINAL"].

(** "sunroof and or 3.5": both cue words, one matched segment, and a full
    stop inside the number. *)
Definition both_prompt : string := "sunroof and or 3.5".

Definition both_doc : Doc :=
  mkDoc both_prompt
    [word "sunroof" "NOUN" "ROOT"; word "and" "CCONJ" "cc"; word "or" "CCONJ" "cc";
     word "3.5" "NUM" "conj"]
    [mkArc 0 1 "cc" "right"; mkArc 0 2 "cc" "right"; mkArc 0 3 "conj" "right"]
    [mkEnt "3.5" "CARDINAL"].

(** "with sunroof and or": both cue words, one matched segment. *)
Definition group_prompt : string := "with sunroof and or".

Definition group_doc : Doc :=
  mkDoc group_prompt
    [word "with" "ADP" "prep"; word "sunroof" "NOUN" "pobj"; word "and" "CCONJ" "cc";
     word "or" "CCONJ" "cc"]
    [mkArc 0 1 "pobj" "right"; mkArc 1 2 "cc" "right"; mkArc 1 3 "cc" "right"]
    [].

(** "M8 ": the exact pass consumes the phrase and leaves one space. *)
Definition trailing_prompt : string := "M8 ".

Definition trailing_doc : Doc :=
  mkDoc "m8 " [word "m8" "PROPN" "ROOT"] [] [].


(** "318i with sunroof": the first token is outside the vocabulary and in
    the model catalog. *)
Definition code_first_prompt : string := "318i with sunroof".

Definition code_first_doc : Doc :=
  mkDoc code_first_prompt
    [unknown "318i" "NUM" "ROOT"; word "with" "ADP" "prep"; word "sunroof" "NOUN" "pobj"]
    [mkArc 0 1 "prep" "right"; mkArc 1 2 "pobj" "right"]
    [].

(** ** The prompt loop of [__main__] (lines 504-519) *)

(** Line 516: the loop ends after a prompt when the handler's message is
    empty or its [response] is 1; otherwise it asks again. *)
Definition main_breaks (h : Handler) : bool :=
  (String.length (message h) =? 0)%nat || (response h =? 1)%Z.

(** ** More sample prompts *)

(** "with sunroo": a misspelt phrase. *)
Definition misspelt_prompt : string := "with sunroo".

Definition misspelt_doc : Doc :=
  mkDoc misspelt_prompt
    [word "with" "ADP" "prep"; word "sunroo" "NOUN" "pobj"]
    [mkArc 0 1 "pobj" "right"]
    [].

(** "": nothing to annotate. *)
Definition empty_doc : Doc := mkDoc "" [] [] [].

(** "with sunroof and comfort package eu or": two matched segments. *)
Definition pair_prompt : string := "with sunroof and comfort package eu or".

Definition pair_doc : Doc :=
  mkDoc pair_prompt
    [word "with" "ADP" "prep"; word "sunroof" "NOUN" "pobj"; word "and" "CCONJ" "cc";
     word "comfort" "NOUN" "compound"; word "package" "NOUN" "compound";
     word "eu" "PROPN" "conj"; word "or" "CCONJ" "cc"]
    [mkArc 0 1 "pobj" "right"; mkArc 1 2 "cc" "right"; mkArc 3 5 "compound" "left";
     mkArc 4 5 "compound" "left"; mkArc 1 5 "conj" "right"; mkArc 5 6 "cc" "right"]
    [].

(** "with sunroof and comfort package eu": one cue word. *)
Definition and_prompt : string := "with sunroof and comfort package eu".

Definition and_doc : Doc :=
  mkDoc and_prompt
    [word "with" "ADP" "prep"; word "sunroof" "NOUN" "pobj"; word "and" "CCONJ" "cc";
     word "comfort" "NOUN" "compound"; word "package" "NOUN" "compound";
     word "eu" "PROPN" "conj"]
    [mkArc 0 1 "pobj" "right"; mkArc 1 2 "cc" "right"; mkArc 3 5 "compound" "left";
     mkArc 4 5 "compound" "left"; mkArc 1 5 "conj" "right"]
    [].

(** "x7 with sunroof": the first word of two model phrases, and no whole
    phrase. *)
Definition first_word_prompt : string := "x7 with sunroof".

Definition first_word_doc : Doc :=
  mkDoc first_word_prompt
    [word "x7" "PROPN" "ROOT"; word "with" "ADP" "prep"; word "sunroof" "NOUN" "pobj"]
    [mkArc 0 1 "prep" "right"; mkArc 1 2 "pobj" "right"]
    [].

(** "a 318i with sunroof on 5 or 2024-11-30": two date-like entities. *)
Definition two_dates_doc : Doc :=
  mkDoc "a 318i with sunroof on 5 or 2024-11-30"
    [word "a" "DET" "det"; unknown "318i" "NUM" "nummod"; word "with" "ADP" "prep";
     word "sunroof" "NOUN" "pobj"; word "on" "ADP" "prep"; word "5" "NUM" "pobj";
     word "or" "CCONJ" "cc"; word "2024-11-30" "NUM" "conj"]
    [mkArc 0 1 "det" "left"; mkArc 5 6 "cc" "right"]
    [mkEnt "5" "CARDINAL"; mkEnt "2024-11-30" "DATE"; mkEnt "bmw" "ORG"].

(** * Properties *)

(** ** The models of the string primitives on examples *)

Example lower_ex : PyStr.lower "iX xDrive50" = "ix xdrive50".
Proof. reflexivity. Qed.

Example split_ws_ex : PyStr.split "  m sport   package " = ["m"; "sport"; "package"].
Proof. reflexivity. Qed.

Example remove_all_ex : PyStr.remove_all "m8" "mm88 m8" = "m8 ".
Proof. reflexivity. Qed.

Example remove_first_ex : PyStr.remove_first "roof" "sunroofroof" = "sunroof".
Proof. reflexivity. Qed.

Example strip_ex : PyStr.strip ". " ". a. b. " = "a. b".
Proof. reflexivity. Qed.

Example re_split_ex :
  Re.split (split_regex ["and"; "or"]) "sunroof and sandy or doors 3.5"
  = ["sunroof "; " sandy "; " doors 3"; "5"].
Proof. reflexivity. Qed.

Example order_prompt_ex :
  interpret (sample_env order_doc) 3 order_prompt
  = Some (OneRecord (mkRecord ["28FF"] ["+S403A"] ["2024-11-30"])).
Proof. reflexivity. Qed.

(** ** Substrings *)

Lemma prefix_nil (s : string) : String.prefix "" s = true.
Proof. destruct s; reflexivity. Qed.

Lemma prefix_app (w t : string) : String.prefix w (w ++ t) = true.
Proof.
  induction w as [|c w IH]; simpl.
  - apply prefix_nil.
  - destruct (ascii_dec c c); [exact IH | congruence].
Qed.

Lemma prefix_app_r (w s t : string) :
  String.prefix w s = true -> String.prefix w (s ++ t) = true.
Proof.
  revert s; induction w as [|c w IH]; intros s H.
  - apply prefix_nil.
  - destruct s as [|d s]; simpl in *; [discriminate|].
    destruct (ascii_dec c d); [auto | discriminate].
Qed.

Lemma contains_empty (s : string) : PyStr.contains "" s = true.
Proof. destruct s; reflexivity. Qed.

Lemma contains_unfold (w s : string) :
  PyStr.contains w s
  = if String.prefix w s then true
    else match s with
         | EmptyString => false
         | String _ s' => PyStr.contains w s'
         end.
Proof. destruct s; reflexivity. Qed.

Lemma contains_app_r (w s t : string) :
  PyStr.contains w s = true -> PyStr.contains w (s ++ t) = true.
Proof.
  induction s as [|c s IH]; intros H.
  - destruct w; [apply contains_empty | discriminate].
  - rewrite contains_unfold in H. rewrite contains_unfold.
    destruct (String.prefix w (String c s)) eqn:E.
    + rewrite (prefix_app_r _ _ _ E). reflexivity.
    + cbn [append]. rewrite (IH H). destruct (String.prefix w (String c (s ++ t))); reflexivity.
Qed.

Lemma contains_app_l (w s t : string) :
  PyStr.contains w t = true -> PyStr.contains w (s ++ t) = true.
Proof.
  intros H. induction s as [|c s IH].
  - exact H.
  - rewrite contains_unfold. cbn [append].
    rewrite IH. destruct (String.prefix w (String c (s ++ t))); reflexivity.
Qed.

Lemma contains_prefix (w t : string) : PyStr.contains w (w ++ t) = true.
Proof. rewrite contains_unfold, prefix_app. reflexivity. Qed.

Lemma append_empty_r (s : string) : (s ++ "")%string = s.
Proof. induction s; simpl; congruence. Qed.

Lemma append_assoc (s t u : string) : ((s ++ t) ++ u)%string = (s ++ t ++ u)%string.
Proof. induction s; simpl; congruence. Qed.

Lemma contains_suffix (s w : string) : PyStr.contains w (s ++ w) = true.
Proof.
  apply contains_app_l. rewrite <- (append_empty_r w) at 2. apply contains_prefix.
Qed.

Lemma mem_char_app (c : ascii) (s t : string) :
  PyStr.mem_char c (s ++ t) = PyStr.mem_char c s || PyStr.mem_char c t.
Proof.
  induction s as [|d s IH]; simpl.
  - reflexivity.
  - rewrite IH. apply orb_assoc.
Qed.

Lemma prefix_head (c : ascii) (w s : string) :
  String.prefix (String c w) s = true -> PyStr.mem_char c s = true.
Proof.
  destruct s as [|d s]; simpl; [discriminate|].
  destruct (ascii_dec c d) as [->|]; [|discriminate].
  intros _. rewrite Ascii.eqb_refl. reflexivity.
Qed.

Lemma contains_head (c : ascii) (w s : string) :
  PyStr.contains (String c w) s = true -> PyStr.mem_char c s = true.
Proof.
  induction s as [|d s IH]; intros H.
  - simpl in H. discriminate.
  - cbn [PyStr.contains] in H.
    destruct (String.prefix (String c w) (String d s)) eqn:E.
    + exact (prefix_head _ _ _ E).
    + simpl. rewrite (IH H). apply orb_true_r.
Qed.

Lemma contains_char (c : ascii) (s : string) :
  PyStr.contains (String c "") s = PyStr.mem_char c s.
Proof.
  induction s as [|d s IH].
  - reflexivity.
  - cbn [PyStr.contains PyStr.mem_char String.prefix].
    destruct (ascii_dec c d) as [->|n].
    + rewrite Ascii.eqb_refl. destruct s; reflexivity.
    + rewrite IH. destruct (Ascii.eqb_spec c d); [contradiction | reflexivity].
Qed.

(** ** Outcomes of [get_boolean_formula] *)

Lemma bind_ok {A B : Type} (r : result A) (k : A -> result B) (b : B) :
  bind r k = Ok b -> exists a, r = Ok a /\ k a = Ok b.
Proof. destruct r as [a|e]; simpl; intros H; [eauto | discriminate]. Qed.

(** A run of the synthesizer that ends with [response = 1] went through the
    whole [try] block: the match list was resolved and the formula built. *)
Lemma get_boolean_formula_ok (env : Env) (fuel : nat) (h h' : Handler) (doc : Doc) :
  get_boolean_formula env fuel h doc = Some h' ->
  response h' = 1%Z ->
  exists lst f,
    resolve_all env fuel (abbreviations_dic h)
      (segments (conj_texts_of doc) (desc_str_of doc)) = Some (Ok lst)
    /\ formula_of h doc lst = Ok f
    /\ h' = set_boolean_formula f (set_response 1 h).
Proof.
  unfold get_boolean_formula, boolean_formula_body. intros H R.
  destruct (tokens doc) as [|t ts].
  - injection H as <-. simpl in R. discriminate.
  - destruct (resolve_all env fuel (abbreviations_dic h)
                (segments (conj_texts_of doc) (desc_str_of doc)))
      as [[lst|e]|]; try discriminate.
    + destruct (formula_of h doc lst) as [f|e] eqn:F.
      * injection H as <-. eauto.
      * injection H as <-. simpl in R. discriminate.
    + injection H as <-. simpl in R. discriminate.
Qed.

(** A fault anywhere in the [try] block leaves an empty formula. *)
Lemma get_boolean_formula_fault (env : Env) (fuel : nat) (h h' : Handler) (doc : Doc) :
  get_boolean_formula env fuel h doc = Some h' ->
  response h' <> 1%Z ->
  boolean_formula h' = "" /\ response h' = 0%Z.
Proof.
  unfold get_boolean_formula. intros H R.
  destruct (boolean_formula_body env fuel h doc) as [[f|e]|]; try discriminate;
    injection H as <-; simpl in *; [congruence | auto].
Qed.

(** ** The repair step (lines 404-407) *)

Lemma repair_loop_extends (ws : list string) :
  forall bf f, repair_loop ws bf = Ok f -> exists suffix, f = (bf ++ suffix)%string.
Proof.
  induction ws as [|w ws IH]; intros bf f H; simpl in H.
  - injection H as <-. exists "". symmetry. apply append_empty_r.
  - destruct (negb (PyStr.contains w bf)).
    + apply bind_ok in H as (c & _ & H).
      apply IH in H as (suffix & ->).
      exists (String c w ++ suffix)%string.
      simpl. rewrite append_assoc. reflexivity.
    + apply IH in H. exact H.
Qed.

Lemma repair_loop_complete (ws : list string) :
  forall bf f, repair_loop ws bf = Ok f ->
  forall w, In w ws -> PyStr.contains w f = true.
Proof.
  induction ws as [|w0 ws IH]; intros bf f H w Hin; simpl in H.
  - destruct Hin.
  - destruct (PyStr.contains w0 bf) eqn:C; simpl in H.
    + destruct Hin as [<-|Hin]; [|eapply IH; eauto].
      apply repair_loop_extends in H as (suffix & ->).
      apply contains_app_r. exact C.
    + apply bind_ok in H as (c & _ & H).
      destruct Hin as [<-|Hin]; [|eapply IH; eauto].
      apply repair_loop_extends in H as (suffix & ->).
      apply contains_app_r.
      change (String c w0) with (String c "" ++ w0)%string.
      rewrite <- append_assoc. apply contains_suffix.
Qed.

Lemma filter_length_0 {A : Type} (p : A -> bool) (l : list A) :
  (0 <? List.length (filter p l))%nat = false -> forall x, In x l -> p x = false.
Proof.
  induction l as [|a l IH]; simpl; intros H x Hin.
  - destruct Hin.
  - destruct (p a) eqn:P; simpl in H; [discriminate|].
    destruct Hin as [<-|Hin]; auto.
Qed.

Lemma filter_none {A : Type} (p : A -> bool) (l : list A) :
  (forall x, In x l -> p x = false) -> filter p l = [].
Proof.
  induction l as [|a l IH]; intros H; [reflexivity|].
  simpl. rewrite (H a (or_introl eq_refl)). apply IH.
  intros x X. apply H. right. exact X.
Qed.

Lemma repair_complete (lst : list string) (bf f : string) :
  repair lst bf = Ok f -> forall w, In w lst -> PyStr.contains w f = true.
Proof.
  unfold repair. intros H w Hin.
  destruct (0 <? List.length
              (filter (fun word => negb (PyStr.contains word bf)) lst))%nat eqn:E.
  - eapply repair_loop_complete; eauto.
  - injection H as <-.
    pose proof (filter_length_0 _ _ E w Hin) as P. simpl in P.
    destruct (PyStr.contains w bf); [reflexivity | discriminate].
Qed.

(** C4, as amended.  Whenever the synthesizer completes without a fault
    ([response] is 1 when it returns), every matched key of the per-segment
    resolution, by position in the match list, is a substring of the boolean
    formula it stores. *)
Theorem matched_keys_in_formula (env : Env) (fuel : nat) (h h' : Handler)
    (doc : Doc) (abreviation_match_lst : list string) :
  resolve_all env fuel (abbreviations_dic h)
    (segments (conj_texts_of doc) (desc_str_of doc)) = Some (Ok abreviation_match_lst) ->
  get_boolean_formula env fuel h doc = Some h' ->
  response h' = 1%Z ->
  forall key, In key abreviation_match_lst -> key <> "" ->
  PyStr.contains key (boolean_formula h') = true.
Proof.
  intros L G R key Hin _.
  destruct (get_boolean_formula_ok _ _ _ _ _ G R) as (lst & f & L' & F & ->).
  rewrite L in L'. injection L' as <-. simpl.
  unfold formula_of in F.
  apply bind_ok in F as (fs & _ & F).
  apply bind_ok in F as (st & _ & F).
  eapply repair_complete; eauto.
Qed.

Lemma matched_keys_in_formula_witness :
  resolve_all (sample_env group_doc) 3 abbreviations_dic0
    (segments (conj_texts_of group_doc) (desc_str_of group_doc))
  = Some (Ok ["S403A"; ""; ""])
  /\ PyStr.contains "S403A"
       (match get_boolean_formula (sample_env group_doc) 3 (new_handler group_prompt)
                group_doc with
        | Some h' => boolean_formula h'
        | None => ""
        end) = true.
Proof.
  split; [reflexivity|].
  apply (matched_keys_in_formula (sample_env group_doc) 3 (new_handler group_prompt)
           (set_boolean_formula "+(S403A" (set_response 1 (new_handler group_prompt)))
           group_doc ["S403A"; ""; ""]);
    [reflexivity | reflexivity | reflexivity | simpl; auto | discriminate].
Defined.

(** C4, as stated, fails on "sunroof. 3.5": the first segment resolves to the
    key S403A, the text has one more full stop than the document has cue
    tokens, the loop faults on the cue list and the stored formula is empty. *)
Lemma matched_key_lost_on_fault :
  resolve_all (sample_env stops_doc) 3 abbreviations_dic0
    (segments (conj_texts_of stops_doc) (desc_str_of stops_doc))
  = Some (Ok ["S403A"; ""])
  /\ option_map boolean_formula
       (get_boolean_formula (sample_env stops_doc) 3 (new_handler stops_prompt) stops_doc)
     = Some ""
  /\ PyStr.contains "S403A" "" = false.
Proof. repeat split; reflexivity. Qed.

(** ** Keys of the match list *)

Lemma py_nth_In {A : Type} (l : list A) (i : nat) (a : A) :
  py_nth l i = Ok a -> In a l.
Proof.
  unfold py_nth. destruct (nth_error l i) eqn:E; intros H; [|discriminate].
  injection H as <-. eapply nth_error_In; eauto.
Qed.

Lemma select_key_in (env : Env) (d : dict) (seg key rest : string) :
  select_key env d seg = Ok (Some (key, rest)) -> In key (dict_keys d).
Proof.
  unfold select_key. intros H.
  apply bind_ok in H as (m & _ & H).
  destruct (m <? 85)%Z; [discriminate|].
  apply bind_ok in H as (k & K & H).
  destruct (dict_get d k); [|discriminate].
  injection H as <- _. eapply py_nth_In; eauto.
Qed.

Lemma resolve_key (env : Env) (fuel : nat) (d : dict) :
  forall seg k0 key,
  resolve env fuel d seg k0 = Some (Ok key) -> key = k0 \/ In key (dict_keys d).
Proof.
  induction fuel as [|fuel IH]; intros seg k0 key H; simpl in H; [discriminate|].
  destruct (select_key env d seg) as [[[k rest]|]|e] eqn:S; try discriminate.
  - apply IH in H as [->|H]; [|auto].
    right. eapply select_key_in; eauto.
  - injection H as <-. auto.
Qed.

Lemma resolve_all_keys (env : Env) (fuel : nat) (d : dict) (segs : list string) :
  forall lst,
  resolve_all env fuel d segs = Some (Ok lst) ->
  List.length lst = List.length segs
  /\ Forall (fun key => key = "" \/ In key (dict_keys d)) lst.
Proof.
  induction segs as [|seg segs IH]; intros lst H; simpl in H.
  - injection H as <-. split; [reflexivity | constructor].
  - destruct (resolve env fuel d (PyStr.join "" (PyStr.split seg)) "")
      as [[key|e]|] eqn:R; try discriminate.
    destruct (resolve_all env fuel d segs) as [[keys|e]|]; try discriminate.
    injection H as <-.
    destruct (IH keys eq_refl) as [L F].
    split; [simpl; congruence|].
    constructor; [|exact F].
    eapply resolve_key; eauto.
Qed.

(** ** Symbols of the formula *)

Lemma no_symbol_mem (key : string) (c : ascii) :
  no_symbol key = true ->
  PyStr.mem_char c formula_symbols = true ->
  PyStr.mem_char c key = false.
Proof.
  induction key as [|d key IH]; simpl; intros K C; [reflexivity|].
  apply andb_true_iff in K as [D K].
  rewrite (IH K C), orb_false_r.
  destruct (Ascii.eqb_spec c d) as [->|]; [|reflexivity].
  unfold formula_symbols in *. simpl in C. rewrite C in D. discriminate.
Qed.

Lemma opertor_cases (txt opertor : string) :
  opertor_of txt opertor = "-" \/ opertor_of txt opertor = "+"
  \/ opertor_of txt opertor = opertor.
Proof.
  unfold opertor_of.
  destruct (0 <? PyStr.inter_size synonym_wo (PyStr.split txt))%nat; [auto|].
  destruct (0 <? PyStr.inter_size synonym_w (PyStr.split txt))%nat; auto.
Qed.

(** Without cue tokens there is one segment and one slot, and the formula is
    the slot's key after the sign of the prompt. *)
Lemma formula_of_no_cue (h : Handler) (doc : Doc) (key : string) :
  conj_texts_of doc = [] ->
  formula_of h doc [key]
  = Ok (if (0 <? String.length key)%nat
        then (opertor_of (text h) "" ++ key)%string else "").
Proof.
  intros C. unfold formula_of. rewrite C.
  change (brackets_required [] (arcs doc)) with (Ok (false, false)).
  change (segments [] (text h)) with [text h].
  cbn [bind fst snd assemble assemble_step conj_of Nat.ltb Nat.leb py_nth nth_error
       asm_formula asm_opertor asm_bracket].
  destruct key as [|c key].
  - reflexivity.
  - cbn [String.length Nat.ltb Nat.leb fst snd append asm_formula].
    unfold repair. cbn [filter].
    rewrite !append_empty_r, contains_suffix. reflexivity.
Qed.

Lemma symbol_free_sign_key (c : ascii) (txt key : string) :
  PyStr.mem_char c "/()" = true ->
  key = "" \/ no_symbol key = true ->
  PyStr.contains (String c "")
    (if (0 <? String.length key)%nat then (opertor_of txt "" ++ key)%string else "")
  = false.
Proof.
  intros C K. rewrite contains_char.
  assert (Ck : PyStr.mem_char c key = false).
  { destruct K as [->|K]; [reflexivity|].
    apply no_symbol_mem; [exact K|].
    unfold formula_symbols. simpl in *.
    repeat (apply orb_true_iff in C as [C|C]; [rewrite C; repeat rewrite orb_true_r; reflexivity|]).
    discriminate. }
  destruct (0 <? String.length key)%nat; [|reflexivity].
  rewrite mem_char_app, Ck, orb_false_r.
  destruct (opertor_cases txt "") as [-> | [-> | ->]]; simpl; try reflexivity;
    rewrite orb_false_r;
    simpl in C;
    repeat (apply orb_true_iff in C as [C|C];
            [apply Ascii.eqb_eq in C; subst c; reflexivity|]);
    discriminate.
Qed.

(** C5.  For a document with no conjunction cue token, the boolean formula
    the synthesizer stores contains no "/" and no bracket, for every catalog
    whose keys contain none of these characters (as the keys of the built-in
    abbreviation catalog do). *)
Theorem no_cue_no_slash_no_bracket (env : Env) (fuel : nat) (h h' : Handler) (doc : Doc) :
  conj_texts_of doc = [] ->
  forallb no_symbol (dict_keys (abbreviations_dic h)) = true ->
  get_boolean_formula env fuel h doc = Some h' ->
  PyStr.contains "/" (boolean_formula h') = false
  /\ PyStr.contains "(" (boolean_formula h') = false
  /\ PyStr.contains ")" (boolean_formula h') = false.
Proof.
  intros C K G.
  destruct (Z.eq_dec (response h') 1) as [R|R].
  - destruct (get_boolean_formula_ok _ _ _ _ _ G R) as (lst & f & L & F & ->).
    rewrite C in L. change (segments [] (desc_str_of doc)) with [desc_str_of doc] in L.
    apply resolve_all_keys in L as [Len Keys].
    destruct lst as [|key [|? ?]]; try discriminate.
    rewrite (formula_of_no_cue _ _ _ C) in F. injection F as <-.
    apply Forall_inv in Keys.
    assert (Kk : key = "" \/ no_symbol key = true).
    { destruct Keys as [->|Hin]; [auto | right].
      rewrite forallb_forall in K. auto. }
    cbn [boolean_formula set_boolean_formula].
    repeat split; apply symbol_free_sign_key; auto.
  - destruct (get_boolean_formula_fault _ _ _ _ _ G R) as [-> _].
    repeat split; reflexivity.
Qed.

Lemma no_cue_no_slash_no_bracket_witness :
  conj_texts_of order_doc = []
  /\ forallb no_symbol (dict_keys abbreviations_dic0) = true
  /\ get_boolean_formula (sample_env order_doc) 3 (new_handler order_prompt) order_doc
     = Some (set_boolean_formula "+S403A" (set_response 1 (new_handler order_prompt)))
  /\ PyStr.contains "/" "+S403A" = false
  /\ PyStr.contains "(" "+S403A" = false
  /\ PyStr.contains ")" "+S403A" = false.
Proof.
  split; [reflexivity|]. split; [reflexivity|]. split; [reflexivity|].
  exact (no_cue_no_slash_no_bracket (sample_env order_doc) 3 (new_handler order_prompt)
           (set_boolean_formula "+S403A" (set_response 1 (new_handler order_prompt)))
           order_doc eq_refl eq_refl eq_refl).
Defined.

(** ** Grouping (lines 325-336) *)

Lemma two_distinct_members {A : Type} (a b : A) (l : list A) :
  In a l -> In b l -> a <> b -> (2 <= List.length l)%nat.
Proof.
  intros Ha Hb N.
  destruct l as [|x [|y l]]; simpl in *.
  - contradiction.
  - destruct Ha as [<-|[]], Hb as [<-|[]]. congruence.
  - lia.
Qed.

Lemma both_cues_counted (conj_texts : list string) :
  In "and" conj_texts -> In "or" conj_texts ->
  (1 <? PyStr.inter_size conj_texts ["and"; "or"])%nat = true.
Proof.
  intros A O. apply Nat.ltb_lt. unfold PyStr.inter_size.
  apply (two_distinct_members "and" "or"); try discriminate;
    apply nodup_In, filter_In; split; auto.
Qed.

(** C1, as amended.  When the cue tokens contain both "and" and "or" and the
    arcs labelled "cc" are at least two, the mode depends on the first two
    of them only through whether each span width (end minus start) exceeds
    1: "second" when the first arc's width exceeds 1 and the second's does
    not, "first" in every other case. *)
Theorem grouping_mode_by_width_flags (conj_texts : list string) (arcs : list Arc)
    (a0 a1 : Arc) (rest : list Arc) :
  In "and" conj_texts -> In "or" conj_texts ->
  filter (fun a => (arc_label a =? "cc")%string) arcs = a0 :: a1 :: rest ->
  brackets_required conj_texts arcs
  = Ok (if ((arc_end a0 - arc_start a0 >? 1) && (arc_end a1 - arc_start a1 <=? 1))%Z
        then (false, true) else (true, false)).
Proof.
  intros A O F. unfold brackets_required.
  rewrite (both_cues_counted _ A O).
  destruct arcs as [|a arcs]; [discriminate|].
  rewrite F. cbn [map py_nth nth_error bind]. unfold needed.
  destruct (arc_end a0 - arc_start a0 >? 1)%Z eqn:E0;
    destruct (arc_end a1 - arc_start a1 >? 1)%Z eqn:E1;
    destruct (arc_end a1 - arc_start a1 <=? 1)%Z eqn:E2;
    try reflexivity; exfalso; lia.
Qed.

Lemma grouping_mode_by_width_flags_witness :
  In "and" (conj_texts_of group_doc) /\ In "or" (conj_texts_of group_doc)
  /\ brackets_required (conj_texts_of group_doc) (arcs group_doc) = Ok (true, false).
Proof.
  split; [simpl; auto|]. split; [simpl; auto|].
  exact (grouping_mode_by_width_flags (conj_texts_of group_doc) (arcs group_doc)
           (mkArc 1 2 "cc" "right") (mkArc 1 3 "cc" "right") []
           (or_introl eq_refl) (or_intror (or_introl eq_refl)) eq_refl).
Defined.

(** C1, as stated, fails: the first "cc" arc spans 3 tokens and the second 2,
    so the first is the wider, and the mode is "first". *)
Lemma wider_first_arc_gives_first_mode :
  brackets_required ["and"; "or"] [mkArc 1 4 "cc" "left"; mkArc 5 7 "cc" "left"]
  = Ok (true, false)
  /\ (4 - 1 >? 7 - 5)%Z = true.
Proof. split; reflexivity. Qed.

(** With fewer than two arcs labelled "cc" the comparison faults, and the
    synthesizer's handler records the failure with an empty formula. *)
Lemma grouping_faults_below_two_arcs (conj_texts : list string) (arcs : list Arc) :
  In "and" conj_texts -> In "or" conj_texts ->
  (List.length (filter (fun a => (arc_label a =? "cc")%string) arcs) < 2)%nat ->
  exists e, brackets_required conj_texts arcs = Raise e.
Proof.
  intros A O L. unfold brackets_required.
  rewrite (both_cues_counted _ A O).
  destruct arcs as [|a arcs]; [eauto|].
  destruct (filter (fun a => (arc_label a =? "cc")%string) (a :: arcs))
    as [|b0 [|b1 l]]; simpl in *; eauto; lia.
Qed.

(** ** The token loop (lines 141-148) *)

(** The loop in closed form: it is decided by the first token and by the
    first out-of-vocabulary token. *)
Lemma validate_tokens_closed (doc : list Token) :
  forall h,
  validate_tokens h doc
  = match doc with
    | [] => h
    | t0 :: _ =>
        match find is_oov doc with
        | None => set_response 1 h
        | Some t =>
            if PyStr.contains (tok_text t) (model_phrases h)
            then (if is_oov t0 then h else set_response 1 h)
            else add_message (oov_message (tok_text t)) (set_response 0 h)
        end
    end.
Proof.
  induction doc as [|t0 doc IH]; intros h; [reflexivity|].
  cbn [validate_tokens find].
  destruct (is_oov t0) eqn:O0.
  - destruct (PyStr.contains (tok_text t0) (model_phrases h)); reflexivity.
  - rewrite IH. destruct doc as [|t1 doc']; [reflexivity|].
    destruct (find is_oov (t1 :: doc')) as [t|]; [|reflexivity].
    change (model_phrases (set_response 1 h)) with (model_phrases h).
    destruct (PyStr.contains (tok_text t) (model_phrases h)); [|reflexivity].
    destruct (is_oov t1); reflexivity.
Qed.





(** C9.  When the first token of the annotated prompt is outside the
    vocabulary and its text is in the concatenation of the model-code
    phrases, the loop leaves at once with [response] still 0, no later stage
    runs (the handler keeps the state [__init__] gave it) and the entry point
    returns the failure payload with the empty message. *)
Theorem covered_first_oov_token_gives_empty_message (env : Env) (fuel : nat)
    (prompt : string) (t : Token) (rest : list Token) :
  tokens (nlp env (PyStr.lower prompt)) = t :: rest ->
  is_oov t = true ->
  PyStr.contains (tok_text t) (model_phrases (new_handler prompt)) = true ->
  init env fuel prompt = Some (new_handler prompt)
  /\ interpret env fuel prompt = Some (Message [""]).
Proof.
  intros T O C.
  assert (I : init env fuel prompt = Some (new_handler prompt)).
  { unfold init, validator, get_doc.
    change (text (new_handler prompt)) with (PyStr.lower prompt).
    rewrite T. cbn [validate_tokens]. rewrite O, C. reflexivity. }
  split; [exact I|].
  unfold interpret. rewrite I. reflexivity.
Qed.

Lemma covered_first_oov_token_gives_empty_message_witness :
  tokens (nlp (sample_env code_first_doc) (PyStr.lower code_first_prompt))
  = unknown "318i" "NUM" "ROOT"
    :: [word "with" "ADP" "prep"; word "sunroof" "NOUN" "pobj"]
  /\ PyStr.contains "318i" (model_phrases (new_handler code_first_prompt)) = true
  /\ interpret (sample_env code_first_doc) 3 code_first_prompt = Some (Message [""]).
Proof.
  split; [reflexivity|]. split; [reflexivity|].
  exact (proj2 (covered_first_oov_token_gives_empty_message
                  (sample_env code_first_doc) 3 code_first_prompt
                  (unknown "318i" "NUM" "ROOT")
                  [word "with" "ADP" "prep"; word "sunroof" "NOUN" "pobj"]
                  eq_refl eq_refl eq_refl)).
Defined.

(** ** The message is only appended to *)

Lemma diagnostics_app (a b : list string) :
  diagnostics (a ++ b) = (diagnostics a ++ diagnostics b)%string.
Proof.
  induction a as [|c a IH]; simpl; [reflexivity|].
  rewrite IH, append_assoc. reflexivity.
Qed.

Lemma appends_same (h h' : Handler) : message h' = message h -> appends h h'.
Proof.
  intros E. exists []. rewrite E, append_empty_r. split; [reflexivity | constructor].
Qed.

Lemma appends_trans (h1 h2 h3 : Handler) :
  appends h1 h2 -> appends h2 h3 -> appends h1 h3.
Proof.
  intros (c1 & E1 & F1) (c2 & E2 & F2). exists (c1 ++ c2). split.
  - rewrite E2, E1, diagnostics_app, append_assoc. reflexivity.
  - apply Forall_app. auto.
Qed.

Lemma appends_add (m : string) (h : Handler) :
  stage_failure m -> appends h (add_message m h).
Proof.
  intros F. exists [m]. split; [|auto].
  cbn [add_message set_message message diagnostics]. rewrite append_empty_r. reflexivity.
Qed.

Lemma appends_add_after (m : string) (h0 h : Handler) :
  stage_failure m -> appends h0 h -> appends h0 (add_message m h).
Proof. intros F A. eapply appends_trans; [exact A | apply appends_add; exact F]. Qed.

#[local] Hint Constructors stage_failure : core.
#[local] Hint Resolve appends_add_after appends_same : core.

Lemma validate_tokens_appends (doc : list Token) (h : Handler) :
  appends h (validate_tokens h doc).
Proof.
  rewrite validate_tokens_closed.
  destruct doc as [|t0 rest]; [auto|].
  destruct (find is_oov (t0 :: rest)) as [t|]; [|auto].
  destruct (PyStr.contains (tok_text t) (model_phrases h)); [|auto].
  destruct (is_oov t0); auto.
Qed.

Lemma get_model_codes_appends (env : Env) (h : Handler) (doc : Doc) :
  appends h (get_model_codes env h doc).
Proof. unfold get_model_codes. destruct (model_codes_body env h doc); auto 6. Qed.

Lemma get_boolean_formula_appends (env : Env) (fuel : nat) (h h' : Handler) (doc : Doc) :
  get_boolean_formula env fuel h doc = Some h' -> appends h h'.
Proof.
  unfold get_boolean_formula.
  destruct (boolean_formula_body env fuel h doc) as [[f|e]|]; intros H;
    try discriminate; injection H as <-; auto 6.
Qed.

Lemma get_parsed_dates_appends (env : Env) (h : Handler) (doc : Doc) :
  appends h (get_parsed_dates env h doc).
Proof. unfold get_parsed_dates. destruct (parsed_dates_body env h doc); auto 6. Qed.

Lemma stage_model_codes_appends (env : Env) (h : Handler) :
  appends h (stage_model_codes env h).
Proof.
  unfold stage_model_codes. destruct (response h =? 1)%Z; [|auto].
  pose proof (get_model_codes_appends env h (get_doc env h)).
  destruct (List.length (model_code (get_model_codes env h (get_doc env h))) =? 0)%nat;
    auto.
Qed.

Lemma stage_boolean_formula_appends (env : Env) (fuel : nat) (h h' : Handler) :
  stage_boolean_formula env fuel h = Some h' -> appends h h'.
Proof.
  unfold stage_boolean_formula. destruct (response h =? 1)%Z.
  - destruct (get_boolean_formula env fuel h (get_doc env h)) as [h1|] eqn:G;
      intros H; [|discriminate]. injection H as <-.
    apply get_boolean_formula_appends in G.
    destruct (String.length (boolean_formula h1) =? 0)%nat; auto.
  - intros H. injection H as <-. auto.
Qed.

Lemma stage_dates_appends (env : Env) (h : Handler) :
  appends h (stage_dates env h).
Proof.
  unfold stage_dates. destruct (response h =? 1)%Z; [|auto].
  pose proof (get_parsed_dates_appends env h (get_doc env h)).
  destruct (String.length (dates (get_parsed_dates env h (get_doc env h))) =? 0)%nat;
    auto.
Qed.

Lemma validator_appends (env : Env) (fuel : nat) (h h' : Handler) (doc : Doc) :
  validator env fuel h doc = Some h' -> appends h h'.
Proof.
  unfold validator. intros V.
  destruct (stage_boolean_formula env fuel (stage_model_codes env
              (validate_tokens h (tokens doc)))) as [h3|] eqn:B; [|discriminate].
  injection V as <-.
  eapply appends_trans; [apply validate_tokens_appends|].
  eapply appends_trans; [apply stage_model_codes_appends|].
  eapply appends_trans; [eapply stage_boolean_formula_appends; exact B|].
  apply stage_dates_appends.
Qed.

(** ** The causes each stage appends *)
















(** ** The shape of the returned value *)

Lemma lstrip_separator (s : string) : PyStr.lstrip ". " (". " ++ s) = PyStr.lstrip ". " s.
Proof. reflexivity. Qed.

Lemma diagnostics_join (cause : string) (causes : list string) :
  diagnostics (cause :: causes) = (". " ++ PyStr.join ". " (cause :: causes))%string.
Proof.
  revert cause. induction causes as [|c causes IH]; intros cause.
  - simpl. rewrite append_empty_r. reflexivity.
  - change (diagnostics (cause :: c :: causes))
      with (". " ++ cause ++ diagnostics (c :: causes))%string.
    rewrite IH. reflexivity.
Qed.

(** Trimming the accumulated message gives the causes joined with ". ",
    trimmed. *)
Lemma strip_diagnostics (causes : list string) :
  PyStr.strip ". " (diagnostics causes) = PyStr.strip ". " (PyStr.join ". " causes).
Proof.
  destruct causes as [|c causes]; [reflexivity|].
  rewrite diagnostics_join. unfold PyStr.strip.
  rewrite lstrip_separator. reflexivity.
Qed.

Lemma validate_tokens_binary (doc : list Token) (h : Handler) :
  binary h -> binary (validate_tokens h doc).
Proof.
  intros B. rewrite validate_tokens_closed. unfold binary.
  destruct doc as [|t0 rest]; [exact B|].
  destruct (find is_oov (t0 :: rest)) as [t|]; [|simpl; auto].
  destruct (PyStr.contains (tok_text t) (model_phrases h)); [|simpl; auto].
  destruct (is_oov t0); simpl; auto.
Qed.

Lemma stage_model_codes_coded (env : Env) (h : Handler) :
  binary h -> coded (stage_model_codes env h).
Proof.
  intros B. unfold stage_model_codes, coded, binary.
  destruct (response h =? 1)%Z eqn:R.
  - unfold get_model_codes.
    destruct (model_codes_body env h (get_doc env h)) as [[|c mc]|e]; cbn.
    + split; [auto | discriminate].
    + split; [auto | discriminate].
    + destruct (List.length (model_code h) =? 0)%nat; cbn; split; auto; discriminate.
  - split; [exact B|]. intros R1. rewrite R1 in R. discriminate.
Qed.

Lemma stage_boolean_formula_coded (env : Env) (fuel : nat) (h h' : Handler) :
  stage_boolean_formula env fuel h = Some h' -> coded h -> coded h'.
Proof.
  unfold stage_boolean_formula, coded, binary. intros H [B M].
  destruct (response h =? 1)%Z eqn:R.
  - apply Z.eqb_eq in R. unfold get_boolean_formula in H.
    destruct (boolean_formula_body env fuel h (get_doc env h)) as [[f|e]|];
      try discriminate; injection H as <-.
    + destruct (String.length f =? 0)%nat eqn:L; cbn; rewrite ?L; cbn;
        split; auto; intros; try discriminate; auto.
    + cbn. split; auto.
  - injection H as <-. auto.
Qed.

Lemma stage_dates_coded (env : Env) (h : Handler) :
  coded h -> coded (stage_dates env h).
Proof.
  unfold stage_dates, coded, binary. intros [B M].
  destruct (response h =? 1)%Z eqn:R; [|auto].
  apply Z.eqb_eq in R. unfold get_parsed_dates.
  destruct (parsed_dates_body env h (get_doc env h)) as [dt|e]; cbn.
  - destruct (String.length dt =? 0)%nat; cbn; split; auto.
  - destruct (String.length (dates h) =? 0)%nat; cbn; split; auto.
Qed.

Lemma validator_coded (env : Env) (fuel : nat) (h h' : Handler) (doc : Doc) :
  validator env fuel h doc = Some h' -> binary h -> coded h'.
Proof.
  unfold validator. intros V B.
  destruct (stage_boolean_formula env fuel (stage_model_codes env
              (validate_tokens h (tokens doc)))) as [h3|] eqn:S; [|discriminate].
  injection V as <-.
  apply stage_dates_coded.
  eapply stage_boolean_formula_coded; [exact S|].
  apply stage_model_codes_coded, validate_tokens_binary, B.
Qed.

(** C3.  [response] is 0 or 1 when the handler is built.  With 0 the entry
    point returns the [message] payload, carrying one string: the causes
    accumulated in the message, joined with ". " and trimmed of "." and " ".
    With 1 it returns one record for a single model code and otherwise a
    list with one record per model code, at least one, and no message. *)
Theorem interpret_payload_shape (env : Env) (fuel : nat) (prompt : string) (h : Handler) :
  init env fuel prompt = Some h ->
  (response h = 0%Z \/ response h = 1%Z)
  /\ (response h = 0%Z ->
      exists causes,
        message h = diagnostics causes
        /\ Forall stage_failure causes
        /\ interpret env fuel prompt
           = Some (Message [PyStr.strip ". " (PyStr.join ". " causes)]))
  /\ (response h = 1%Z ->
      exists code codes,
        model_code h = code :: codes
        /\ interpret env fuel prompt
           = Some (match codes with
                   | [] => OneRecord (record_of h code)
                   | _ => Records (map (record_of h) (code :: codes))
                   end)).
Proof.
  intros I. unfold interpret. rewrite I. unfold init in I.
  destruct (validator_coded _ _ _ _ _ I (or_introl eq_refl)) as [B M].
  pose proof (validator_appends _ _ _ _ _ I) as A.
  split; [exact B|]. split.
  - intros R. destruct A as (causes & E & F). exists causes.
    cbn [message new_handler append] in E.
    repeat split; auto.
    unfold get_request_body. rewrite R, E, strip_diagnostics. reflexivity.
  - intros R. specialize (M R).
    destruct (model_code h) as [|code codes] eqn:C; [congruence|].
    exists code, codes. split; [reflexivity|].
    unfold get_request_body. rewrite R, C. destruct codes; reflexivity.
Qed.

Lemma interpret_payload_shape_witness :
  match init (sample_env trailing_doc) 3 trailing_prompt with
  | Some h => response h = 0%Z \/ response h = 1%Z
  | None => False
  end
  /\ interpret (sample_env trailing_doc) 3 trailing_prompt
     = Some (Message
               ["Error encountered while parsing for model code in 'get_model_codes' method. max() arg is an empty sequence. Prompt doesn't include one of the sales description provided, Please check!"])
  /\ interpret (sample_env order_doc) 3 order_prompt
     = Some (OneRecord (mkRecord ["28FF"] ["+S403A"] ["2024-11-30"])).
Proof.
  split; [|split; reflexivity].
  destruct (init (sample_env trailing_doc) 3 trailing_prompt) as [h|] eqn:I.
  - exact (proj1 (interpret_payload_shape (sample_env trailing_doc) 3 trailing_prompt h I)).
  - vm_compute in I. discriminate.
Defined.

(** ** Selection of the key (lines 296-315) *)

Lemma fold_max_spec (l : list Z) :
  forall x,
  let m := fold_left Z.max l x in
  (m = x \/ In m l) /\ (x <= m)%Z /\ (forall y, In y l -> (y <= m)%Z).
Proof.
  induction l as [|a l IH]; intros x; simpl.
  - repeat split; auto; try lia; intros y [].
  - destruct (IH (Z.max x a)) as (M & L & A).
    repeat split.
    + destruct M as [M|M]; [|auto].
      rewrite M. destruct (Z.max_spec x a) as [[_ ->]|[_ ->]]; auto.
    + lia.
    + intros y [<-|Y]; [lia | auto].
Qed.

Lemma py_max_spec (l : list Z) (m : Z) :
  py_max l = Ok m -> In m l /\ (forall y, In y l -> (y <= m)%Z).
Proof.
  destruct l as [|x l]; simpl; intros H; [discriminate|].
  injection H as <-.
  destruct (fold_max_spec l x) as (M & L & A).
  split.
  - destruct M as [->|M]; auto.
  - intros y [<-|Y]; auto.
Qed.

Lemma py_index_spec (x : Z) (l : list Z) :
  In x l ->
  nth_error l (py_index x l) = Some x
  /\ (forall j, (j < py_index x l)%nat -> nth_error l j <> Some x).
Proof.
  induction l as [|y l IH]; intros H; [destruct H|].
  simpl. destruct (Z.eqb_spec y x) as [->|N].
  - split; [reflexivity|]. intros j J. lia.
  - destruct H as [H|H]; [contradiction|].
    destruct (IH H) as [E F]. split; [exact E|].
    intros [|j] J; simpl; [congruence|]. apply F. lia.
Qed.

(** [max_index_of] is the last position of the maximum. *)
Lemma max_index_last (m : Z) (l : list Z) :
  In m l ->
  nth_error l (max_index_of m l) = Some m
  /\ (forall j, nth_error l j = Some m -> (j <= max_index_of m l)%nat).
Proof.
  intros H. unfold max_index_of.
  assert (Hr : In m (rev l)) by (apply in_rev; rewrite rev_involutive; exact H).
  destruct (py_index_spec m (rev l) Hr) as [E F].
  assert (K : (py_index m (rev l) < List.length l)%nat).
  { rewrite <- length_rev. apply nth_error_Some. congruence. }
  rewrite nth_error_rev in E.
  destruct (Nat.ltb_spec (py_index m (rev l)) (List.length l)) as [_|]; [|lia].
  split.
  - rewrite <- E. f_equal. lia.
  - intros j J.
    assert (Jl : (j < List.length l)%nat) by (apply nth_error_Some; congruence).
    destruct (Nat.le_gt_cases j (List.length l - py_index m (rev l) - 1)) as [|G];
      [assumption|].
    exfalso. apply (F (List.length l - S j)%nat); [lia|].
    rewrite nth_error_rev.
    destruct (Nat.ltb_spec (List.length l - S j) (List.length l)) as [_|]; [|lia].
    rewrite <- J. f_equal. lia.
Qed.

Lemma dict_get_key (d : dict) (key : string) :
  In key (dict_keys d) -> exists phrase, dict_get d key = Some phrase.
Proof.
  induction d as [|[k v] d IH]; simpl; intros H; [destruct H|].
  destruct (String.eqb_spec k key) as [->|N]; [eauto|].
  destruct H as [H|H]; [contradiction | auto].
Qed.

Lemma dict_get_nth (d : dict) :
  forall i key phrase,
  NoDup (dict_keys d) ->
  nth_error d i = Some (key, phrase) ->
  dict_get d key = Some phrase.
Proof.
  induction d as [|[k v] d IH]; intros i key phrase N H.
  - destruct i; discriminate.
  - simpl. destruct i as [|i]; simpl in H.
    + injection H as -> ->. rewrite String.eqb_refl. reflexivity.
    + simpl in N. apply NoDup_cons_iff in N as [Nk N].
      destruct (String.eqb_spec k key) as [->|_]; [|eauto].
      exfalso. apply Nk. apply nth_error_In in H.
      change key with (fst (key, phrase)). apply in_map. exact H.
Qed.

(** C6.  In one round of the resolution loop, when the maximum score is at
    least 85 the key selected is the one at the last catalog position whose
    phrase attains the maximum: every position attaining it is at or before
    the selected one. *)
Theorem tie_selects_last_phrase (env : Env) (d : dict) (seg : string) (m : Z) :
  py_max (similarity_scores_of env d seg) = Ok m ->
  (85 <= m)%Z ->
  let similarity_scores := similarity_scores_of env d seg in
  let max_index := max_index_of m similarity_scores in
  exists key phrase,
    select_key env d seg = Ok (Some (key, remove_words_from phrase seg))
    /\ nth_error (dict_keys d) max_index = Some key
    /\ dict_get d key = Some phrase
    /\ nth_error similarity_scores max_index = Some m
    /\ (forall j, nth_error similarity_scores j = Some m -> (j <= max_index)%nat)
    /\ (NoDup (dict_keys d) -> nth_error d max_index = Some (key, phrase)).
Proof.
  intros M T. cbv zeta.
  destruct (py_max_spec _ _ M) as [Hin _].
  destruct (max_index_last m _ Hin) as [E L].
  assert (Len : (max_index_of m (similarity_scores_of env d seg) < List.length d)%nat).
  { assert (E' : (max_index_of m (similarity_scores_of env d seg)
                  < List.length (similarity_scores_of env d seg))%nat)
      by (apply nth_error_Some; congruence).
    assert (Ls : List.length (similarity_scores_of env d seg) = List.length d)
      by (unfold similarity_scores_of, dict_values; rewrite !length_map; reflexivity).
    rewrite Ls in E'. exact E'. }
  destruct (nth_error d (max_index_of m (similarity_scores_of env d seg)))
    as [[key v]|] eqn:N; [|apply nth_error_None in N; lia].
  assert (K : nth_error (dict_keys d) (max_index_of m (similarity_scores_of env d seg))
              = Some key).
  { unfold dict_keys. rewrite nth_error_map, N. reflexivity. }
  destruct (dict_get_key d key) as [phrase P].
  { eapply nth_error_In; eauto. }
  exists key, phrase.
  repeat split; auto.
  - unfold select_key. rewrite M. cbn [bind].
    destruct (Z.ltb_spec m 85); [lia|].
    unfold py_nth. rewrite K. cbn [bind]. rewrite P. reflexivity.
  - intros ND. rewrite (dict_get_nth _ _ _ _ ND N) in P. congruence.
Qed.

Lemma tie_selects_last_phrase_witness :
  nth_error (similarity_scores_of (overlap_env order_doc) abbreviations_dic0 "msportpackage") 2
  = Some 100%Z
  /\ nth_error (similarity_scores_of (overlap_env order_doc) abbreviations_dic0 "msportpackage") 3
     = Some 100%Z
  /\ select_key (overlap_env order_doc) abbreviations_dic0 "msportpackage"
     = Ok (Some ("P33BA", "")).
Proof.
  split; [reflexivity|]. split; [reflexivity|].
  destruct (tie_selects_last_phrase (overlap_env order_doc) abbreviations_dic0
              "msportpackage" 100 eq_refl ltac:(lia))
    as (key & phrase & S & K & P & _).
  vm_compute in K. injection K as <-.
  vm_compute in P. injection P as <-.
  exact S.
Defined.

(** ** The fuzzy pass of the model-code matcher (lines 217-228) *)

Lemma append_keys_in (d : dict) (value key : string) (keys : list string) :
  forall model_code,
  In key keys -> dict_get d key = Some value ->
  In key (append_keys d value keys model_code).
Proof.
  assert (Keep : forall ks mc, In key mc -> In key (append_keys d value ks mc)).
  { induction ks as [|k ks IH]; intros mc H; simpl; [exact H|].
    apply IH. destruct (option_eqb_str (dict_get d k) value); [|exact H].
    apply in_or_app. auto. }
  induction keys as [|k keys IH]; intros mc Hin G; [destruct Hin|].
  simpl. destruct Hin as [->|Hin]; [|auto].
  apply Keep. rewrite G. simpl. rewrite String.eqb_refl.
  apply in_or_app. right. left. reflexivity.
Qed.

Lemma fuzzy_value_ext (env1 env2 : Env) (d : dict) (txt value : string)
    (model_code : list string) :
  (forall v rest w,
     PyStr.split (PyStr.lower value) = v :: rest ->
     In w (PyStr.split (PyStr.remove_all "," txt)) ->
     fuzz_ratio env1 v w = fuzz_ratio env2 v w) ->
  fuzzy_value env1 d txt value model_code = fuzzy_value env2 d txt value model_code.
Proof.
  intros H. unfold fuzzy_value.
  destruct (PyStr.split (PyStr.lower value)) as [|v rest]; [reflexivity|].
  rewrite (map_ext_in _ (fun word => fuzz_ratio env2 v word)); [reflexivity|].
  intros w W. eapply H; eauto.
Qed.

(** Two scorers that agree on the first word of every phrase against the
    words of the text give the same fuzzy pass. *)
Lemma fuzzy_pass_ext (env1 env2 : Env) (d : dict) (txt : string)
    (values : list string) :
  forall model_code,
  (forall value v rest w,
     In value values ->
     PyStr.split (PyStr.lower value) = v :: rest ->
     In w (PyStr.split (PyStr.remove_all "," txt)) ->
     fuzz_ratio env1 v w = fuzz_ratio env2 v w) ->
  fuzzy_pass env1 d txt values model_code = fuzzy_pass env2 d txt values model_code.
Proof.
  induction values as [|value values IH]; intros mc H; [reflexivity|].
  cbn [fuzzy_pass].
  rewrite (fuzzy_value_ext env1 env2 d txt value mc).
  - destruct (fuzzy_value env2 d txt value mc) as [mc'|e]; [|reflexivity].
    cbn [bind]. apply IH. intros value' v rest w Hin. apply H. right. exact Hin.
  - intros v rest w. apply H. left. reflexivity.
Qed.

(** ** One matched segment under the "first" mode (lines 366-401) *)

Lemma contains_in_empty (c : ascii) (w : string) : PyStr.contains (String c w) "" = false.
Proof. reflexivity. Qed.

Lemma tot_of_empty (lst : list string) : tot_of lst "" = 0%nat.
Proof.
  unfold tot_of. induction lst as [|itm lst IH]; [reflexivity|].
  cbn [filter]. destruct itm as [|c w]; [exact IH|].
  rewrite contains_in_empty. exact IH.
Qed.

(** A formula made of symbols contains no key of a catalog whose keys have
    none. *)
Lemma tot_of_symbols (lst : list string) (f : string) :
  Forall (fun itm => itm = "" \/ no_symbol itm = true) lst ->
  (forall c, PyStr.mem_char c f = true -> PyStr.mem_char c formula_symbols = true) ->
  tot_of lst f = 0%nat.
Proof.
  intros K S. unfold tot_of.
  induction K as [|itm lst [->|N] K IH]; [reflexivity| |].
  - cbn [filter]. rewrite contains_empty. exact IH.
  - cbn [filter]. destruct itm as [|c w].
    + rewrite contains_empty. exact IH.
    + destruct (PyStr.contains (String c w) f) eqn:C; [|exact IH].
      exfalso. apply contains_head in C. apply S in C.
      cbn [no_symbol] in N. rewrite C in N. discriminate.
Qed.

Lemma conj_of_cases (conj_texts : list string) (ind : nat) (c : string) :
  conj_of conj_texts ind = Ok c -> c = "" \/ c = "/".
Proof.
  unfold conj_of. destruct (0 <? ind)%nat.
  - intros H. apply bind_ok in H as (x & _ & H). injection H as <-.
    destruct (x =? "or")%string; auto.
  - intros H. injection H as <-. auto.
Qed.

Lemma opertor_of_sign (txt opertor : string) :
  sign opertor -> sign (opertor_of txt opertor).
Proof.
  intros S. unfold sign.
  destruct (opertor_cases txt opertor) as [-> | [-> | ->]]; auto.
Qed.

Lemma nth_error_single (i j ind : nat) (key : string) :
  nth_error (repeat "" i ++ key :: repeat "" j) ind
  = if (ind <? i)%nat then Some ""
    else if (ind =? i)%nat then Some key
    else nth_error (repeat "" j) (ind - S i).
Proof.
  destruct (Nat.ltb_spec ind i) as [L|L].
  - rewrite nth_error_app1 by (rewrite repeat_length; exact L).
    apply nth_error_repeat. exact L.
  - rewrite nth_error_app2 by (rewrite repeat_length; exact L).
    rewrite repeat_length.
    destruct (Nat.eqb_spec ind i) as [->|N].
    + rewrite Nat.sub_diag. reflexivity.
    + replace (ind - i)%nat with (S (ind - S i)) by lia. reflexivity.
Qed.

Lemma nth_error_repeat_empty (j n : nat) (x : string) :
  nth_error (repeat "" j) n = Some x -> x = "".
Proof.
  intros H. apply nth_error_In, repeat_spec in H. exact H.
Qed.

(** A segment whose slot is empty changes the sign at most. *)
Lemma assemble_step_empty (first second : bool) (conj_texts lst : list string)
    (ind : nat) (txt f opertor : string) (st : Asm) :
  nth_error lst ind = Some "" ->
  assemble_step first second conj_texts lst ind txt (mkAsm f opertor "") = Ok st ->
  st = mkAsm f (opertor_of txt opertor) "".
Proof.
  intros N H. unfold assemble_step in H.
  apply bind_ok in H as (c & _ & H).
  unfold py_nth in H. rewrite N in H. cbn in H.
  injection H as <-. rewrite append_empty_r. reflexivity.
Qed.

(** Past the end of the match list the loop faults. *)
Lemma assemble_step_past (first second : bool) (conj_texts lst : list string)
    (ind : nat) (txt : string) (st0 st : Asm) :
  nth_error lst ind = None ->
  assemble_step first second conj_texts lst ind txt st0 = Ok st -> False.
Proof.
  intros N H. unfold assemble_step in H.
  apply bind_ok in H as (c & _ & H).
  unfold py_nth in H. rewrite N in H. discriminate.
Qed.

Lemma symbols_of_prefix (c o : string) :
  (c = "" \/ c = "/") -> sign o ->
  forall ch, PyStr.mem_char ch (c ++ o ++ "(") = true ->
  PyStr.mem_char ch formula_symbols = true.
Proof.
  intros [-> | ->] [-> | [-> | ->]] ch H; simpl in H |- *;
    repeat (apply orb_true_iff in H as [H|H];
            [apply Ascii.eqb_eq in H; subst ch; reflexivity|]);
    discriminate.
Qed.

(** The segment of the one key, reached with an empty formula under the
    "first" mode: the bracket is opened and not closed. *)
Lemma assemble_step_key (conj_texts lst : list string) (ind : nat)
    (txt opertor key : string) (st : Asm) :
  Forall (fun itm => itm = "" \/ no_symbol itm = true) lst ->
  nth_error lst ind = Some key ->
  key <> "" ->
  sign opertor ->
  assemble_step true false conj_texts lst ind txt (mkAsm "" opertor "") = Ok st ->
  exists c,
    (c = "" \/ c = "/")
    /\ st = mkAsm (c ++ opertor_of txt opertor ++ "(" ++ key)
              (opertor_of txt opertor) "".
Proof.
  intros K N E S H. unfold assemble_step in H.
  apply bind_ok in H as (c & C & H). apply conj_of_cases in C.
  unfold py_nth in H. rewrite N in H. cbn [bind] in H.
  destruct key as [|a w]; [congruence|].
  cbn [String.length Nat.ltb Nat.leb asm_formula asm_opertor asm_bracket fst snd
       andb] in H.
  rewrite tot_of_empty in H. cbn [Nat.eqb append] in H.
  rewrite (tot_of_symbols lst (c ++ opertor_of txt opertor ++ "(")) in H;
    [|exact K | apply symbols_of_prefix; [exact C | apply opertor_of_sign; exact S]].
  cbn [Nat.eqb andb] in H. injection H as <-.
  exists c. split; [exact C|]. f_equal.
  rewrite append_empty_r, !append_assoc. reflexivity.
Qed.

Section One_key.

Variables (conj_texts : list string) (i j : nat) (key : string).

Let lst : list string := repeat "" i ++ key :: repeat "" j.

Hypothesis key_filled : key <> "".
Hypothesis key_plain : no_symbol key = true.

Lemma lst_plain : Forall (fun itm => itm = "" \/ no_symbol itm = true) lst.
Proof.
  apply Forall_app. split; [|constructor; [auto|]];
    apply Forall_forall; intros x X; apply repeat_spec in X; auto.
Qed.

(** After the key's segment the formula no longer changes. *)
Lemma assemble_after (segs : list string) :
  forall ind f opertor st,
  (i < ind)%nat ->
  assemble true false conj_texts lst ind segs (mkAsm f opertor "") = Ok st ->
  asm_formula st = f.
Proof.
  induction segs as [|txt segs IH]; intros ind f opertor st L H; cbn [assemble] in H.
  - injection H as <-. reflexivity.
  - apply bind_ok in H as (st' & S & H).
    destruct (nth_error lst ind) as [x|] eqn:N;
      [|exfalso; eapply assemble_step_past; eauto].
    assert (X : x = "").
    { unfold lst in N. rewrite nth_error_single in N.
      destruct (Nat.ltb_spec ind i); [lia|].
      destruct (Nat.eqb_spec ind i); [lia|].
      eapply nth_error_repeat_empty; eauto. }
    subst x. apply (assemble_step_empty _ _ _ _ _ _ _ _ _ N) in S. subst st'.
    eapply IH; [|exact H]. lia.
Qed.

(** Up to the key's segment the formula is empty; from there on it is the
    key behind an opening bracket. *)
Lemma assemble_before (segs : list string) :
  forall ind opertor st,
  (ind <= i)%nat ->
  sign opertor ->
  assemble true false conj_texts lst ind segs (mkAsm "" opertor "") = Ok st ->
  asm_formula st = "" \/ opened_key key (asm_formula st).
Proof.
  induction segs as [|txt segs IH]; intros ind opertor st L S H; cbn [assemble] in H.
  - injection H as <-. auto.
  - apply bind_ok in H as (st' & St & H).
    assert (N : nth_error lst ind = Some (if (ind =? i)%nat then key else "")).
    { unfold lst. rewrite nth_error_single.
      destruct (Nat.ltb_spec ind i) as [Lt|Ge];
        destruct (Nat.eqb_spec ind i); try lia; reflexivity. }
    destruct (Nat.eqb_spec ind i) as [->|Ne].
    + destruct (assemble_step_key _ _ _ _ _ _ _ lst_plain N key_filled S St)
        as (c & C & ->).
      right. rewrite (assemble_after _ _ _ _ _ (Nat.lt_succ_diag_r i) H).
      exists c, (opertor_of txt opertor).
      repeat split; auto. apply opertor_of_sign. exact S.
    + apply (assemble_step_empty _ _ _ _ _ _ _ _ _ N) in St. subst st'.
      eapply IH; [| |exact H]; [lia | apply opertor_of_sign; exact S].
Qed.

(** On an empty formula the repair faults at the key. *)
Lemma repair_empty_faults : repair lst "" = Raise StringIndexError.
Proof.
  assert (Loop : forall n, repair_loop (repeat "" n ++ key :: repeat "" j) ""
                           = Raise StringIndexError).
  { induction n as [|n IH]; cbn [repeat app repair_loop].
    - destruct key as [|a w]; [congruence | reflexivity].
    - exact IH. }
  unfold repair.
  assert (F : (0 <? List.length (filter (fun word => negb (PyStr.contains word "")) lst))%nat
              = true).
  { destruct (0 <? List.length
                (filter (fun word => negb (PyStr.contains word "")) lst))%nat eqn:E;
      [reflexivity|].
    assert (Hin : In key lst) by (unfold lst; apply in_or_app; right; left; reflexivity).
    pose proof (filter_length_0 _ _ E key Hin) as P. cbv beta in P.
    destruct key as [|a w]; [congruence | discriminate]. }
  rewrite F. apply Loop.
Qed.

(** A formula that holds the key needs no repair. *)
Lemma repair_opened (f : string) : opened_key key f -> repair lst f = Ok f.
Proof.
  intros (c & o & -> & _ & _). unfold repair.
  assert (F : filter (fun word => negb (PyStr.contains word (c ++ o ++ "(" ++ key))) lst
              = []).
  { apply filter_none.
    intros x X. unfold lst in X. apply in_app_or in X as [X|[<-|X]];
      try (apply repeat_spec in X; subst x; rewrite contains_empty; reflexivity).
    rewrite <- !append_assoc, contains_suffix. reflexivity. }
  rewrite F. reflexivity.
Qed.

End One_key.

(** C10, as amended.  When the mode is "first", exactly one slot of the match
    list holds a key, and the synthesizer completes without a fault
    ([response] is 1 when it returns), the stored formula is that key behind
    an opening bracket, after the segment's "/" and sign if any: it contains
    "(" and no ")".  The keys of the catalog are taken to contain no formula
    symbol, as those of the built-in abbreviation catalog do. *)
Theorem first_mode_single_key_unbalanced (env : Env) (fuel : nat) (h h' : Handler)
    (doc : Doc) (i j : nat) (key : string) :
  brackets_required (conj_texts_of doc) (arcs doc) = Ok (true, false) ->
  resolve_all env fuel (abbreviations_dic h)
    (segments (conj_texts_of doc) (desc_str_of doc))
  = Some (Ok (repeat "" i ++ key :: repeat "" j)) ->
  key <> "" ->
  forallb no_symbol (dict_keys (abbreviations_dic h)) = true ->
  get_boolean_formula env fuel h doc = Some h' ->
  response h' = 1%Z ->
  opened_key key (boolean_formula h')
  /\ PyStr.contains "(" (boolean_formula h') = true
  /\ PyStr.contains ")" (boolean_formula h') = false.
Proof.
  intros B L E P G R.
  destruct (get_boolean_formula_ok _ _ _ _ _ G R) as (lst & f & L' & F & ->).
  rewrite L in L'. injection L' as <-.
  cbn [boolean_formula set_boolean_formula].
  assert (Kp : no_symbol key = true).
  { apply resolve_all_keys in L as [_ Ks].
    apply Forall_app in Ks as [_ Ks]. apply Forall_inv in Ks.
    destruct Ks as [->|Hin]; [congruence|].
    rewrite forallb_forall in P. auto. }
  unfold formula_of in F. rewrite B in F. cbn [bind fst snd] in F.
  apply bind_ok in F as (st & A & Rp).
  apply (assemble_before _ i j key E Kp _ 0%nat "" st (Nat.le_0_l i)) in A;
    [|left; reflexivity].
  destruct A as [A|A].
  - rewrite A, (repair_empty_faults i j key E Kp) in Rp. discriminate.
  - rewrite (repair_opened i j key _ A) in Rp. injection Rp as <-.
    split; [exact A|].
    destruct A as (c & o & -> & C & S).
    rewrite !contains_char, !mem_char_app.
    split.
    + cbn [append PyStr.mem_char]. rewrite Ascii.eqb_refl.
      rewrite !orb_true_r. reflexivity.
    + rewrite (no_symbol_mem key ")"%char Kp eq_refl), orb_false_r.
      destruct C as [-> | ->], S as [-> | [-> | ->]]; reflexivity.
Qed.

Lemma first_mode_single_key_unbalanced_witness :
  brackets_required (conj_texts_of group_doc) (arcs group_doc) = Ok (true, false)
  /\ resolve_all (sample_env group_doc) 3 abbreviations_dic0
       (segments (conj_texts_of group_doc) (desc_str_of group_doc))
     = Some (Ok (repeat "" 0 ++ "S403A" :: repeat "" 2))
  /\ get_boolean_formula (sample_env group_doc) 3 (new_handler group_prompt) group_doc
     = Some (set_boolean_formula "+(S403A" (set_response 1 (new_handler group_prompt)))
  /\ PyStr.contains "(" "+(S403A" = true
  /\ PyStr.contains ")" "+(S403A" = false.
Proof.
  split; [reflexivity|]. split; [reflexivity|]. split; [reflexivity|].
  refine (proj2 (first_mode_single_key_unbalanced (sample_env group_doc) 3
                   (new_handler group_prompt)
                   (set_boolean_formula "+(S403A" (set_response 1 (new_handler group_prompt)))
                   group_doc 0 2 "S403A" eq_refl eq_refl _ eq_refl eq_refl eq_refl)).
  discriminate.
Defined.

(** C10, as stated, fails on "sunroof and or 3.5": the mode is "first" and
    the one matched slot holds S403A, but the full stop inside "3.5" makes a
    fourth segment of the text, the loop faults on the cue list, and the
    stored formula is empty: it has no "(". *)
Lemma single_key_formula_lost_on_fault :
  brackets_required (conj_texts_of both_doc) (arcs both_doc) = Ok (true, false)
  /\ resolve_all (sample_env both_doc) 3 abbreviations_dic0
       (segments (conj_texts_of both_doc) (desc_str_of both_doc))
     = Some (Ok ["S403A"; ""; ""])
  /\ option_map boolean_formula
       (get_boolean_formula (sample_env both_doc) 3 (new_handler both_prompt) both_doc)
     = Some ""
  /\ PyStr.contains "(" "" = false.
Proof. repeat split; reflexivity. Qed.

(** ** The two faulting prompts under any scorer

    The runs above use [exact_score].  The same results hold for every scorer
    with the decorators' behaviour, [fuzz.partial_ratio] included: on these
    prompts each segment is "sunroof", the phrase of the last catalog entry,
    or empty, so the decorators and the range decide every comparison that
    matters. *)

Section Any_scorer.

Variable env : Env.
Hypothesis scorer : decorated (fuzz_partial_ratio env).

Lemma abbreviation_scores (seg : string) :
  similarity_scores_of env abbreviations_dic0 seg
  = map (fun phrase => fuzz_partial_ratio env phrase seg)
      ["left-handdrive"; "right-handdrive"; "msportpackage"; "msportpackagepro";
       "comfortpackageeu"; "panoramaglassroof"; "panoramaglassroofskylounge";
       "sunroof"].
Proof. reflexivity. Qed.

Lemma select_sunroof :
  select_key env abbreviations_dic0 "sunroof" = Ok (Some ("S403A", "")).
Proof.
  destruct scorer as (Same & _ & Range).
  unfold select_key. rewrite abbreviation_scores. cbn [map].
  rewrite Same.
  pose proof (Range "left-handdrive" "sunroof").
  pose proof (Range "right-handdrive" "sunroof").
  pose proof (Range "msportpackage" "sunroof").
  pose proof (Range "msportpackagepro" "sunroof").
  pose proof (Range "comfortpackageeu" "sunroof").
  pose proof (Range "panoramaglassroof" "sunroof").
  pose proof (Range "panoramaglassroofskylounge" "sunroof").
  generalize dependent (fuzz_partial_ratio env "left-handdrive" "sunroof").
  generalize dependent (fuzz_partial_ratio env "right-handdrive" "sunroof").
  generalize dependent (fuzz_partial_ratio env "msportpackage" "sunroof").
  generalize dependent (fuzz_partial_ratio env "msportpackagepro" "sunroof").
  generalize dependent (fuzz_partial_ratio env "comfortpackageeu" "sunroof").
  generalize dependent (fuzz_partial_ratio env "panoramaglassroof" "sunroof").
  generalize dependent (fuzz_partial_ratio env "panoramaglassroofskylounge" "sunroof").
  intros x7 ? x6 ? x5 ? x4 ? x3 ? x2 ? x1 ?.
  cbn [py_max fold_left bind].
  replace (Z.max (Z.max (Z.max (Z.max (Z.max (Z.max (Z.max x1 x2) x3) x4) x5) x6) x7) 100)
    with 100%Z by lia.
  cbn [Z.ltb Z.compare Pos.compare Pos.compare_cont].
  unfold max_index_of. cbn [rev app py_index Z.eqb Pos.eqb List.length].
  reflexivity.
Qed.

Lemma select_blank : select_key env abbreviations_dic0 "" = Ok None.
Proof.
  destruct scorer as (_ & Empty & _).
  unfold select_key. rewrite abbreviation_scores. cbn [map].
  rewrite !Empty by (auto; discriminate).
  reflexivity.
Qed.

Lemma resolve_blank (fuel : nat) (key : string) :
  resolve env (S fuel) abbreviations_dic0 "" key = Some (Ok key).
Proof. cbn [resolve]. rewrite select_blank. reflexivity. Qed.

Lemma resolve_sunroof (fuel : nat) :
  resolve env (S (S fuel)) abbreviations_dic0 "sunroof" "" = Some (Ok "S403A").
Proof. cbn [resolve]. rewrite select_sunroof, select_blank. reflexivity. Qed.

(** "sunroof. 3.5" under any such scorer. *)
Lemma stops_prompt_faults (fuel : nat) :
  resolve_all env (S (S fuel)) abbreviations_dic0
    (segments (conj_texts_of stops_doc) (desc_str_of stops_doc))
  = Some (Ok ["S403A"; ""])
  /\ option_map boolean_formula
       (get_boolean_formula env (S (S fuel)) (new_handler stops_prompt) stops_doc)
     = Some "".
Proof.
  assert (L : resolve_all env (S (S fuel)) abbreviations_dic0
                (segments (conj_texts_of stops_doc) (desc_str_of stops_doc))
              = Some (Ok ["S403A"; ""])).
  { change (segments (conj_texts_of stops_doc) (desc_str_of stops_doc))
      with ["sunroof "; ""].
    cbn [resolve_all].
    change (PyStr.join "" (PyStr.split "sunroof ")) with "sunroof".
    change (PyStr.join "" (PyStr.split "")) with "".
    rewrite resolve_sunroof, resolve_blank. reflexivity. }
  split; [exact L|].
  unfold get_boolean_formula, boolean_formula_body.
  change (tokens stops_doc) with
    [word "sunroof" "NOUN" "ROOT"; word "." "PUNCT" "punct"; word "3.5" "NUM" "ROOT"].
  change (abbreviations_dic (new_handler stops_prompt)) with abbreviations_dic0.
  rewrite L. reflexivity.
Qed.

(** "sunroof and or 3.5" under any such scorer. *)
Lemma both_prompt_faults (fuel : nat) :
  resolve_all env (S (S fuel)) abbreviations_dic0
    (segments (conj_texts_of both_doc) (desc_str_of both_doc))
  = Some (Ok ["S403A"; ""; ""])
  /\ option_map boolean_formula
       (get_boolean_formula env (S (S fuel)) (new_handler both_prompt) both_doc)
     = Some "".
Proof.
  assert (L : resolve_all env (S (S fuel)) abbreviations_dic0
                (segments (conj_texts_of both_doc) (desc_str_of both_doc))
              = Some (Ok ["S403A"; ""; ""])).
  { change (segments (conj_texts_of both_doc) (desc_str_of both_doc))
      with ["sunroof "; " "; ""].
    cbn [resolve_all].
    change (PyStr.join "" (PyStr.split "sunroof ")) with "sunroof".
    change (PyStr.join "" (PyStr.split " ")) with "".
    change (PyStr.join "" (PyStr.split "")) with "".
    rewrite resolve_sunroof, resolve_blank. reflexivity. }
  split; [exact L|].
  unfold get_boolean_formula, boolean_formula_body.
  change (tokens both_doc) with
    [word "sunroof" "NOUN" "ROOT"; word "and" "CCONJ" "cc"; word "or" "CCONJ" "cc";
     word "3.5" "NUM" "conj"].
  change (abbreviations_dic (new_handler both_prompt)) with abbreviations_dic0.
  rewrite L. reflexivity.
Qed.

End Any_scorer.

Lemma exact_score_decorated : decorated exact_score.
Proof.
  unfold decorated, exact_score. repeat split.
  - intros s. rewrite String.eqb_refl. reflexivity.
  - intros s t N _. destruct (String.eqb_spec s t); [contradiction | reflexivity].
  - destruct (s =? t)%string; lia.
  - destruct (s =? t)%string; lia.
Qed.

(** ** The bound on the resolution loop

    [fuel] only cuts runs short: a run that leaves the loop leaves it with
    the same result under any larger bound.  The loop itself need not end:
    when the best phrase is not literally in the segment, removing its words
    changes nothing and the next round is the same. *)

Lemma resolve_fuel_mono (env : Env) (d : dict) (fuel : nat) :
  forall seg key r extra,
  resolve env fuel d seg key = Some r ->
  resolve env (fuel + extra) d seg key = Some r.
Proof.
  induction fuel as [|fuel IH]; intros seg key r extra H; [discriminate|].
  cbn [resolve Nat.add] in *.
  destruct (select_key env d seg) as [[[k rest]|]|e]; auto.
Qed.

Lemma resolve_all_fuel_mono (env : Env) (d : dict) (fuel extra : nat) (segs : list string) :
  forall r,
  resolve_all env fuel d segs = Some r ->
  resolve_all env (fuel + extra) d segs = Some r.
Proof.
  induction segs as [|seg segs IH]; intros r H; [exact H|].
  cbn [resolve_all] in *.
  destruct (resolve env fuel d (PyStr.join "" (PyStr.split seg)) "") as [r1|] eqn:R;
    [|discriminate].
  rewrite (resolve_fuel_mono _ _ _ _ _ _ extra R).
  destruct r1 as [key|e]; [|exact H].
  destruct (resolve_all env fuel d segs) as [r2|]; [|discriminate].
  rewrite (IH r2 eq_refl). exact H.
Qed.

(** "sunroo" is a substring of "sunroof", which therefore scores 100, but
    "sunroof" is not in "sunroo": no bound is enough. *)
Lemma resolve_unbounded (fuel : nat) :
  forall key,
  resolve (overlap_env order_doc) fuel abbreviations_dic0 "sunroo" key = None.
Proof.
  induction fuel as [|fuel IH]; intros key; [reflexivity|].
  cbn [resolve].
  change (select_key (overlap_env order_doc) abbreviations_dic0 "sunroo")
    with (@Ok (option (string * string)) (Some ("S403A", "sunroo"))).
  apply IH.
Qed.

(** * Further properties of the methods *)

(** ** What each method leaves alone *)

(** The attributes no method writes: the prompt text and the two catalogs. *)
Lemma validate_tokens_frame (doc : list Token) (h : Handler) :
  let h' := validate_tokens h doc in
  text h' = text h /\ model_codes_dic h' = model_codes_dic h
  /\ abbreviations_dic h' = abbreviations_dic h
  /\ model_code h' = model_code h /\ boolean_formula h' = boolean_formula h
  /\ dates h' = dates h.
Proof.
  cbv zeta. rewrite validate_tokens_closed.
  destruct doc as [|t0 rest]; [repeat split|].
  destruct (find is_oov (t0 :: rest)) as [t|]; [|repeat split].
  destruct (PyStr.contains (tok_text t) (model_phrases h)); [|repeat split].
  destruct (is_oov t0); repeat split.
Qed.

Lemma get_model_codes_frame (env : Env) (h : Handler) (doc : Doc) :
  let h' := get_model_codes env h doc in
  text h' = text h /\ model_codes_dic h' = model_codes_dic h
  /\ abbreviations_dic h' = abbreviations_dic h
  /\ boolean_formula h' = boolean_formula h /\ dates h' = dates h.
Proof.
  cbv zeta. unfold get_model_codes.
  destruct (model_codes_body env h doc); repeat split.
Qed.

Lemma get_boolean_formula_frame (env : Env) (fuel : nat) (h h' : Handler) (doc : Doc) :
  get_boolean_formula env fuel h doc = Some h' ->
  text h' = text h /\ model_codes_dic h' = model_codes_dic h
  /\ abbreviations_dic h' = abbreviations_dic h
  /\ model_code h' = model_code h /\ dates h' = dates h.
Proof.
  unfold get_boolean_formula.
  destruct (boolean_formula_body env fuel h doc) as [[f|e]|]; intros H;
    try discriminate; injection H as <-; repeat split.
Qed.

Lemma get_parsed_dates_frame (env : Env) (h : Handler) (doc : Doc) :
  let h' := get_parsed_dates env h doc in
  text h' = text h /\ model_codes_dic h' = model_codes_dic h
  /\ abbreviations_dic h' = abbreviations_dic h
  /\ model_code h' = model_code h /\ boolean_formula h' = boolean_formula h.
Proof.
  cbv zeta. unfold get_parsed_dates.
  destruct (parsed_dates_body env h doc); repeat split.
Qed.

Lemma stage_model_codes_frame (env : Env) (h : Handler) :
  let h' := stage_model_codes env h in
  text h' = text h /\ model_codes_dic h' = model_codes_dic h
  /\ abbreviations_dic h' = abbreviations_dic h
  /\ boolean_formula h' = boolean_formula h /\ dates h' = dates h.
Proof.
  cbv zeta. unfold stage_model_codes.
  destruct (response h =? 1)%Z; [|repeat split].
  pose proof (get_model_codes_frame env h (get_doc env h)) as F. cbv zeta in F.
  destruct (List.length (model_code (get_model_codes env h (get_doc env h))) =? 0)%nat;
    exact F.
Qed.

Lemma stage_boolean_formula_frame (env : Env) (fuel : nat) (h h' : Handler) :
  stage_boolean_formula env fuel h = Some h' ->
  text h' = text h /\ model_codes_dic h' = model_codes_dic h
  /\ abbreviations_dic h' = abbreviations_dic h
  /\ model_code h' = model_code h /\ dates h' = dates h.
Proof.
  unfold stage_boolean_formula. destruct (response h =? 1)%Z.
  - destruct (get_boolean_formula env fuel h (get_doc env h)) as [h1|] eqn:G;
      intros H; [|discriminate]. injection H as <-.
    apply get_boolean_formula_frame in G.
    destruct (String.length (boolean_formula h1) =? 0)%nat; exact G.
  - intros H. injection H as <-. repeat split.
Qed.

Lemma stage_dates_frame (env : Env) (h : Handler) :
  let h' := stage_dates env h in
  text h' = text h /\ model_codes_dic h' = model_codes_dic h
  /\ abbreviations_dic h' = abbreviations_dic h
  /\ model_code h' = model_code h /\ boolean_formula h' = boolean_formula h.
Proof.
  cbv zeta. unfold stage_dates.
  destruct (response h =? 1)%Z; [|repeat split].
  pose proof (get_parsed_dates_frame env h (get_doc env h)) as F. cbv zeta in F.
  destruct (String.length (dates (get_parsed_dates env h (get_doc env h))) =? 0)%nat;
    exact F.
Qed.

Lemma validator_stages (env : Env) (fuel : nat) (h h' : Handler) (doc : Doc) :
  validator env fuel h doc = Some h' ->
  exists h3,
    stage_boolean_formula env fuel
      (stage_model_codes env (validate_tokens h (tokens doc))) = Some h3
    /\ h' = stage_dates env h3.
Proof.
  unfold validator. intros V.
  destruct (stage_boolean_formula env fuel (stage_model_codes env
              (validate_tokens h (tokens doc)))) as [h3|]; [|discriminate].
  injection V as <-. eauto.
Qed.

(** X12.  No stage of the pipeline writes the prompt text or either catalog:
    the handler the pipeline returns holds the text and the two catalogs of
    the handler it was started on. *)
Theorem pipeline_keeps_text_and_catalogs (env : Env) (fuel : nat) (h h' : Handler)
    (doc : Doc) :
  validator env fuel h doc = Some h' ->
  text h' = text h
  /\ model_codes_dic h' = model_codes_dic h
  /\ abbreviations_dic h' = abbreviations_dic h.
Proof.
  intros V.
  apply validator_stages in V as (h3 & B & ->).
  destruct (stage_dates_frame env h3) as (T4 & M4 & A4 & _).
  destruct (stage_boolean_formula_frame _ _ _ _ B) as (T3 & M3 & A3 & _).
  destruct (stage_model_codes_frame env (validate_tokens h (tokens doc)))
    as (T2 & M2 & A2 & _).
  destruct (validate_tokens_frame (tokens doc) h) as (T1 & M1 & A1 & _).
  cbv zeta in *.
  rewrite T4, T3, T2, T1, M4, M3, M2, M1, A4, A3, A2, A1. repeat split.
Qed.

Lemma pipeline_keeps_text_and_catalogs_witness :
  match validator (sample_env trailing_doc) 3 (new_handler trailing_prompt) trailing_doc with
  | Some h' => text h' = text (new_handler trailing_prompt)
               /\ model_codes_dic h' = model_codes_dic0
               /\ abbreviations_dic h' = abbreviations_dic0
  | None => False
  end.
Proof.
  destruct (validator (sample_env trailing_doc) 3 (new_handler trailing_prompt)
              trailing_doc) as [h'|] eqn:V.
  - exact (pipeline_keeps_text_and_catalogs (sample_env trailing_doc) 3
             (new_handler trailing_prompt) h' trailing_doc V).
  - vm_compute in V. discriminate.
Defined.

(** ** Success and short-circuit of the pipeline (lines 139-175) *)

Lemma length_zero_empty (s : string) : (String.length s =? 0)%nat = true -> s = "".
Proof. destruct s; [reflexivity | discriminate]. Qed.

Lemma validate_tokens_success (doc : list Token) (h : Handler) :
  response (validate_tokens h doc) = 1%Z ->
  message (validate_tokens h doc) = message h.
Proof.
  rewrite validate_tokens_closed.
  destruct doc as [|t0 rest]; [reflexivity|].
  destruct (find is_oov (t0 :: rest)) as [t|]; [|reflexivity].
  destruct (PyStr.contains (tok_text t) (model_phrases h)); [|discriminate].
  destruct (is_oov t0); reflexivity.
Qed.

Lemma stage_model_codes_success (env : Env) (h : Handler) :
  response (stage_model_codes env h) = 1%Z ->
  response h = 1%Z
  /\ model_code (stage_model_codes env h) <> []
  /\ message (stage_model_codes env h) = message h.
Proof.
  unfold stage_model_codes.
  destruct (response h =? 1)%Z eqn:R.
  - apply Z.eqb_eq in R. unfold get_model_codes.
    destruct (model_codes_body env h (get_doc env h)) as [[|c mc]|e]; cbn.
    + discriminate.
    + intros _. repeat split; [exact R | discriminate].
    + destruct (List.length (model_code h) =? 0)%nat; discriminate.
  - intros R1. rewrite R1 in R. discriminate.
Qed.

Lemma stage_boolean_formula_success (env : Env) (fuel : nat) (h h' : Handler) :
  stage_boolean_formula env fuel h = Some h' ->
  response h' = 1%Z ->
  response h = 1%Z /\ boolean_formula h' <> "" /\ message h' = message h.
Proof.
  unfold stage_boolean_formula.
  destruct (response h =? 1)%Z eqn:R.
  - apply Z.eqb_eq in R. unfold get_boolean_formula.
    destruct (boolean_formula_body env fuel h (get_doc env h)) as [[f|e]|];
      intros H; try discriminate; injection H as <-; cbn.
    + destruct f as [|c f]; cbn; [discriminate|].
      intros _. repeat split; [exact R | discriminate].
    + discriminate.
  - intros H R1. injection H as <-. rewrite R1 in R. discriminate.
Qed.

Lemma stage_dates_success (env : Env) (h : Handler) :
  response (stage_dates env h) = 1%Z ->
  response h = 1%Z
  /\ dates (stage_dates env h) <> ""
  /\ message (stage_dates env h) = message h.
Proof.
  unfold stage_dates.
  destruct (response h =? 1)%Z eqn:R.
  - apply Z.eqb_eq in R. unfold get_parsed_dates.
    destruct (parsed_dates_body env h (get_doc env h)) as [dt|e]; cbn.
    + destruct dt as [|c dt]; cbn; [discriminate|].
      intros _. repeat split; [exact R | discriminate].
    + destruct (String.length (dates h) =? 0)%nat; discriminate.
  - intros R1. rewrite R1 in R. discriminate.
Qed.

Lemma validator_success (env : Env) (fuel : nat) (h h' : Handler) (doc : Doc) :
  validator env fuel h doc = Some h' ->
  response h' = 1%Z ->
  model_code h' <> [] /\ boolean_formula h' <> "" /\ dates h' <> ""
  /\ message h' = message h.
Proof.
  intros V R. apply validator_stages in V as (h3 & B & ->).
  destruct (stage_dates_success _ _ R) as (R3 & D & M4).
  destruct (stage_boolean_formula_success _ _ _ _ B R3) as (R2 & F & M3).
  destruct (stage_model_codes_success _ _ R2) as (R1 & C & M2).
  pose proof (validate_tokens_success _ _ R1) as M1.
  destruct (stage_dates_frame env h3) as (_ & _ & _ & C4 & F4).
  destruct (stage_boolean_formula_frame _ _ _ _ B) as (_ & _ & _ & C3 & _).
  cbv zeta in *.
  rewrite C4, C3, F4, M4, M3, M2, M1. auto.
Qed.

(** X8.  A run of the pipeline that ends with [response = 1] went through
    every stage: it holds at least one model code, a non-empty formula and a
    non-empty date, and it appended nothing to the message. *)
Theorem valid_run_is_complete (env : Env) (fuel : nat) (h h' : Handler) (doc : Doc) :
  validator env fuel h doc = Some h' ->
  response h' = 1%Z ->
  model_code h' <> [] /\ boolean_formula h' <> "" /\ dates h' <> ""
  /\ message h' = message h.
Proof. exact (validator_success env fuel h h' doc). Qed.

Lemma valid_run_is_complete_witness :
  match validator (sample_env order_doc) 3 (new_handler order_prompt) order_doc with
  | Some h' => response h' = 1%Z /\ model_code h' <> [] /\ boolean_formula h' <> ""
               /\ dates h' <> "" /\ message h' = ""
  | None => False
  end.
Proof.
  destruct (validator (sample_env order_doc) 3 (new_handler order_prompt) order_doc)
    as [h'|] eqn:V.
  - assert (R : response h' = 1%Z) by (vm_compute in V; injection V as <-; reflexivity).
    split; [exact R|].
    exact (valid_run_is_complete (sample_env order_doc) 3 (new_handler order_prompt)
             h' order_doc V R).
  - vm_compute in V. discriminate.
Defined.

(** X9.  The stages short-circuit: a run that ends without a model code has
    not touched the formula or the date, and a run that ends with an empty
    formula has not touched the date. *)
Theorem failed_stage_skips_the_rest (env : Env) (fuel : nat) (h h' : Handler) (doc : Doc) :
  validator env fuel h doc = Some h' ->
  (model_code h' = [] -> boolean_formula h' = boolean_formula h /\ dates h' = dates h)
  /\ (boolean_formula h' = "" -> dates h' = dates h).
Proof.
  intros V. apply validator_stages in V as (h3 & B & ->).
  pose proof (validate_tokens_frame (tokens doc) h) as F1.
  pose proof (stage_model_codes_frame env (validate_tokens h (tokens doc))) as F2.
  pose proof (stage_boolean_formula_frame _ _ _ _ B) as F3.
  pose proof (stage_dates_frame env h3) as F4.
  cbv zeta in *.
  destruct F1 as (_ & _ & _ & C1 & B1 & D1).
  destruct F2 as (_ & _ & _ & B2 & D2).
  destruct F3 as (_ & _ & _ & C3 & D3).
  destruct F4 as (_ & _ & _ & C4 & B4).
  set (h1 := validate_tokens h (tokens doc)) in *.
  set (h2 := stage_model_codes env h1) in *.
  assert (Skip4 : response h3 <> 1%Z -> stage_dates env h3 = h3).
  { intros N. unfold stage_dates.
    destruct (Z.eqb_spec (response h3) 1); [contradiction | reflexivity]. }
  assert (Skip3 : response h2 <> 1%Z -> h3 = h2).
  { intros N. unfold stage_boolean_formula in B.
    destruct (Z.eqb_spec (response h2) 1); [contradiction|]. congruence. }
  split.
  - intros E. rewrite C4, C3 in E.
    assert (R2 : response h2 <> 1%Z).
    { intros R2. destruct (stage_model_codes_success env h1 R2) as (_ & N & _).
      apply N. exact E. }
    pose proof (Skip3 R2) as E3. rewrite E3 in *.
    rewrite (Skip4 R2). split; congruence.
  - intros E. rewrite B4 in E.
    assert (R3 : response h3 <> 1%Z).
    { intros R3.
      destruct (Z.eq_dec (response h2) 1) as [R2|R2].
      - unfold stage_boolean_formula in B. rewrite R2 in B. cbn [Z.eqb Pos.eqb] in B.
        destruct (get_boolean_formula env fuel h2 (get_doc env h2)) as [g|];
          [|discriminate].
        injection B as <-.
        destruct (String.length (boolean_formula g) =? 0)%nat eqn:L;
          [discriminate|].
        rewrite E in L. discriminate.
      - rewrite (Skip3 R2) in R3. contradiction. }
    rewrite (Skip4 R3). congruence.
Qed.

Lemma failed_stage_skips_the_rest_witness :
  match validator (sample_env trailing_doc) 3 (new_handler trailing_prompt) trailing_doc with
  | Some h' => model_code h' = [] /\ boolean_formula h' = "" /\ dates h' = ""
  | None => False
  end.
Proof.
  destruct (validator (sample_env trailing_doc) 3 (new_handler trailing_prompt)
              trailing_doc) as [h'|] eqn:V.
  - assert (C : model_code h' = []) by (vm_compute in V; injection V as <-; reflexivity).
    split; [exact C|].
    exact (proj1 (failed_stage_skips_the_rest (sample_env trailing_doc) 3
                    (new_handler trailing_prompt) h' trailing_doc V) C).
  - vm_compute in V. discriminate.
Defined.

(** X10.  A prompt with no token (the empty prompt) fails without a cause:
    the loop body never runs, [response] stays 0, no stage runs, and the
    entry point returns the failure payload with the empty message. *)
Theorem no_token_gives_empty_message (env : Env) (fuel : nat) (prompt : string) :
  tokens (nlp env (PyStr.lower prompt)) = [] ->
  init env fuel prompt = Some (new_handler prompt)
  /\ interpret env fuel prompt = Some (Message [""]).
Proof.
  intros T.
  assert (I : init env fuel prompt = Some (new_handler prompt)).
  { unfold init, validator, get_doc.
    change (text (new_handler prompt)) with (PyStr.lower prompt).
    rewrite T. reflexivity. }
  split; [exact I|]. unfold interpret. rewrite I. reflexivity.
Qed.

Lemma no_token_gives_empty_message_witness :
  tokens (nlp (sample_env empty_doc) (PyStr.lower "")) = []
  /\ interpret (sample_env empty_doc) 3 "" = Some (Message [""]).
Proof.
  split; [reflexivity|].
  exact (proj2 (no_token_gives_empty_message (sample_env empty_doc) 3 "" eq_refl)).
Defined.

(** X11.  After [Handler(string)] the prompt loop of [__main__] ends exactly
    when the message is empty: [response = 1] never comes with a message, so
    the second test of line 516 adds nothing, and a failed run that recorded
    no cause ends the loop like a valid one. *)
Theorem main_breaks_iff_no_message (env : Env) (fuel : nat) (prompt : string)
    (h : Handler) :
  init env fuel prompt = Some h ->
  (main_breaks h = true <-> message h = "")
  /\ (response h = 1%Z -> message h = "").
Proof.
  unfold init. intros V.
  assert (S : response h = 1%Z -> message h = "").
  { intros R. destruct (validator_success env fuel _ _ _ V R) as (_ & _ & _ & M).
    exact M. }
  split; [|exact S].
  unfold main_breaks. split.
  - intros H. apply orb_true_iff in H as [H|H].
    + apply length_zero_empty. exact H.
    + apply S. apply Z.eqb_eq. exact H.
  - intros ->. reflexivity.
Qed.

Lemma main_breaks_iff_no_message_witness :
  match init (sample_env code_first_doc) 3 code_first_prompt with
  | Some h => response h = 0%Z /\ main_breaks h = true
  | None => False
  end.
Proof.
  destruct (init (sample_env code_first_doc) 3 code_first_prompt) as [h|] eqn:I.
  - assert (E : h = new_handler code_first_prompt)
      by (vm_compute in I; injection I as <-; reflexivity).
    split; [rewrite E; reflexivity|].
    apply (proj1 (main_breaks_iff_no_message (sample_env code_first_doc) 3
                    code_first_prompt h I)).
    rewrite E. reflexivity.
  - vm_compute in I. discriminate.
Defined.

(** ** The resolution loop (lines 292-318) *)

Lemma resolve_all_slots (env : Env) (fuel : nat) (d : dict) (segs : list string) :
  forall lst,
  resolve_all env fuel d segs = Some (Ok lst) ->
  Forall2 (fun seg key =>
             resolve env fuel d (PyStr.join "" (PyStr.split seg)) "" = Some (Ok key))
    segs lst.
Proof.
  induction segs as [|seg segs IH]; intros lst H; cbn [resolve_all] in H.
  - injection H as <-. constructor.
  - destruct (resolve env fuel d (PyStr.join "" (PyStr.split seg)) "")
      as [[key|e]|] eqn:R; try discriminate.
    destruct (resolve_all env fuel d segs) as [[keys|e]|]; try discriminate.
    injection H as <-. constructor; [exact R | apply IH; reflexivity].
Qed.

(** X2.  The match list has one slot per segment, in order: slot number n
    is what the resolution loop returns on segment number n with its white
    space removed, starting from the empty key; and every slot is empty or a
    key of the abbreviation catalog. *)
Theorem match_list_slots (env : Env) (fuel : nat) (d : dict) (segs lst : list string) :
  resolve_all env fuel d segs = Some (Ok lst) ->
  Forall2 (fun seg key =>
             resolve env fuel d (PyStr.join "" (PyStr.split seg)) "" = Some (Ok key))
    segs lst
  /\ List.length lst = List.length segs
  /\ (forall key, In key lst -> key = "" \/ In key (dict_keys d)).
Proof.
  intros H. split; [apply resolve_all_slots; exact H|].
  apply resolve_all_keys in H as [L F].
  split; [exact L|]. rewrite Forall_forall in F. exact F.
Qed.

Lemma match_list_slots_witness :
  resolve_all (sample_env both_doc) 3 abbreviations_dic0 ["sunroof "; " "; ""]
  = Some (Ok ["S403A"; ""; ""])
  /\ Forall2 (fun seg key =>
                resolve (sample_env both_doc) 3 abbreviations_dic0
                  (PyStr.join "" (PyStr.split seg)) "" = Some (Ok key))
       ["sunroof "; " "; ""] ["S403A"; ""; ""].
Proof.
  assert (L : resolve_all (sample_env both_doc) 3 abbreviations_dic0 ["sunroof "; " "; ""]
              = Some (Ok ["S403A"; ""; ""])) by (vm_compute; reflexivity).
  split; [exact L|].
  exact (proj1 (match_list_slots (sample_env both_doc) 3 abbreviations_dic0
                  ["sunroof "; " "; ""] ["S403A"; ""; ""] L)).
Defined.

(** On a catalog with an entry a round of the loop does not fault. *)
Lemma select_key_total (env : Env) (d : dict) (seg : string) :
  d <> [] -> exists r, select_key env d seg = Ok r.
Proof.
  intros N. unfold select_key.
  destruct (py_max (similarity_scores_of env d seg)) as [m|e] eqn:M.
  - cbn [bind]. destruct (m <? 85)%Z; [eauto|].
    destruct (py_max_spec _ _ M) as [Hin _].
    destruct (max_index_last m _ Hin) as [E _].
    assert (Len : (max_index_of m (similarity_scores_of env d seg) < List.length d)%nat).
    { assert (E' : (max_index_of m (similarity_scores_of env d seg)
                    < List.length (similarity_scores_of env d seg))%nat)
        by (apply nth_error_Some; congruence).
      assert (Ls : List.length (similarity_scores_of env d seg) = List.length d)
        by (unfold similarity_scores_of, dict_values; rewrite !length_map; reflexivity).
      rewrite Ls in E'. exact E'. }
    destruct (nth_error (dict_keys d) (max_index_of m (similarity_scores_of env d seg)))
      as [key|] eqn:K.
    + unfold py_nth. rewrite K. cbn [bind].
      destruct (dict_get_key d key) as [phrase P]; [eapply nth_error_In; eauto|].
      rewrite P. eauto.
    + apply nth_error_None in K. unfold dict_keys in K. rewrite length_map in K. lia.
  - destruct d as [|[k v] d]; [congruence | discriminate].
Qed.

Lemma resolve_no_fault (env : Env) (d : dict) (fuel : nat) :
  d <> [] -> forall seg key e, resolve env fuel d seg key <> Some (Raise e).
Proof.
  intros N. induction fuel as [|fuel IH]; intros seg key e; [discriminate|].
  cbn [resolve].
  destruct (select_key_total env d seg N) as [[[k rest]|] ->]; [apply IH | discriminate].
Qed.

(** A round that selects a phrase and removes nothing repeats for ever. *)
Lemma resolve_stuck (env : Env) (d : dict) (seg key : string) :
  select_key env d seg = Ok (Some (key, seg)) ->
  forall fuel key0, resolve env fuel d seg key0 = None.
Proof.
  intros S. induction fuel as [|fuel IH]; intros key0; [reflexivity|].
  cbn [resolve]. rewrite S. apply IH.
Qed.

Lemma resolve_all_stuck (env : Env) (d : dict) (fuel : nat) (seg key : string)
    (segs : list string) :
  In seg segs ->
  select_key env d (PyStr.join "" (PyStr.split seg))
  = Ok (Some (key, PyStr.join "" (PyStr.split seg))) ->
  resolve_all env fuel d segs = None.
Proof.
  intros Hin S.
  assert (N : d <> []).
  { intros ->. discriminate. }
  induction segs as [|s segs IH]; [destruct Hin|].
  cbn [resolve_all].
  destruct Hin as [->|Hin].
  - rewrite (resolve_stuck _ _ _ _ S). reflexivity.
  - destruct (resolve env fuel d (PyStr.join "" (PyStr.split s)) "") as [[k|e]|] eqn:R;
      [|exfalso; eapply resolve_no_fault; eauto | reflexivity].
    rewrite (IH Hin). reflexivity.
Qed.

(** X1.  The synthesizer does not return when, for some segment, the phrase
    with the best score (85 or more) leaves the segment unchanged once its
    words are removed (none of them occurs in it): the [while True] loop
    selects the same phrase on the same text for ever, whatever the bound. *)
Theorem synthesizer_loops_on_unremovable_match (env : Env) (h : Handler) (doc : Doc)
    (seg key : string) :
  tokens doc <> [] ->
  In seg (segments (conj_texts_of doc) (desc_str_of doc)) ->
  select_key env (abbreviations_dic h) (PyStr.join "" (PyStr.split seg))
  = Ok (Some (key, PyStr.join "" (PyStr.split seg))) ->
  forall fuel, get_boolean_formula env fuel h doc = None.
Proof.
  intros T Hin S fuel. unfold get_boolean_formula, boolean_formula_body.
  destruct (tokens doc); [congruence|].
  rewrite (resolve_all_stuck _ _ _ _ _ _ Hin S). reflexivity.
Qed.

Lemma synthesizer_loops_on_unremovable_match_witness :
  select_key (overlap_env misspelt_doc) abbreviations_dic0 "sunroo"
  = Ok (Some ("S403A", "sunroo"))
  /\ get_boolean_formula (overlap_env misspelt_doc) 1000 (new_handler misspelt_prompt)
       misspelt_doc = None.
Proof.
  split; [reflexivity|].
  apply (synthesizer_loops_on_unremovable_match (overlap_env misspelt_doc)
           (new_handler misspelt_prompt) misspelt_doc "sunroo" "S403A").
  - discriminate.
  - left. reflexivity.
  - reflexivity.
Defined.

(** ** Segments of the text against cue tokens and slots (lines 352-366) *)

Lemma conj_of_ok (conj_texts : list string) (ind : nat) (c : string) :
  conj_of conj_texts ind = Ok c -> (ind <= List.length conj_texts)%nat.
Proof.
  unfold conj_of. destruct ind as [|ind]; [lia|].
  cbn [Nat.ltb Nat.leb]. replace (S ind - 1)%nat with ind by lia.
  unfold py_nth. destruct (nth_error conj_texts ind) eqn:N; [|discriminate].
  intros _. assert (ind < List.length conj_texts)%nat by (apply nth_error_Some; congruence).
  lia.
Qed.

Lemma assemble_step_ok (first second : bool) (conj_texts lst : list string)
    (ind : nat) (txt : string) (st st' : Asm) :
  assemble_step first second conj_texts lst ind txt st = Ok st' ->
  (ind <= List.length conj_texts)%nat /\ (ind < List.length lst)%nat.
Proof.
  unfold assemble_step. intros H.
  apply bind_ok in H as (c & C & H). apply conj_of_ok in C.
  split; [exact C|].
  unfold py_nth in H. destruct (nth_error lst ind) eqn:N; [|discriminate].
  apply nth_error_Some. congruence.
Qed.

Lemma assemble_ok_bounds (first second : bool) (conj_texts lst : list string)
    (segs : list string) :
  forall ind st st',
  assemble first second conj_texts lst ind segs st = Ok st' ->
  segs <> [] ->
  (ind + List.length segs <= List.length conj_texts + 1)%nat
  /\ (ind + List.length segs <= List.length lst)%nat.
Proof.
  induction segs as [|txt segs IH]; intros ind st st' H N; [congruence|].
  cbn [assemble] in H. apply bind_ok in H as (st1 & S & H).
  apply assemble_step_ok in S as [C L].
  destruct segs as [|txt' segs'].
  - simpl. lia.
  - destruct (IH _ _ _ H) as [A B]; [discriminate|].
    cbn [List.length] in *. lia.
Qed.

Lemma segments_nonempty (conj_texts : list string) (s : string) :
  segments conj_texts s <> [].
Proof.
  unfold segments. destruct (List.length conj_texts =? 0)%nat; [discriminate|].
  unfold Re.split.
  generalize (split_regex conj_texts) 0%nat (@None ascii) "".
  induction s as [|c s IH]; intros alts skip prev cur; cbn [Re.split_scan].
  - discriminate.
  - destruct skip; [|apply IH].
    destruct (Re.match_alts alts prev (String c s)) as [[|k]|]; try apply IH.
    discriminate.
Qed.

(** X3.  The synthesizer completes only when the raw text splits into no more
    segments than there are cue tokens plus one, and no more than the
    filtered description does: a full stop or comma inside a token of the
    text (a decimal number, a dotted date), which adds a segment without a
    cue token, makes the stage fail. *)
Theorem completed_synthesis_bounds_segments (env : Env) (fuel : nat) (h h' : Handler)
    (doc : Doc) :
  get_boolean_formula env fuel h doc = Some h' ->
  response h' = 1%Z ->
  (List.length (segments (conj_texts_of doc) (text h))
   <= List.length (conj_texts_of doc) + 1)%nat
  /\ (List.length (segments (conj_texts_of doc) (text h))
      <= List.length (segments (conj_texts_of doc) (desc_str_of doc)))%nat.
Proof.
  intros G R.
  destruct (get_boolean_formula_ok _ _ _ _ _ G R) as (lst & f & L & F & _).
  apply resolve_all_keys in L as [Len _].
  unfold formula_of in F.
  apply bind_ok in F as (fs & _ & F).
  apply bind_ok in F as (st & A & _).
  apply assemble_ok_bounds in A; [|apply segments_nonempty].
  rewrite <- Len. cbn [Nat.add] in A. exact A.
Qed.

Lemma completed_synthesis_bounds_segments_witness :
  get_boolean_formula (sample_env group_doc) 3 (new_handler group_prompt) group_doc
  = Some (set_boolean_formula "+(S403A" (set_response 1 (new_handler group_prompt)))
  /\ (List.length (segments (conj_texts_of group_doc) group_prompt) <= 2 + 1)%nat.
Proof.
  split; [reflexivity|].
  exact (proj1 (completed_synthesis_bounds_segments (sample_env group_doc) 3
                  (new_handler group_prompt)
                  (set_boolean_formula "+(S403A" (set_response 1 (new_handler group_prompt)))
                  group_doc eq_refl eq_refl)).
Defined.

(** ** The model-code matcher (lines 200-240) *)

Lemma exact_keys_sound (d : dict) (value : string) (keys : list string) :
  forall st,
  incl keys (dict_keys d) ->
  incl (fst st) (dict_keys d) ->
  incl (fst (exact_keys d value keys st)) (dict_keys d).
Proof.
  induction keys as [|i keys IH]; intros st K S; [exact S|].
  cbn [exact_keys]. apply IH.
  - intros x X. apply K. right. exact X.
  - destruct (option_eqb_str (dict_get d i) value); [|exact S].
    cbn [fst]. apply incl_app; [exact S|].
    intros x [<-|[]]. apply K. left. reflexivity.
Qed.

Lemma exact_pass_sound (d : dict) (values : list string) :
  forall st,
  incl (fst st) (dict_keys d) ->
  incl (fst (exact_pass d values st)) (dict_keys d).
Proof.
  induction values as [|value values IH]; intros st S; [exact S|].
  cbn [exact_pass]. apply IH.
  destruct (PyStr.contains (PyStr.lower value) (snd st)); [|exact S].
  apply exact_keys_sound; [apply incl_refl | exact S].
Qed.

Lemma append_keys_sound (d : dict) (value : string) (keys : list string) :
  forall model_code,
  incl keys (dict_keys d) ->
  incl model_code (dict_keys d) ->
  incl (append_keys d value keys model_code) (dict_keys d).
Proof.
  induction keys as [|i keys IH]; intros mc K S; [exact S|].
  cbn [append_keys]. apply IH.
  - intros x X. apply K. right. exact X.
  - destruct (option_eqb_str (dict_get d i) value); [|exact S].
    apply incl_app; [exact S|].
    intros x [<-|[]]. apply K. left. reflexivity.
Qed.

Lemma fuzzy_pass_sound (env : Env) (d : dict) (txt : string) (values : list string) :
  forall model_code result,
  incl model_code (dict_keys d) ->
  fuzzy_pass env d txt values model_code = Ok result ->
  incl result (dict_keys d).
Proof.
  induction values as [|value values IH]; intros mc result S H; cbn [fuzzy_pass] in H.
  - injection H as <-. exact S.
  - apply bind_ok in H as (mc' & V & H).
    apply (IH mc' result); [|exact H].
    unfold fuzzy_value in V.
    destruct (PyStr.split (PyStr.lower value)) as [|v rest].
    + injection V as <-. exact S.
    + apply bind_ok in V as (m & _ & V). injection V as <-.
      destruct (m =? 100)%Z; [|exact S].
      apply append_keys_sound; [apply incl_refl | exact S].
Qed.

(** X5.  The matcher records keys of the model-code catalog only; when it
    fails it leaves the recorded codes as they were. *)
Theorem model_codes_are_catalog_keys (env : Env) (h : Handler) (doc : Doc) :
  let h' := get_model_codes env h doc in
  (response h' = 1%Z ->
   forall code, In code (model_code h') -> In code (dict_keys (model_codes_dic h)))
  /\ (response h' <> 1%Z -> response h' = 0%Z /\ model_code h' = model_code h).
Proof.
  cbv zeta. unfold get_model_codes.
  destruct (model_codes_body env h doc) as [mc|e] eqn:B; cbn.
  - split; [|congruence]. intros _.
    unfold model_codes_body in B. cbv zeta in B.
    pose proof (exact_pass_sound (model_codes_dic h) (dict_values (model_codes_dic h))
                  ([], doc_text doc) (incl_nil_l _)) as E.
    destruct (0 <? String.length
                (snd (exact_pass (model_codes_dic h) (dict_values (model_codes_dic h))
                        ([], doc_text doc))))%nat.
    + exact (fuzzy_pass_sound _ _ _ _ _ _ E B).
    + injection B as <-. exact E.
  - split; [discriminate | auto].
Qed.

(** The fuzzy pass faults on [max] of no score: when the text has no word
    and some phrase has one. *)
Lemma fuzzy_pass_faults (env : Env) (d : dict) (txt : string) (values : list string) :
  forall model_code,
  PyStr.split (PyStr.remove_all "," txt) = [] ->
  (exists value, In value values /\ PyStr.split (PyStr.lower value) <> []) ->
  fuzzy_pass env d txt values model_code = Raise MaxEmpty.
Proof.
  intros mc W. revert mc.
  induction values as [|value values IH]; intros mc (v & Hin & N); [destruct Hin|].
  cbn [fuzzy_pass]. unfold fuzzy_value.
  destruct (PyStr.split (PyStr.lower value)) as [|w rest] eqn:S.
  - cbn [bind]. apply IH. exists v. split; [|exact N].
    destruct Hin as [<-|Hin]; [congruence | exact Hin].
  - rewrite W. reflexivity.
Qed.

Lemma fuzzy_pass_raises (env : Env) (d : dict) (txt : string) (values : list string) :
  forall model_code e,
  fuzzy_pass env d txt values model_code = Raise e ->
  e = MaxEmpty
  /\ PyStr.split (PyStr.remove_all "," txt) = []
  /\ (exists value, In value values /\ PyStr.split (PyStr.lower value) <> []).
Proof.
  induction values as [|value values IH]; intros mc e H; cbn [fuzzy_pass] in H;
    [discriminate|].
  unfold fuzzy_value in H.
  destruct (PyStr.split (PyStr.lower value)) as [|w rest] eqn:S.
  - cbn [bind] in H. destruct (IH _ _ H) as (E & W & v & Hin & N).
    repeat split; auto. exists v. split; [right; exact Hin | exact N].
  - destruct (PyStr.split (PyStr.remove_all "," txt)) as [|x xs] eqn:W.
    + cbn in H.
      assert (E : e = MaxEmpty) by congruence.
      repeat split; auto. exists value. split; [left; reflexivity | congruence].
    + cbn [map py_max bind] in H.
      destruct (IH _ _ H) as (_ & W' & _). discriminate.
Qed.

(** X6.  The matcher fails exactly when the exact pass leaves a text that is
    not empty but has no word (white space and commas only, as after a
    catalog phrase followed by a space) while some catalog phrase has a
    word; it then records the [max()] error and keeps the codes it had. *)
Theorem model_codes_fail_on_wordless_remainder (env : Env) (h : Handler) (doc : Doc) :
  let d := model_codes_dic h in
  let remaining := snd (exact_pass d (dict_values d) ([], doc_text doc)) in
  let h' := get_model_codes env h doc in
  (response h' = 0%Z
   <-> remaining <> ""
       /\ PyStr.split (PyStr.remove_all "," remaining) = []
       /\ (exists value, In value (dict_values d) /\ PyStr.split (PyStr.lower value) <> []))
  /\ (response h' = 0%Z ->
      model_code h' = model_code h
      /\ message h'
         = (message h
            ++ diagnostics
                 ["Error encountered while parsing for model code in 'get_model_codes' method";
                  "max() arg is an empty sequence"])%string).
Proof.
  cbv zeta. unfold get_model_codes, model_codes_body. cbv zeta.
  set (st := exact_pass (model_codes_dic h) (dict_values (model_codes_dic h))
               ([], doc_text doc)).
  destruct (snd st) as [|c rest] eqn:R.
  - cbn [String.length Nat.ltb Nat.leb response set_model_code set_response].
    split; [|discriminate].
    split; [discriminate|]. intros (N & _). congruence.
  - cbn [String.length Nat.ltb Nat.leb].
    destruct (fuzzy_pass env (model_codes_dic h) (String c rest)
                (dict_values (model_codes_dic h)) (fst st)) as [mc|e] eqn:F.
    + cbn [response set_model_code set_response]. split; [|discriminate].
      split; [discriminate|]. intros (_ & W & V).
      rewrite (fuzzy_pass_faults _ _ _ _ _ W V) in F. discriminate.
    + destruct (fuzzy_pass_raises _ _ _ _ _ _ F) as (-> & W & V).
      cbn [response set_response add_message set_message model_code message str_exc
           diagnostics].
      split.
      * split; [|reflexivity]. intros _. repeat split; auto. discriminate.
      * intros _. split; [reflexivity|].
        rewrite append_empty_r, append_assoc. reflexivity.
Qed.

Lemma model_codes_fail_on_wordless_remainder_witness :
  snd (exact_pass model_codes_dic0 (dict_values model_codes_dic0) ([], "m8 ")) = " "
  /\ response (get_model_codes (sample_env trailing_doc) (new_handler trailing_prompt)
                 trailing_doc) = 0%Z.
Proof.
  split; [reflexivity|].
  apply (proj1 (model_codes_fail_on_wordless_remainder (sample_env trailing_doc)
                  (new_handler trailing_prompt) trailing_doc)).
  split; [discriminate|]. split; [reflexivity|].
  exists "M8". split; [simpl; auto 10 | discriminate].
Defined.

(** ** The date resolver (lines 438-463) *)

Lemma py_last_app {A : Type} (l : list A) (a : A) : py_last (l ++ [a]) = Ok a.
Proof. unfold py_last. rewrite rev_app_distr. reflexivity. Qed.

Lemma filter_none_bool {A : Type} (p : A -> bool) (l : list A) :
  forallb (fun x => negb (p x)) l = true -> filter p l = [].
Proof.
  intros H. apply filter_none. intros x X.
  rewrite forallb_forall in H. specialize (H x X).
  destruct (p x); [discriminate | reflexivity].
Qed.

(** X7.  Of the entities of the document the resolver reads the last one
    labelled DATE or CARDINAL and nothing else: the run is the run on a
    document holding that entity alone. *)
Theorem dates_read_last_entity_only (env : Env) (h : Handler) (doc : Doc)
    (pre post : list Ent) (e : Ent) :
  ents doc = pre ++ e :: post ->
  is_date_ent e = true ->
  forallb (fun x => negb (is_date_ent x)) post = true ->
  get_parsed_dates env h doc
  = get_parsed_dates env h (mkDoc (doc_text doc) (tokens doc) (arcs doc) [e]).
Proof.
  intros E D P. unfold get_parsed_dates, parsed_dates_body. cbn [ents].
  rewrite E, filter_app. cbn [filter]. rewrite D, (filter_none_bool _ _ P).
  rewrite map_app. cbn [map]. rewrite py_last_app. reflexivity.
Qed.

Lemma dates_read_last_entity_only_witness :
  ents two_dates_doc
  = [mkEnt "5" "CARDINAL"] ++ mkEnt "2024-11-30" "DATE" :: [mkEnt "bmw" "ORG"]
  /\ get_parsed_dates (sample_env two_dates_doc) (new_handler "") two_dates_doc
     = get_parsed_dates (sample_env two_dates_doc) (new_handler "")
         (mkDoc (doc_text two_dates_doc) (tokens two_dates_doc) (arcs two_dates_doc)
            [mkEnt "2024-11-30" "DATE"]).
Proof.
  split; [reflexivity|].
  exact (dates_read_last_entity_only (sample_env two_dates_doc) (new_handler "")
           two_dates_doc [mkEnt "5" "CARDINAL"] [mkEnt "bmw" "ORG"]
           (mkEnt "2024-11-30" "DATE") eq_refl eq_refl eq_refl).
Defined.

(** X13.  The date stage, run on a handler that passed the stages before it
    and holds no date yet, fails when the document has no entity labelled
    DATE or CARDINAL, or when the search finds nothing in the last one: it
    records the method's error, the text of the exception and the stage's
    message, in this order, and leaves the date empty. *)
Theorem date_stage_failures (env : Env) (h : Handler) :
  response h = 1%Z ->
  dates h = "" ->
  let doc := get_doc env h in
  let failed (e : Exc) :=
    add_message "Prompt doesn't include a valid date, Please check!"
      (set_response 0
         (add_message (str_exc e)
            (add_message
               "Error encountered while parsing for date in 'get_parse_dates' method"
               (set_response 0 h)))) in
  (forallb (fun x => negb (is_date_ent x)) (ents doc) = true ->
   stage_dates env h = failed ListIndexError)
  /\ (forall pre e post prefer,
        ents doc = pre ++ e :: post ->
        is_date_ent e = true ->
        forallb (fun x => negb (is_date_ent x)) post = true ->
        search_dates env (ent_text e) prefer = None ->
        prefer = (if (0 <? PyStr.inter_size ["late"; "latter"; "end"]
                             (PyStr.split (text h)))%nat
                  then "last" else "first") ->
        stage_dates env h = failed NoneSubscript).
Proof.
  intros R D. cbv zeta. unfold stage_dates. rewrite R. cbn [Z.eqb Pos.eqb].
  unfold get_parsed_dates, parsed_dates_body. split.
  - intros P. rewrite (filter_none_bool _ _ P). cbn. rewrite D. reflexivity.
  - intros pre e post prefer E De P S ->.
    rewrite E, filter_app. cbn [filter]. rewrite De, (filter_none_bool _ _ P).
    rewrite map_app. cbn [map]. rewrite py_last_app. cbn [bind].
    rewrite S. cbn. rewrite D. reflexivity.
Qed.

Lemma date_stage_failures_witness :
  message
    (stage_dates (sample_env group_doc) (set_response 1 (new_handler group_prompt)))
  = diagnostics
      ["Error encountered while parsing for date in 'get_parse_dates' method";
       "list index out of range";
       "Prompt doesn't include a valid date, Please check!"].
Proof.
  rewrite (proj1 (date_stage_failures (sample_env group_doc)
                    (set_response 1 (new_handler group_prompt)) eq_refl eq_refl)
             eq_refl).
  reflexivity.
Defined.

Lemma model_codes_are_catalog_keys_witness :
  model_code (get_model_codes (sample_env order_doc) (new_handler order_prompt) order_doc)
  = ["28FF"]
  /\ In "28FF" (dict_keys model_codes_dic0).
Proof.
  assert (E : model_code (get_model_codes (sample_env order_doc)
                            (new_handler order_prompt) order_doc) = ["28FF"])
    by (vm_compute; reflexivity).
  split; [exact E|].
  apply (proj1 (model_codes_are_catalog_keys (sample_env order_doc)
                  (new_handler order_prompt) order_doc));
    [vm_compute; reflexivity | rewrite E; left; reflexivity].
Defined.

(** ** Two matched segments under the "first" mode (lines 366-401) *)

Definition symbols_only (s : string) : Prop :=
  forall ch, PyStr.mem_char ch s = true -> PyStr.mem_char ch formula_symbols = true.

Lemma plain_head_not_symbol (k : ascii) (key : string) :
  no_symbol (String k key) = true -> PyStr.mem_char k formula_symbols = false.
Proof.
  cbn [no_symbol]. intros H. apply andb_true_iff in H as [H _].
  destruct (PyStr.mem_char k formula_symbols); [discriminate | reflexivity].
Qed.

Lemma contains_skip_symbols (k : ascii) (key a x : string) :
  no_symbol (String k key) = true ->
  symbols_only a ->
  PyStr.contains (String k key) (a ++ x) = PyStr.contains (String k key) x.
Proof.
  intros P. induction a as [|c a IH]; intros S; [reflexivity|].
  rewrite contains_unfold. cbn [append].
  assert (N : String.prefix (String k key) (String c (a ++ x)) = false).
  { cbn [String.prefix]. destruct (ascii_dec k c) as [->|]; [|reflexivity].
    exfalso. pose proof (plain_head_not_symbol _ _ P) as Q.
    rewrite (S c) in Q; [discriminate|]. cbn. rewrite Ascii.eqb_refl. reflexivity. }
  rewrite N. apply IH. intros ch H. apply S. cbn. rewrite H. apply orb_true_r.
Qed.

Lemma prefix_before_symbols (key : string) :
  forall b c,
  no_symbol key = true ->
  symbols_only c ->
  String.prefix key (b ++ c) = true -> String.prefix key b = true.
Proof.
  induction key as [|k key IH]; intros b c P S H; [apply prefix_nil|].
  destruct b as [|x b].
  - exfalso. cbn [append] in H. apply prefix_head in H.
    pose proof (plain_head_not_symbol _ _ P) as Q.
    pose proof (S k H) as Q'. congruence.
  - cbn [append String.prefix] in *.
    destruct (ascii_dec k x); [|discriminate].
    cbn [no_symbol] in P. apply andb_true_iff in P as [_ P].
    eapply IH; eauto.
Qed.

Lemma contains_before_symbols (k : ascii) (key b c : string) :
  no_symbol (String k key) = true ->
  symbols_only c ->
  PyStr.contains (String k key) (b ++ c) = PyStr.contains (String k key) b.
Proof.
  intros P S. induction b as [|x b IH].
  - cbn [append]. rewrite contains_in_empty.
    destruct (PyStr.contains (String k key) c) eqn:C; [|reflexivity].
    apply contains_head in C. apply S in C.
    rewrite (plain_head_not_symbol _ _ P) in C. discriminate.
  - rewrite (contains_unfold _ (String x b ++ c)), (contains_unfold _ (String x b)).
    destruct (String.prefix (String k key) (String x b ++ c)) eqn:E.
    + rewrite (prefix_before_symbols _ _ _ P S E). reflexivity.
    + destruct (String.prefix (String k key) (String x b)) eqn:E'.
      * rewrite (prefix_app_r _ _ c E') in E. discriminate.
      * cbn [append]. exact IH.
Qed.

Lemma tot_of_app (a b : list string) (f : string) :
  tot_of (a ++ b) f = (tot_of a f + tot_of b f)%nat.
Proof. unfold tot_of. rewrite filter_app, length_app. reflexivity. Qed.

Lemma tot_of_blank (n : nat) (f : string) : tot_of (repeat "" n) f = 0%nat.
Proof.
  unfold tot_of. induction n as [|n IH]; [reflexivity|].
  cbn [repeat filter]. rewrite contains_empty. exact IH.
Qed.

Lemma tot_of_cons (k : ascii) (key : string) (l : list string) (f : string) :
  tot_of (String k key :: l) f
  = ((if PyStr.contains (String k key) f then 1 else 0) + tot_of l f)%nat.
Proof.
  unfold tot_of. cbn [filter String.eqb].
  destruct (PyStr.contains (String k key) f); reflexivity.
Qed.

Lemma nth_error_after_blanks (i ind : nat) (x : string) (rest : list string) :
  nth_error (repeat "" i ++ x :: rest) ind
  = if (ind <? i)%nat then Some ""
    else if (ind =? i)%nat then Some x
    else nth_error rest (ind - S i).
Proof.
  destruct (Nat.ltb_spec ind i) as [L|L].
  - rewrite nth_error_app1 by (rewrite repeat_length; exact L).
    apply nth_error_repeat. exact L.
  - rewrite nth_error_app2 by (rewrite repeat_length; exact L).
    rewrite repeat_length.
    destruct (Nat.eqb_spec ind i) as [->|N].
    + rewrite Nat.sub_diag. reflexivity.
    + replace (ind - i)%nat with (S (ind - S i)) by lia. reflexivity.
Qed.

(** A run of segments whose slots are empty keeps the formula. *)
Lemma assemble_skip (first second : bool) (conj_texts lst : list string) (f : string)
    (n : nat) :
  forall ind segs opertor st,
  (forall k, (k < n)%nat -> nth_error lst (ind + k) = Some "") ->
  (n <= List.length segs)%nat ->
  sign opertor ->
  assemble first second conj_texts lst ind segs (mkAsm f opertor "") = Ok st ->
  exists opertor',
    sign opertor'
    /\ assemble first second conj_texts lst (ind + n) (skipn n segs)
         (mkAsm f opertor' "") = Ok st.
Proof.
  induction n as [|n IH]; intros ind segs opertor st E L Sg H.
  - exists opertor. rewrite Nat.add_0_r. auto.
  - destruct segs as [|txt segs]; [simpl in L; lia|].
    cbn [assemble] in H. apply bind_ok in H as (st1 & St & H).
    assert (N : nth_error lst ind = Some "").
    { rewrite <- (Nat.add_0_r ind). apply E. lia. }
    apply (assemble_step_empty _ _ _ _ _ _ _ _ _ N) in St. subst st1.
    destruct (IH (S ind) segs (opertor_of txt opertor) st) as (o' & S' & H').
    + intros k K. replace (S ind + k)%nat with (ind + S k)%nat by lia. apply E. lia.
    + simpl in L. lia.
    + apply opertor_of_sign. exact Sg.
    + exact H.
    + exists o'. split; [exact S'|].
      replace (ind + S n)%nat with (S ind + n)%nat by lia. exact H'.
Qed.

Lemma symbols_only_app (a b : string) :
  symbols_only a -> symbols_only b -> symbols_only (a ++ b).
Proof.
  intros A B ch H. rewrite mem_char_app in H.
  apply orb_true_iff in H as [H|H]; auto.
Qed.

Lemma symbols_only_conj (c : string) : c = "" \/ c = "/" -> symbols_only c.
Proof.
  intros [-> | ->] ch H; cbn in H; [discriminate|].
  rewrite orb_false_r in H. apply Ascii.eqb_eq in H. subst ch. reflexivity.
Qed.

Lemma symbols_only_sign (o : string) : sign o -> symbols_only o.
Proof.
  intros [-> | [-> | ->]] ch H; cbn in H; [discriminate| |];
    rewrite orb_false_r in H; apply Ascii.eqb_eq in H; subst ch; reflexivity.
Qed.

Section Two_keys.

Variables (conj_texts : list string) (i m j : nat) (k1 k2 : ascii) (w1 w2 : string).

Let key1 : string := String k1 w1.
Let key2 : string := String k2 w2.
Let lst : list string := repeat "" i ++ key1 :: repeat "" m ++ key2 :: repeat "" j.

Hypothesis key1_plain : no_symbol key1 = true.
Hypothesis key2_plain : no_symbol key2 = true.
Hypothesis key2_apart : PyStr.contains key2 key1 = false.

Lemma two_keys_plain : Forall (fun itm => itm = "" \/ no_symbol itm = true) lst.
Proof.
  assert (Blank : forall n, Forall (fun itm => itm = "" \/ no_symbol itm = true)
                              (repeat "" n)).
  { intros n. apply Forall_forall. intros x X. apply repeat_spec in X. auto. }
  unfold lst. apply Forall_app. split; [apply Blank|].
  constructor; [right; exact key1_plain|].
  apply Forall_app. split; [apply Blank|].
  constructor; [right; exact key2_plain | apply Blank].
Qed.

(** Around the first key, between symbols, the count of line 369 is 1. *)
Lemma tot_around_key1 (a c : string) :
  symbols_only a -> symbols_only c -> tot_of lst (a ++ key1 ++ c) = 1%nat.
Proof.
  intros A C. unfold lst.
  rewrite tot_of_app, tot_of_blank. unfold key1 at 1. rewrite tot_of_cons.
  rewrite tot_of_app, tot_of_blank. unfold key2 at 1. rewrite tot_of_cons.
  rewrite tot_of_blank.
  fold key1 key2.
  assert (C1 : PyStr.contains key1 (a ++ key1 ++ c) = true)
    by (apply contains_app_l, contains_prefix).
  assert (C2 : PyStr.contains key2 (a ++ key1 ++ c) = false).
  { unfold key2. rewrite (contains_skip_symbols _ _ _ _ key2_plain A).
    rewrite (contains_before_symbols _ _ _ _ key2_plain C). exact key2_apart. }
  rewrite C1, C2. reflexivity.
Qed.

(** The segment of the second key: the bracket opened before the first key
    is closed after it. *)
Lemma assemble_step_key2 (ind : nat) (txt a opertor : string) (st : Asm) :
  symbols_only a ->
  sign opertor ->
  nth_error lst ind = Some key2 ->
  assemble_step true false conj_texts lst ind txt (mkAsm (a ++ key1) opertor "") = Ok st ->
  exists c,
    (c = "" \/ c = "/")
    /\ st = mkAsm (a ++ key1 ++ c ++ opertor_of txt opertor ++ key2 ++ ")")
              (opertor_of txt opertor) "".
Proof.
  intros A S N H. unfold assemble_step in H.
  apply bind_ok in H as (c & C & H). apply conj_of_cases in C.
  unfold py_nth in H. rewrite N in H. cbn [bind] in H.
  assert (Lk : (0 <? String.length key2)%nat = true) by reflexivity.
  rewrite Lk in H.
  cbn [asm_formula asm_opertor asm_bracket fst snd] in H.
  assert (T0 : tot_of lst (a ++ key1) = 1%nat).
  { rewrite <- (append_empty_r key1) at 1. apply tot_around_key1; [exact A|].
    intros ch Hc. discriminate. }
  assert (T1 : tot_of lst ((a ++ key1) ++ c ++ opertor_of txt opertor ++ "") = 1%nat).
  { rewrite append_assoc. apply tot_around_key1; [exact A|].
    apply symbols_only_app; [apply symbols_only_conj; exact C|].
    rewrite append_empty_r. apply symbols_only_sign, opertor_of_sign, S. }
  rewrite T0 in H. cbn [Nat.eqb] in H. rewrite T1 in H. cbn [Nat.eqb andb] in H.
  assert (L : (0 <? String.length ((a ++ key1) ++ c ++ opertor_of txt opertor ++ ""))%nat
              = true).
  { destruct ((a ++ key1) ++ c ++ opertor_of txt opertor ++ "")%string eqn:E;
      [|reflexivity].
    exfalso. destruct a; discriminate. }
  rewrite L in H. injection H as <-.
  exists c. split; [exact C|]. f_equal.
  rewrite append_empty_r, !append_assoc. reflexivity.
Qed.

(** Both keys are in a formula that holds them; nothing is repaired. *)
Lemma repair_two_keys (a b : string) :
  repair lst (a ++ key1 ++ b ++ key2 ++ ")") = Ok (a ++ key1 ++ b ++ key2 ++ ")")%string.
Proof.
  unfold repair.
  rewrite (filter_none _ lst); [reflexivity|].
  intros x X. unfold lst in X.
  apply in_app_or in X as [X|[<-|X]];
    [apply repeat_spec in X; subst x; rewrite contains_empty; reflexivity | |].
  - rewrite contains_app_l; [reflexivity | apply contains_prefix].
  - apply in_app_or in X as [X|[<-|X]];
      try (apply repeat_spec in X; subst x; rewrite contains_empty; reflexivity).
    rewrite contains_app_l; [reflexivity|].
    apply contains_app_l, contains_app_l, contains_prefix.
Qed.

(** The assembly with a segment of text for every slot. *)
Lemma assemble_two_keys (segs : list string) (st : Asm) :
  List.length segs = List.length lst ->
  assemble true false conj_texts lst 0 segs (mkAsm "" "" "") = Ok st ->
  exists c1 o1 c2 o2,
    (c1 = "" \/ c1 = "/") /\ sign o1 /\ (c2 = "" \/ c2 = "/") /\ sign o2
    /\ asm_formula st = (c1 ++ o1 ++ "(" ++ key1 ++ c2 ++ o2 ++ key2 ++ ")")%string.
Proof.
  intros Len H.
  assert (Ll : List.length lst = (i + S (m + S j))%nat).
  { unfold lst. rewrite length_app, repeat_length. cbn [List.length].
    rewrite length_app, repeat_length. cbn [List.length]. rewrite repeat_length.
    reflexivity. }
  assert (Nth : forall ind, nth_error lst ind
                = if (ind <? i)%nat then Some ""
                  else if (ind =? i)%nat then Some key1
                  else if (ind - S i <? m)%nat then Some ""
                  else if (ind - S i =? m)%nat then Some key2
                  else nth_error (repeat "" j) (ind - S i - S m)).
  { intros ind. unfold lst. rewrite nth_error_after_blanks.
    destruct (ind <? i)%nat; [reflexivity|].
    destruct (ind =? i)%nat; [reflexivity|].
    apply nth_error_after_blanks. }
  (* the blank slots before the first key *)
  destruct (assemble_skip true false conj_texts lst "" i 0 segs "" st) as (p1 & S1 & H1);
    [ | lia | left; reflexivity | exact H | ].
  { intros k K. rewrite Nth. cbn [Nat.add].
    destruct (Nat.ltb_spec k i); [reflexivity | lia]. }
  cbn [Nat.add] in H1.
  destruct (skipn i segs) as [|t1 r1] eqn:E1.
  { apply (f_equal (@List.length string)) in E1. rewrite length_skipn in E1.
    simpl in E1. lia. }
  assert (Lr1 : List.length r1 = (m + S j)%nat).
  { apply (f_equal (@List.length string)) in E1. rewrite length_skipn in E1.
    simpl in E1. lia. }
  cbn [assemble] in H1. apply bind_ok in H1 as (st1 & St1 & H1).
  assert (N1 : nth_error lst i = Some key1).
  { rewrite Nth. rewrite Nat.ltb_irrefl, Nat.eqb_refl. reflexivity. }
  destruct (assemble_step_key _ _ _ _ _ _ _ two_keys_plain N1
              ltac:(discriminate) S1 St1) as (c1 & C1 & ->).
  set (o1 := opertor_of t1 p1) in *.
  assert (So1 : sign o1) by (apply opertor_of_sign; exact S1).
  (* the blank slots between the keys *)
  destruct (assemble_skip true false conj_texts lst (c1 ++ o1 ++ "(" ++ key1) m (S i)
              r1 o1 st) as (p2 & S2 & H2); [ | lia | exact So1 | exact H1 | ].
  { intros k K. rewrite Nth.
    destruct (Nat.ltb_spec (S i + k) i); [lia|].
    destruct (Nat.eqb_spec (S i + k) i); [lia|].
    destruct (Nat.ltb_spec (S i + k - S i) m); [reflexivity | lia]. }
  destruct (skipn m r1) as [|t2 r2] eqn:E2.
  { apply (f_equal (@List.length string)) in E2. rewrite length_skipn in E2.
    simpl in E2. lia. }
  assert (Lr2 : List.length r2 = j).
  { apply (f_equal (@List.length string)) in E2. rewrite length_skipn in E2.
    simpl in E2. lia. }
  cbn [assemble] in H2. apply bind_ok in H2 as (st2 & St2 & H2).
  assert (N2 : nth_error lst (S i + m) = Some key2).
  { rewrite Nth.
    destruct (Nat.ltb_spec (S i + m) i); [lia|].
    destruct (Nat.eqb_spec (S i + m) i); [lia|].
    replace (S i + m - S i)%nat with m by lia.
    rewrite Nat.ltb_irrefl, Nat.eqb_refl. reflexivity. }
  assert (A : symbols_only (c1 ++ o1 ++ "(")).
  { intros ch. apply symbols_of_prefix; assumption. }
  assert (Eq : (c1 ++ o1 ++ "(" ++ key1)%string = ((c1 ++ o1 ++ "(") ++ key1)%string)
    by (rewrite !append_assoc; reflexivity).
  rewrite Eq in St2.
  destruct (assemble_step_key2 _ _ _ _ _ A S2 N2 St2) as (c2 & C2 & ->).
  set (o2 := opertor_of t2 p2) in *.
  (* the blank slots after the second key *)
  destruct (assemble_skip true false conj_texts lst
              ((c1 ++ o1 ++ "(") ++ key1 ++ c2 ++ o2 ++ key2 ++ ")") j (S (S i + m))
              r2 o2 st) as (p3 & _ & H3);
    [ | lia | apply opertor_of_sign; exact S2 | exact H2 | ].
  { intros k K. rewrite Nth.
    destruct (Nat.ltb_spec (S (S i + m) + k) i); [lia|].
    destruct (Nat.eqb_spec (S (S i + m) + k) i); [lia|].
    destruct (Nat.ltb_spec (S (S i + m) + k - S i) m); [lia|].
    destruct (Nat.eqb_spec (S (S i + m) + k - S i) m); [lia|].
    apply nth_error_repeat. lia. }
  rewrite skipn_all2 in H3 by lia. cbn [assemble] in H3. injection H3 as <-.
  exists c1, o1, c2, o2. cbn [asm_formula].
  repeat split; auto; [apply opertor_of_sign; exact S2|].
  rewrite !append_assoc. reflexivity.
Qed.

End Two_keys.

(** X4.  Under the "first" mode, when exactly two slots of the match list
    hold keys, the second key is not a substring of the first, the raw text
    has a segment for every slot and the synthesizer completes, the formula
    is the two keys inside one pair of brackets: the bracket is opened before
    the first key and closed after the second, each key after its segment's
    "/" and sign if any.  The keys of the catalog are taken to contain no
    formula symbol, as those of the built-in abbreviation catalog do. *)
Theorem first_mode_two_keys_bracketed (env : Env) (fuel : nat) (h h' : Handler)
    (doc : Doc) (i m j : nat) (key1 key2 : string) :
  brackets_required (conj_texts_of doc) (arcs doc) = Ok (true, false) ->
  resolve_all env fuel (abbreviations_dic h)
    (segments (conj_texts_of doc) (desc_str_of doc))
  = Some (Ok (repeat "" i ++ key1 :: repeat "" m ++ key2 :: repeat "" j)) ->
  key1 <> "" -> key2 <> "" ->
  PyStr.contains key2 key1 = false ->
  forallb no_symbol (dict_keys (abbreviations_dic h)) = true ->
  List.length (segments (conj_texts_of doc) (text h))
  = List.length (segments (conj_texts_of doc) (desc_str_of doc)) ->
  get_boolean_formula env fuel h doc = Some h' ->
  response h' = 1%Z ->
  exists c1 o1 c2 o2,
    (c1 = "" \/ c1 = "/") /\ sign o1 /\ (c2 = "" \/ c2 = "/") /\ sign o2
    /\ boolean_formula h'
       = (c1 ++ o1 ++ "(" ++ key1 ++ c2 ++ o2 ++ key2 ++ ")")%string.
Proof.
  intros B L E1 E2 Ap P Len G R.
  destruct (get_boolean_formula_ok _ _ _ _ _ G R) as (lst & f & L' & F & ->).
  rewrite L in L'. injection L' as <-.
  cbn [boolean_formula set_boolean_formula].
  pose proof (resolve_all_keys _ _ _ _ _ L) as [Ll Ks].
  assert (Plain : forall key, key <> "" ->
            In key (repeat "" i ++ key1 :: repeat "" m ++ key2 :: repeat "" j) ->
            no_symbol key = true).
  { intros key N Hin. rewrite Forall_forall in Ks.
    destruct (Ks key Hin) as [->|K]; [congruence|].
    rewrite forallb_forall in P. auto. }
  assert (P1 : no_symbol key1 = true).
  { apply Plain; [exact E1|]. apply in_or_app. right. left. reflexivity. }
  assert (P2 : no_symbol key2 = true).
  { apply Plain; [exact E2|]. apply in_or_app. right. right.
    apply in_or_app. right. left. reflexivity. }
  destruct key1 as [|k1 w1]; [congruence|].
  destruct key2 as [|k2 w2]; [congruence|].
  unfold formula_of in F. rewrite B in F. cbn [bind fst snd] in F.
  apply bind_ok in F as (st & A & Rp).
  apply (assemble_two_keys _ i m j k1 k2 w1 w2 P1 P2 Ap) in A; [|congruence].
  destruct A as (c1 & o1 & c2 & o2 & C1 & S1 & C2 & S2 & Ef).
  exists c1, o1, c2, o2. repeat split; auto.
  rewrite Ef in Rp.
  replace (c1 ++ o1 ++ "(" ++ String k1 w1 ++ c2 ++ o2 ++ String k2 w2 ++ ")")%string
    with ((c1 ++ o1 ++ "(") ++ String k1 w1 ++ (c2 ++ o2) ++ String k2 w2 ++ ")")%string
    in Rp by (rewrite !append_assoc; reflexivity).
  rewrite repair_two_keys in Rp. injection Rp as <-.
  rewrite !append_assoc. reflexivity.
Qed.

Lemma first_mode_two_keys_bracketed_witness :
  brackets_required (conj_texts_of pair_doc) (arcs pair_doc) = Ok (true, false)
  /\ resolve_all (sample_env pair_doc) 3 abbreviations_dic0
       (segments (conj_texts_of pair_doc) (desc_str_of pair_doc))
     = Some (Ok (repeat "" 0 ++ "S403A" :: repeat "" 0 ++ "P7LGA" :: repeat "" 1))
  /\ get_boolean_formula (sample_env pair_doc) 3 (new_handler pair_prompt) pair_doc
     = Some (set_boolean_formula "+(S403A+P7LGA)"
               (set_response 1 (new_handler pair_prompt)))
  /\ exists c1 o1 c2 o2,
       (c1 = "" \/ c1 = "/") /\ sign o1 /\ (c2 = "" \/ c2 = "/") /\ sign o2
       /\ "+(S403A+P7LGA)" = (c1 ++ o1 ++ "(" ++ "S403A" ++ c2 ++ o2 ++ "P7LGA" ++ ")")%string.
Proof.
  assert (B : brackets_required (conj_texts_of pair_doc) (arcs pair_doc) = Ok (true, false))
    by (vm_compute; reflexivity).
  assert (L : resolve_all (sample_env pair_doc) 3 abbreviations_dic0
                (segments (conj_texts_of pair_doc) (desc_str_of pair_doc))
              = Some (Ok (repeat "" 0 ++ "S403A" :: repeat "" 0 ++ "P7LGA" :: repeat "" 1)))
    by (vm_compute; reflexivity).
  assert (G : get_boolean_formula (sample_env pair_doc) 3 (new_handler pair_prompt) pair_doc
              = Some (set_boolean_formula "+(S403A+P7LGA)"
                        (set_response 1 (new_handler pair_prompt))))
    by (vm_compute; reflexivity).
  split; [exact B|]. split; [exact L|]. split; [exact G|].
  refine (first_mode_two_keys_bracketed (sample_env pair_doc) 3
            (new_handler pair_prompt)
            (set_boolean_formula "+(S403A+P7LGA)"
               (set_response 1 (new_handler pair_prompt)))
            pair_doc 0 0 1 "S403A" "P7LGA" B L _ _ _ _ _ G _);
    [discriminate | discriminate | vm_compute; reflexivity ..].
Defined.

(** ** The trimmed message (line 494) *)

Lemma rev_onto_app (s : string) :
  forall acc, PyStr.rev_onto s acc = (PyStr.rev_onto s "" ++ acc)%string.
Proof.
  induction s as [|c s IH]; intros acc; cbn [PyStr.rev_onto]; [reflexivity|].
  rewrite (IH (String c acc)), (IH (String c "")), append_assoc. reflexivity.
Qed.

Lemma rev_cons (c : ascii) (s : string) :
  PyStr.rev (String c s) = (PyStr.rev s ++ String c "")%string.
Proof. unfold PyStr.rev. cbn [PyStr.rev_onto]. apply rev_onto_app. Qed.

Lemma last_app (p u : string) :
  forall d, Re.last (p ++ u) d = Re.last u (Re.last p d).
Proof.
  induction p as [|c p IH]; intros d; [reflexivity|].
  cbn [append Re.last]. apply IH.
Qed.

Lemma last_rev (u : string) : Re.last (PyStr.rev u) None = Re.head u.
Proof.
  destruct u as [|c u]; [reflexivity|].
  rewrite rev_cons, last_app. reflexivity.
Qed.

Lemma head_app (p u : string) :
  Re.head (p ++ u) = match Re.head p with Some c => Some c | None => Re.head u end.
Proof. destruct p; reflexivity. Qed.

Lemma head_rev (u : string) : Re.head (PyStr.rev u) = Re.last u None.
Proof.
  assert (G : forall u d, Re.head (PyStr.rev u ++ match d with
                                                  | Some c => String c ""
                                                  | None => ""
                                                  end)
                          = Re.last u d).
  { induction u0 as [|c u0 IH]; intros d.
    - destruct d; reflexivity.
    - rewrite rev_cons, append_assoc. cbn [Re.last].
      rewrite <- (IH (Some c)). rewrite !head_app.
      destruct (Re.head (PyStr.rev u0)); [reflexivity|]. destruct d; reflexivity. }
  rewrite <- (G u None), append_empty_r. reflexivity.
Qed.

Lemma lstrip_head (chars s : string) (c : ascii) :
  Re.head (PyStr.lstrip chars s) = Some c -> PyStr.mem_char c chars = false.
Proof.
  induction s as [|x s IH]; cbn [PyStr.lstrip]; [discriminate|].
  destruct (PyStr.mem_char x chars) eqn:M; [exact IH|].
  cbn [Re.head]. intros H. injection H as <-. exact M.
Qed.

Lemma lstrip_suffix (chars s : string) :
  exists p, s = (p ++ PyStr.lstrip chars s)%string.
Proof.
  induction s as [|x s [p IH]]; [exists ""; reflexivity|].
  cbn [PyStr.lstrip]. destruct (PyStr.mem_char x chars).
  - exists (String x p). cbn [append]. rewrite <- IH. reflexivity.
  - exists "". reflexivity.
Qed.

Lemma strip_ends (chars s : string) (c : ascii) :
  Re.head (PyStr.strip chars s) = Some c \/ Re.last (PyStr.strip chars s) None = Some c ->
  PyStr.mem_char c chars = false.
Proof.
  unfold PyStr.strip, PyStr.rstrip.
  set (t := PyStr.lstrip chars s).
  set (u := PyStr.lstrip chars (PyStr.rev t)).
  intros [H|H].
  - rewrite head_rev in H.
    destruct (lstrip_suffix chars (PyStr.rev t)) as [p E]. fold u in E.
    destruct u as [|x u'] eqn:U; [discriminate|].
    assert (L : Re.last (PyStr.rev t) None = Some c).
    { rewrite E, last_app. cbn [Re.last] in *. exact H. }
    rewrite last_rev in L. apply (lstrip_head chars s). exact L.
  - rewrite last_rev in H. apply (lstrip_head chars (PyStr.rev t)). exact H.
Qed.

(** X14.  The message of a failure payload is trimmed at both ends: it
    neither begins nor ends with a full stop or a space (so a cause that ends
    in a full stop loses it when it comes last). *)
Theorem failure_message_is_trimmed (h : Handler) :
  response h <> 1%Z ->
  exists s,
    get_request_body h = Message [s]
    /\ s = PyStr.strip ". " (message h)
    /\ (forall c, Re.head s = Some c -> PyStr.mem_char c ". " = false)
    /\ (forall c, Re.last s None = Some c -> PyStr.mem_char c ". " = false).
Proof.
  intros R. exists (PyStr.strip ". " (message h)).
  split.
  - unfold get_request_body.
    destruct (Z.eqb_spec (response h) 1); [contradiction | reflexivity].
  - split; [reflexivity|].
    split; intros c H; apply (strip_ends ". " (message h)); auto.
Qed.

Lemma failure_message_is_trimmed_witness :
  get_request_body (set_message ". Stopped at step 3. " (new_handler ""))
  = Message ["Stopped at step 3"]
  /\ exists s,
       get_request_body (set_message ". Stopped at step 3. " (new_handler ""))
       = Message [s]
       /\ s = PyStr.strip ". " ". Stopped at step 3. "
       /\ (forall c, Re.head s = Some c -> PyStr.mem_char c ". " = false)
       /\ (forall c, Re.last s None = Some c -> PyStr.mem_char c ". " = false).
Proof.
  split; [vm_compute; reflexivity|].
  apply (failure_message_is_trimmed (set_message ". Stopped at step 3. " (new_handler ""))).
  discriminate.
Defined.

(** ** Brackets need both cue words (lines 325-336, 366-407) *)

Definition bracket_free (f : string) : Prop :=
  PyStr.mem_char "("%char f = false /\ PyStr.mem_char ")"%char f = false.

Lemma bracket_free_app (a b : string) :
  bracket_free a -> bracket_free b -> bracket_free (a ++ b).
Proof.
  intros [A1 A2] [B1 B2]. unfold bracket_free.
  rewrite !mem_char_app, A1, A2, B1, B2. auto.
Qed.

Lemma bracket_free_conj (c : string) : c = "" \/ c = "/" -> bracket_free c.
Proof. intros [-> | ->]; split; reflexivity. Qed.

Lemma bracket_free_sign (o : string) : sign o -> bracket_free o.
Proof. intros [-> | [-> | ->]]; split; reflexivity. Qed.

Lemma bracket_free_key (key : string) :
  key = "" \/ no_symbol key = true -> bracket_free key.
Proof.
  intros [->|P]; [split; reflexivity|].
  split; apply no_symbol_mem; auto.
Qed.

Lemma one_cue_word_no_grouping (conj_texts : list string) (arcs : list Arc) :
  ~ (In "and" conj_texts /\ In "or" conj_texts) ->
  brackets_required conj_texts arcs = Ok (false, false).
Proof.
  intros N. unfold brackets_required.
  destruct (1 <? PyStr.inter_size conj_texts ["and"; "or"])%nat eqn:E; [|reflexivity].
  exfalso. apply N. apply Nat.ltb_lt in E. unfold PyStr.inter_size in E.
  pose proof (NoDup_nodup string_dec
                (filter (fun x => PyStr.mem x ["and"; "or"]) conj_texts)) as ND.
  assert (Mem : forall x,
            In x (nodup string_dec (filter (fun x => PyStr.mem x ["and"; "or"]) conj_texts)) ->
            In x conj_texts /\ (x = "and" \/ x = "or")).
  { intros x X. apply nodup_In, filter_In in X as [X M]. split; [exact X|].
    unfold PyStr.mem in M. cbn [existsb] in M.
    apply orb_true_iff in M as [M|M]; [left; apply String.eqb_eq; exact M|].
    apply orb_true_iff in M as [M|M]; [right; apply String.eqb_eq; exact M|].
    discriminate. }
  destruct (nodup string_dec (filter (fun x => PyStr.mem x ["and"; "or"]) conj_texts))
    as [|x [|y l]]; cbn [List.length] in E; try lia.
  destruct (Mem x (or_introl eq_refl)) as [Ix Cx].
  destruct (Mem y (or_intror (or_introl eq_refl))) as [Iy Cy].
  apply NoDup_cons_iff in ND as [Nx _].
  destruct Cx as [-> | ->], Cy as [-> | ->]; auto;
    exfalso; apply Nx; left; reflexivity.
Qed.

Lemma assemble_step_bracket_free (conj_texts lst : list string) (ind : nat)
    (txt : string) (st st' : Asm) :
  Forall (fun itm => itm = "" \/ no_symbol itm = true) lst ->
  asm_bracket st = "" ->
  sign (asm_opertor st) ->
  bracket_free (asm_formula st) ->
  assemble_step false false conj_texts lst ind txt st = Ok st' ->
  asm_bracket st' = "" /\ sign (asm_opertor st') /\ bracket_free (asm_formula st').
Proof.
  intros K Br Sg Bf H. unfold assemble_step in H.
  apply bind_ok in H as (c & C & H). apply conj_of_cases in C.
  apply bind_ok in H as (key & N & H).
  assert (Kk : key = "" \/ no_symbol key = true).
  { rewrite Forall_forall in K. apply K. eapply py_nth_In; eauto. }
  injection H as <-. cbn [asm_bracket asm_opertor asm_formula].
  split; [reflexivity|]. split; [apply opertor_of_sign; exact Sg|].
  destruct (0 <? String.length key)%nat; cbn [fst snd]; rewrite ?Br;
    repeat apply bracket_free_app; auto using bracket_free_conj, bracket_free_key;
    try (split; reflexivity).
  apply bracket_free_sign, opertor_of_sign, Sg.
Qed.

Lemma assemble_bracket_free (conj_texts lst : list string) (segs : list string) :
  forall ind st st',
  Forall (fun itm => itm = "" \/ no_symbol itm = true) lst ->
  asm_bracket st = "" ->
  sign (asm_opertor st) ->
  bracket_free (asm_formula st) ->
  assemble false false conj_texts lst ind segs st = Ok st' ->
  bracket_free (asm_formula st').
Proof.
  induction segs as [|txt segs IH]; intros ind st st' K Br Sg Bf H; cbn [assemble] in H.
  - injection H as <-. exact Bf.
  - apply bind_ok in H as (st1 & St & H).
    destruct (assemble_step_bracket_free _ _ _ _ _ _ K Br Sg Bf St) as (Br1 & Sg1 & Bf1).
    eapply IH; eauto.
Qed.

Lemma repair_loop_bracket_free (ws : list string) :
  forall bf f,
  Forall (fun itm => itm = "" \/ no_symbol itm = true) ws ->
  bracket_free bf ->
  repair_loop ws bf = Ok f ->
  bracket_free f.
Proof.
  induction ws as [|w ws IH]; intros bf f K Bf H; cbn [repair_loop] in H.
  - injection H as <-. exact Bf.
  - apply Forall_cons_iff in K as [Kw K].
    destruct (negb (PyStr.contains w bf)); [|eapply IH; eauto].
    apply bind_ok in H as (c & C & H).
    apply (IH _ _ K) in H; [exact H|].
    apply bracket_free_app; [exact Bf|].
    apply bracket_free_app; [|apply bracket_free_key; exact Kw].
    destruct bf as [|x bf]; [discriminate|]. injection C as <-.
    destruct Bf as [B1 B2]. cbn [PyStr.mem_char] in B1, B2.
    apply orb_false_iff in B1 as [B1 _]. apply orb_false_iff in B2 as [B2 _].
    split; cbn [PyStr.mem_char]; rewrite ?B1, ?B2; reflexivity.
Qed.

(** X15.  Brackets need both cue words: when the cue tokens do not contain
    both "and" and "or" (one of them repeated, commas and full stops only, or
    none), the formula the synthesizer stores has no "(" and no ")",
    whatever the arcs, for every catalog whose keys contain no formula symbol
    (as the keys of the built-in abbreviation catalog). *)
Theorem no_bracket_without_both_cue_words (env : Env) (fuel : nat) (h h' : Handler)
    (doc : Doc) :
  ~ (In "and" (conj_texts_of doc) /\ In "or" (conj_texts_of doc)) ->
  forallb no_symbol (dict_keys (abbreviations_dic h)) = true ->
  get_boolean_formula env fuel h doc = Some h' ->
  PyStr.contains "(" (boolean_formula h') = false
  /\ PyStr.contains ")" (boolean_formula h') = false.
Proof.
  intros N P G. rewrite !contains_char.
  change (bracket_free (boolean_formula h')).
  destruct (Z.eq_dec (response h') 1) as [R|R].
  - destruct (get_boolean_formula_ok _ _ _ _ _ G R) as (lst & f & L & F & ->).
    cbn [boolean_formula set_boolean_formula].
    apply resolve_all_keys in L as [_ Ks].
    assert (K : Forall (fun itm => itm = "" \/ no_symbol itm = true) lst).
    { rewrite Forall_forall in *. intros x X. destruct (Ks x X) as [->|Hin]; [auto|].
      right. rewrite forallb_forall in P. auto. }
    unfold formula_of in F.
    rewrite (one_cue_word_no_grouping _ (arcs doc) N) in F. cbn [bind fst snd] in F.
    apply bind_ok in F as (st & A & Rp).
    apply (assemble_bracket_free _ _ _ _ _ _ K) in A;
      [|reflexivity | left; reflexivity | split; reflexivity].
    unfold repair in Rp.
    destruct (0 <? List.length
                (filter (fun word => negb (PyStr.contains word (asm_formula st))) lst))%nat.
    + eapply repair_loop_bracket_free; eauto.
    + injection Rp as <-. exact A.
  - destruct (get_boolean_formula_fault _ _ _ _ _ G R) as [-> _]. split; reflexivity.
Qed.

Lemma no_bracket_without_both_cue_words_witness :
  conj_texts_of and_doc = ["and"]
  /\ get_boolean_formula (sample_env and_doc) 3 (new_handler and_prompt) and_doc
     = Some (set_boolean_formula "+S403A+P7LGA" (set_response 1 (new_handler and_prompt)))
  /\ PyStr.contains "(" "+S403A+P7LGA" = false
  /\ PyStr.contains ")" "+S403A+P7LGA" = false.
Proof.
  assert (G : get_boolean_formula (sample_env and_doc) 3 (new_handler and_prompt) and_doc
              = Some (set_boolean_formula "+S403A+P7LGA"
                        (set_response 1 (new_handler and_prompt))))
    by (vm_compute; reflexivity).
  split; [vm_compute; reflexivity|]. split; [exact G|].
  refine (no_bracket_without_both_cue_words (sample_env and_doc) 3
            (new_handler and_prompt)
            (set_boolean_formula "+S403A+P7LGA" (set_response 1 (new_handler and_prompt)))
            and_doc _ _ G).
  - intros [_ [H|[]]]. discriminate.
  - vm_compute. reflexivity.
Defined.

(** * The fuzzy fallback inside [get_model_codes] (lines 215-232) *)

Lemma option_eqb_str_true (o : option string) (value : string) :
  option_eqb_str o value = true -> o = Some value.
Proof.
  destruct o as [v|]; cbn [option_eqb_str]; [|discriminate].
  intros E. apply String.eqb_eq in E. congruence.
Qed.

Lemma append_keys_keeps (d : dict) (value key : string) (keys : list string) :
  forall model_code, In key model_code -> In key (append_keys d value keys model_code).
Proof.
  induction keys as [|k keys IH]; intros mc H; cbn [append_keys]; [exact H|].
  apply IH. destruct (option_eqb_str (dict_get d k) value); [|exact H].
  apply in_or_app. left. exact H.
Qed.

Lemma append_keys_only (d : dict) (value key : string) (keys : list string) :
  forall model_code,
  In key (append_keys d value keys model_code) ->
  In key model_code \/ (In key keys /\ dict_get d key = Some value).
Proof.
  induction keys as [|k keys IH]; intros mc H; cbn [append_keys] in H; [left; exact H|].
  apply IH in H. destruct H as [H|[H G]]; [|right; split; [right; exact H | exact G]].
  destruct (option_eqb_str (dict_get d k) value) eqn:E; [|left; exact H].
  apply in_app_or in H. destruct H as [H|[<-|[]]]; [left; exact H|].
  right. split; [left; reflexivity|]. apply option_eqb_str_true. exact E.
Qed.

Lemma fuzzy_value_cases (env : Env) (d : dict) (txt value : string)
    (model_code result : list string) :
  fuzzy_value env d txt value model_code = Ok result ->
  (result = append_keys d value (dict_keys d) model_code
   /\ first_word_hit env (PyStr.split (PyStr.remove_all "," txt)) value)
  \/ (result = model_code
      /\ ~ first_word_hit env (PyStr.split (PyStr.remove_all "," txt)) value).
Proof.
  unfold fuzzy_value, first_word_hit.
  destruct (PyStr.split (PyStr.lower value)) as [|v rest].
  - intros E. right. split; [congruence|]. intros (v & rest & D & _). discriminate.
  - destruct (py_max (map (fun word => fuzz_ratio env v word)
                        (PyStr.split (PyStr.remove_all "," txt)))) as [m|e] eqn:M;
      cbn [bind]; [|discriminate].
    destruct (m =? 100)%Z eqn:T; intros E.
    + left. split; [congruence|]. apply Z.eqb_eq in T. subst m.
      exists v, rest. split; [reflexivity | exact M].
    + right. split; [congruence|]. intros (v' & rest' & D & M').
      injection D as <- <-. rewrite M in M'. injection M' as ->. discriminate.
Qed.

Lemma fuzzy_pass_keeps (env : Env) (d : dict) (txt key : string) (values : list string) :
  forall model_code result,
  fuzzy_pass env d txt values model_code = Ok result ->
  In key model_code -> In key result.
Proof.
  induction values as [|value values IH]; intros mc r H K; cbn [fuzzy_pass] in H.
  - congruence.
  - destruct (fuzzy_value env d txt value mc) as [mc'|e] eqn:V; [|discriminate].
    cbn [bind] in H. apply (IH _ _ H).
    destruct (fuzzy_value_cases _ _ _ _ _ _ V) as [[-> _]|[-> _]];
      [apply append_keys_keeps|]; exact K.
Qed.

(** Every key of a phrase whose first word scores 100 is recorded. *)
Lemma fuzzy_pass_records (env : Env) (d : dict) (txt value key : string)
    (values : list string) :
  forall model_code result,
  fuzzy_pass env d txt values model_code = Ok result ->
  In value values ->
  first_word_hit env (PyStr.split (PyStr.remove_all "," txt)) value ->
  In key (dict_keys d) -> dict_get d key = Some value ->
  In key result.
Proof.
  induction values as [|value' values IH]; intros mc r H Hin Hit K G; [destruct Hin|].
  cbn [fuzzy_pass] in H.
  destruct (fuzzy_value env d txt value' mc) as [mc'|e] eqn:V; [|discriminate].
  cbn [bind] in H. destruct Hin as [->|Hin]; [|exact (IH _ _ H Hin Hit K G)].
  apply (fuzzy_pass_keeps _ _ _ _ _ _ _ H).
  destruct (fuzzy_value_cases _ _ _ _ _ _ V) as [[-> _]|[_ N]]; [|contradiction].
  apply append_keys_in; assumption.
Qed.

(** Nothing else is recorded. *)
Lemma fuzzy_pass_only (env : Env) (d : dict) (txt key : string) (values : list string) :
  forall model_code result,
  fuzzy_pass env d txt values model_code = Ok result ->
  In key result ->
  In key model_code
  \/ exists value,
       In value values /\ dict_get d key = Some value
       /\ first_word_hit env (PyStr.split (PyStr.remove_all "," txt)) value.
Proof.
  induction values as [|value values IH]; intros mc r H K; cbn [fuzzy_pass] in H.
  - left. congruence.
  - destruct (fuzzy_value env d txt value mc) as [mc'|e] eqn:V; [|discriminate].
    cbn [bind] in H.
    destruct (IH _ _ H K) as [K'|(value' & Hin & G & Hit)].
    + destruct (fuzzy_value_cases _ _ _ _ _ _ V) as [[-> Hit]|[-> _]]; [|left; exact K'].
      apply append_keys_only in K'. destruct K' as [K'|[_ G]]; [left; exact K'|].
      right. exists value. repeat split; [left; reflexivity | exact G | exact Hit].
    + right. exists value'. repeat split; [right; exact Hin | exact G | exact Hit].
Qed.

Lemma first_word_hit_words (env : Env) (words : list string) (value : string) :
  first_word_hit env words value -> words <> [].
Proof. intros (v & rest & _ & M) ->. discriminate. Qed.

(** C7.  In [get_model_codes] the fuzzy pass runs only when text remains
    after the exact pass: with no text left the matcher stores the keys of
    the exact pass.  When text remains, the matcher runs the pass on the
    words of that text and tests each catalog phrase through the first word
    of its lower-cased word list only: every key of a phrase whose first
    word scores 100 against the words of the remaining text is stored in
    [model_code]; a stored key comes from the exact pass or from such a
    phrase; and the handler the matcher returns is the same under any
    scorer that agrees on the first words of the phrases, whatever it says
    of their other words. *)
Theorem fuzzy_fallback_tests_first_word_only (env : Env) (h : Handler) (doc : Doc) :
  let d := model_codes_dic h in
  let st := exact_pass d (dict_values d) ([], doc_text doc) in
  let words := PyStr.split (PyStr.remove_all "," (snd st)) in
  let h' := get_model_codes env h doc in
  (snd st = "" -> h' = set_model_code (fst st) (set_response 1 h))
  /\ (snd st <> "" ->
      (forall value key,
         In value (dict_values d) -> first_word_hit env words value ->
         In key (dict_keys d) -> dict_get d key = Some value ->
         response h' = 1%Z /\ In key (model_code h'))
      /\ (response h' = 1%Z ->
          forall key, In key (model_code h') ->
          In key (fst st)
          \/ exists value,
               In value (dict_values d) /\ dict_get d key = Some value
               /\ first_word_hit env words value)
      /\ (forall env2,
            (forall value v rest w,
               In value (dict_values d) ->
               PyStr.split (PyStr.lower value) = v :: rest ->
               In w words ->
               fuzz_ratio env v w = fuzz_ratio env2 v w) ->
            get_model_codes env2 h doc = h')).
Proof.
  cbv zeta. unfold get_model_codes, model_codes_body. cbv zeta.
  set (d := model_codes_dic h).
  set (st := exact_pass d (dict_values d) ([], doc_text doc)).
  split.
  - intros ->. reflexivity.
  - intros N.
    assert (L : (0 <? String.length (snd st))%nat = true).
    { destruct (snd st); [congruence | reflexivity]. }
    rewrite L. split; [|split].
    + intros value key Hin Hit K G.
      destruct (fuzzy_pass env d (snd st) (dict_values d) (fst st)) as [r|e] eqn:F.
      * cbn [response model_code set_model_code set_response].
        split; [reflexivity|].
        exact (fuzzy_pass_records _ _ _ _ _ _ _ _ F Hin Hit K G).
      * exfalso. apply (first_word_hit_words _ _ _ Hit).
        exact (proj1 (proj2 (fuzzy_pass_raises _ _ _ _ _ _ F))).
    + destruct (fuzzy_pass env d (snd st) (dict_values d) (fst st)) as [r|e] eqn:F.
      * cbn [response model_code set_model_code set_response].
        intros _ key K. exact (fuzzy_pass_only _ _ _ _ _ _ _ F K).
      * cbn [response add_message set_message set_response]. discriminate.
    + intros env2 A.
      rewrite (fuzzy_pass_ext env env2 d (snd st) (dict_values d) (fst st) A).
      reflexivity.
Qed.

Lemma fuzzy_fallback_tests_first_word_only_witness :
  snd (exact_pass model_codes_dic0 (dict_values model_codes_dic0)
         ([], doc_text first_word_doc)) = "x7 with sunroof"
  /\ first_word_hit (sample_env first_word_doc) ["x7"; "with"; "sunroof"] "X7 xDrive40i"
  /\ response (get_model_codes (sample_env first_word_doc)
                 (new_handler first_word_prompt) first_word_doc) = 1%Z
  /\ In "21EM" (model_code (get_model_codes (sample_env first_word_doc)
                              (new_handler first_word_prompt) first_word_doc))
  /\ fuzz_ratio (later_words_env first_word_doc) "xdrive40i" "with" = 100%Z
  /\ get_model_codes (later_words_env first_word_doc)
       (new_handler first_word_prompt) first_word_doc
     = get_model_codes (sample_env first_word_doc)
         (new_handler first_word_prompt) first_word_doc.
Proof.
  assert (R : snd (exact_pass model_codes_dic0 (dict_values model_codes_dic0)
                     ([], doc_text first_word_doc)) = "x7 with sunroof")
    by (vm_compute; reflexivity).
  assert (Hit : first_word_hit (sample_env first_word_doc) ["x7"; "with"; "sunroof"]
                  "X7 xDrive40i").
  { exists "x7", ["xdrive40i"]. split; vm_compute; reflexivity. }
  assert (N : snd (exact_pass (model_codes_dic (new_handler first_word_prompt))
                     (dict_values (model_codes_dic (new_handler first_word_prompt)))
                     ([], doc_text first_word_doc)) <> "")
    by (vm_compute; discriminate).
  destruct (proj2 (fuzzy_fallback_tests_first_word_only (sample_env first_word_doc)
                     (new_handler first_word_prompt) first_word_doc) N)
    as (Rec & _ & Ext).
  split; [exact R|]. split; [exact Hit|].
  destruct (Rec "X7 xDrive40i" "21EM") as [R1 K1].
  - vm_compute. auto.
  - exact Hit.
  - vm_compute. auto.
  - vm_compute. reflexivity.
  - split; [exact R1|]. split; [exact K1|]. split; [reflexivity|].
    apply Ext. intros value v rest w Hin S _.
    cbn in Hin.
    repeat (destruct Hin as [<-|Hin];
            [vm_compute in S; injection S as <- _; reflexivity|]).
    destruct Hin.
Defined.
